(** * A shallow embedding of the knowledge-base backend

    The development follows the layout of the repository:

    - [Py]: the handful of Python [str] / [bytes] primitives the code uses;
    - the exception-and-state monad the service methods run in, with a
      trace of every call made to code outside the repository;
    - [Builtins] and [Externals]: the interface to that outside code
      (pathlib, os, shutil, LangChain, Chroma, SQLAlchemy, requests);
    - [KnowledgeBaseService], [CompanyDocumentService], [Routes] and
      [OpenAIService]: the repository's own functions, method by method;
    - [Ref]: a reference implementation of the interface on finite maps;
    - [Spec] and [Examples]: the specification's wording where it is
      compared with the code, and concrete inputs;
    - the properties: those of the methods hold for every implementation
      of the interface, those about files, stores and rows are stated in
      the reference world. *)

From Stdlib Require Import String Ascii List ZArith Lia Bool.
From Stdlib Require Import Decimal DecimalString PrimFloat.
From stdpp Require Import base option list gmap strings.

Set Warnings "-inexact-float".

Open Scope string_scope.

(** ** Python primitives

    A [str] is a [string] whose elements stand for its characters, and
    [len] is [String.length]. *)

Module Py.

(** [str.lower], on the ASCII letters. *)
Definition lower_ascii (c : ascii) : ascii :=
  let n := nat_of_ascii c in
  if (65 <=? n)%nat && (n <=? 90)%nat then ascii_of_nat (n + 32) else c.

Fixpoint lower (s : string) : string :=
  match s with
  | EmptyString => EmptyString
  | String c r => String (lower_ascii c) (lower r)
  end.

(** [s.endswith(suffix)] *)
Fixpoint endswith (s suffix : string) : bool :=
  String.eqb s suffix
  || match s with
     | EmptyString => false
     | String _ r => endswith r suffix
     end.

(** [s.replace(old, new)]: every non-overlapping occurrence of [old],
    scanning from the left.  [skip] counts the characters of a matched
    occurrence that are still to be dropped. *)
Fixpoint replace_from (old new : string) (skip : nat) (s : string) : string :=
  match s with
  | EmptyString => EmptyString
  | String c r =>
      match skip with
      | S k => replace_from old new k r
      | O =>
          if String.prefix old s
          then new +:+ replace_from old new (String.length old - 1) r
          else String c (replace_from old new 0 r)
      end
  end.

Fixpoint intersperse_after (new s : string) : string :=
  match s with
  | EmptyString => EmptyString
  | String c r => String c (new +:+ intersperse_after new r)
  end.

Definition replace (s old new : string) : string :=
  match old with
  | EmptyString => new +:+ intersperse_after new s
  | _ => replace_from old new 0 s
  end.

(** [s[:n]] *)
Fixpoint slice_to (n : nat) (s : string) : string :=
  match n, s with
  | S k, String c r => String c (slice_to k r)
  | _, _ => EmptyString
  end.

(** [str(n)] for an [int] *)
Definition str_of_nat (n : nat) : string := NilEmpty.string_of_uint (Nat.to_uint n).
Definition str_of_int (z : Z) : string := NilEmpty.string_of_int (Z.to_int z).

(** [bytes] values and [b.startswith(prefix)] *)
Definition bytes := list Byte.byte.

Fixpoint bytes_startswith (b prefix : bytes) : bool :=
  match prefix, b with
  | [], _ => true
  | p :: ps, x :: xs => Byte.eqb p x && bytes_startswith xs ps
  | _ :: _, [] => false
  end.

(** The values a JSON body or a metadata entry can hold. *)
#[local] Unset Elimination Schemes.
Inductive value :=
| VNone
| VBool (b : bool)
| VInt (z : Z)
| VFloat (f : float)
| VStr (s : string)
| VList (l : list value)
| VDict (d : list (string * value)).
#[local] Set Elimination Schemes.

Fixpoint dict_get (d : list (string * value)) (k : string) : option value :=
  match d with
  | [] => None
  | (k', v) :: r => if String.eqb k' k then Some v else dict_get r k
  end.

(** Is [sub] a substring of [s] ([sub in s] on [str])? *)
Fixpoint contains (s sub : string) : bool :=
  String.prefix sub s
  || match s with
     | EmptyString => false
     | String _ r => contains r sub
     end.

End Py.

(** ** Exceptions and outcomes *)

(** An instance of a subclass of Python's [Exception] other than FastAPI's
    [HTTPException]: the name of its class and [str(e)].  These are the
    exceptions that [except Exception] catches; [KeyboardInterrupt] and
    the like are no part of the model. *)
Record pyexc := PyExc { exc_type : string; exc_str : string }.

Definition Exception (msg : string) : pyexc := PyExc "Exception" msg.
Definition ValueError (msg : string) : pyexc := PyExc "ValueError" msg.
Definition TypeError (msg : string) : pyexc := PyExc "TypeError" msg.
Definition HTTPError (msg : string) : pyexc := PyExc "HTTPError" msg.

(** What a route handler can raise: [HTTPException] is a subclass of
    [Exception] that the routes treat apart. *)
Inductive exn :=
| Py (e : pyexc)
| HTTPException (status_code : nat) (detail : string).

(** [str(e)]; Starlette prints an [HTTPException] as [status: detail]. *)
Definition str_exn (e : exn) : string :=
  match e with
  | Py e => exc_str e
  | HTTPException status_code detail => Py.str_of_nat status_code +:+ ": " +:+ detail
  end.

Inductive result (E A : Type) :=
| Return (a : A)
| Raise (e : E).
Arguments Return {E A} a.
Arguments Raise {E A} e.

(** ** Data *)

(** LangChain's [Document]. *)
Record Document := { page_content : string; metadata : list (string * Py.value) }.

(** The keyword arguments given to [RecursiveCharacterTextSplitter]. *)
Record RecursiveCharacterTextSplitter := {
  chunk_size : nat;
  chunk_overlap : nat;
  length_function : string -> nat
}.

(** The dictionary a [RetrievalQA] chain returns; a key may be absent. *)
Record QAResult := {
  qa_result : option string;
  qa_source_documents : option (list Document)
}.

(** The ORM class of api/models/company_document_model.py.  [id] is [None]
    until the row has been flushed. *)
Module Model.
Record CompanyDocument := {
  id : option Z;
  company_name : string;
  file_name : string;
  file_path : string;
  vector_store_path : option string;
  description : option string;
  created_at : option nat;
  updated_at : option nat
}.
End Model.

(** The arguments of one [requests] POST.  A keyword argument that the call
    does not pass is [None] here; [post_proxies] is [Some None] when the call
    passes [proxies=None].  [post_via_session] tells [session.post] from the
    module-level [requests.post]. *)
Record PostRequest := {
  post_via_session : bool;
  post_url : option string;
  post_json : list (string * Py.value);
  post_timeout : nat;
  post_headers : option (list (string * string));
  post_verify : bool;
  post_proxies : option (option (list (string * string)))
}.

(** A [requests.Response]: what [raise_for_status] would report, and what
    [response.json()] yields. *)
Record Response := {
  resp_status_code : nat;
  resp_elapsed : string;
  resp_http_error_msg : string;
  resp_json : result pyexc Py.value
}.

(** [subprocess.CompletedProcess] *)
Record CompletedProcess := { returncode : Z; stderr : Py.bytes }.

(** ** The trace of outside calls *)

Inductive level := INFO | WARNING | ERROR.

Inductive Event :=
| Log (lvl : level) (msg : string)
| CallPathExists (p : string)
| CallMkdir (p : string)
| CallOsRemove (p : string)
| CallRmtree (p : string)
| CallOpenWrite (p : string) (content : Py.bytes)
| CallPdfLoad (file_path : string)
| CallSplitDocuments (splitter : RecursiveCharacterTextSplitter) (documents : list Document)
| CallChromaFromDocuments (documents : list Document) (persist_directory : string)
| CallChroma (persist_directory : string)
| CallRetrievalQA (persist_directory : string) (k : nat) (prompt : string) (query : string)
| CallDbAdd (row : Model.CompanyDocument)
| CallDbCommit
| CallDbRefresh (row : Model.CompanyDocument)
| CallDbRollback
| CallDbDelete (row : Model.CompanyDocument)
| CallDbQueryByCompany (company_name : string)
| CallDbQueryFirstById (document_id : Z)
| CallPoolClear
| CallGetHostByName (host : string)
| CallSubprocessRun (argv : list string) (timeout : nat)
| CallPost (request : PostRequest).

(** ** The monad of the service methods

    A computation threads the outside world [W] and the trace, and ends in
    a value or in a raised exception of type [E]. *)

Record State (W : Type) := mkState { world : W; trace : list Event }.
Arguments mkState {W} world trace.
Arguments world {W} s.
Arguments trace {W} s.

Definition M (W E A : Type) : Type := State W -> result E A * State W.

(** An operation of the outside world: it sees and changes [W] only. *)
Definition ext (W A : Type) : Type := W -> result pyexc A * W.

Section Monad.
Context {W E : Type}.

Definition ret {A} (a : A) : M W E A := fun s => (Return a, s).

Definition bind {A B} (c : M W E A) (k : A -> M W E B) : M W E B :=
  fun s =>
    match c s with
    | (Return a, s') => k a s'
    | (Raise e, s') => (Raise e, s')
    end.

Definition raise {A} (e : E) : M W E A := fun s => (Raise e, s).

Definition emit (ev : Event) : M W E unit :=
  fun s => (Return tt, mkState (world s) (trace s ++ [ev])).

(** [logger.info], [logger.warning], [logger.error] *)
Definition log (lvl : level) (msg : string) : M W E unit := emit (Log lvl msg).

(** Read the world without changing it. *)
Definition gets {A} (f : W -> A) : M W E A := fun s => (Return (f (world s)), s).

End Monad.

(** [try: body except Exception as e: handler e] *)
Definition try_except {W E E' A} (body : M W E A) (handler : E -> M W E' A) : M W E' A :=
  fun s =>
    match body s with
    | (Return a, s') => (Return a, s')
    | (Raise e, s') => handler e s'
    end.

(** A call to an outside operation: the call and its arguments go to the
    trace, then the operation runs on the world. *)
Definition call {W A} (ev : Event) (op : ext W A) : M W pyexc A :=
  fun s =>
    match op (world s) with
    | (r, w') => (r, mkState w' (trace s ++ [ev]))
    end.

(** A service method called from a route: its exceptions are ordinary
    Python exceptions. *)
Definition lift {W A} (c : M W pyexc A) : M W exn A :=
  try_except c (fun e => raise (Py e)).

Declare Scope py_scope.
Delimit Scope py_scope with py.
Notation "x ← y ; z" := (bind y (fun x => z))
  (at level 20, y at level 100, z at level 200, only parsing) : py_scope.
Notation "x ;; z" := (bind x (fun _ => z))
  (at level 100, z at level 200, only parsing, right associativity) : py_scope.

(** [for x in xs: body x] *)
Fixpoint for_each {W E A} (xs : list A) (body : A -> M W E unit) : M W E unit :=
  match xs with
  | [] => ret tt
  | x :: r => bind (body x) (fun _ => for_each r body)
  end.

(** ** The interface to the code outside the repository

    Everything the services call but do not define.  Each operation may
    return or raise, and may change the world; the theorems that hold for
    every implementation are stated against this interface.  A path is
    the string [str(path)]. *)

(** Pure library functions. *)
Class Builtins := {
  (** [base / segment] on [pathlib.Path] *)
  path_truediv : string -> string -> string;
  (** [repr(v)] *)
  py_repr : Py.value -> string;
  (** [b.decode()] *)
  bytes_decode : Py.bytes -> result pyexc string
}.

Class Externals (W : Type) := {
  (** [path.exists()] on a [pathlib.Path]; it raises what [stat] raises,
      but for a missing path *)
  path_exists : string -> ext W bool;
  (** [path.mkdir(parents=True, exist_ok=True)] *)
  path_mkdir : string -> ext W unit;
  (** [os.path.exists(path)], which never raises *)
  os_path_exists : string -> W -> bool;
  (** [os.remove(path)] *)
  os_remove : string -> ext W unit;
  (** [shutil.rmtree(path)] *)
  shutil_rmtree : string -> ext W unit;
  (** [with open(path, "wb") as f: f.write(content)] *)
  open_write : string -> Py.bytes -> ext W unit;
  (** [os.getenv(name)] *)
  os_getenv : string -> W -> option string;
  (** [PyPDFLoader(file_path).load()] *)
  PyPDFLoader_load : string -> ext W (list Document);
  (** [text_splitter.split_documents(documents)] *)
  split_documents : RecursiveCharacterTextSplitter -> list Document -> ext W (list Document);
  (** [Chroma.from_documents(documents=..., embedding=self.embeddings,
      persist_directory=...)] *)
  Chroma_from_documents : list Document -> string -> ext W unit;
  (** [Chroma(persist_directory=..., embedding_function=self.embeddings)];
      the store object is known by its directory *)
  Chroma_open : string -> ext W unit;
  (** [RetrievalQA.from_chain_type(llm=self.llm, chain_type="stuff",
      retriever=vector_store.as_retriever(search_kwargs={"k": k}),
      chain_type_kwargs={"prompt": PROMPT},
      return_source_documents=True).invoke({"query": query})], given the
      directory of the store, [k], the prompt template and the query *)
  RetrievalQA_invoke : string -> nat -> string -> string -> ext W QAResult;
  (** [db.add(obj)], [db.commit()], [db.refresh(obj)] (which yields the
      reloaded object), [db.rollback()], [db.delete(obj)] on the session *)
  db_add : Model.CompanyDocument -> ext W unit;
  db_commit : ext W unit;
  db_refresh : Model.CompanyDocument -> ext W Model.CompanyDocument;
  db_rollback : ext W unit;
  db_delete : Model.CompanyDocument -> ext W unit;
  (** [db.query(CompanyDocument).filter(CompanyDocument.company_name == name).all()] *)
  db_query_by_company : string -> ext W (list Model.CompanyDocument);
  (** [db.query(CompanyDocument).filter(CompanyDocument.id == document_id).first()] *)
  db_query_first_by_id : Z -> ext W (option Model.CompanyDocument);
  (** [self.session.poolmanager.clear()] *)
  poolmanager_clear : ext W unit;
  (** [socket.gethostbyname(host)] *)
  socket_gethostbyname : string -> ext W string;
  (** [subprocess.run(argv, capture_output=True, timeout=...)] *)
  subprocess_run : list string -> nat -> ext W CompletedProcess;
  (** [requests.post(...)] and [self.session.post(...)] *)
  requests_post : PostRequest -> ext W Response
}.

(** ** api/services/knowledge_base_service.py *)

Module KnowledgeBaseService.

(** [self]: the attribute the methods read. *)
Record t := { base_dir : string }.

(** The dictionary [upload_and_process_pdf] returns. *)
Record UploadResult := {
  vector_store_path : string;
  document_count : nat;
  chunk_count : nat;
  status : string
}.

(** One entry of [sources], and the dictionary [answer_question] returns. *)
Record Source := { page : Py.value; content : string }.

Record Answer := {
  answer : string;
  sources : list Source;
  confidence_score : float
}.

Definition prompt_template : string :=
"Use the following pieces of context to answer the question at the end. 
If you don't know the answer, just say that you don't know, don't try to make up an answer.

Context: {context}

Question: {question}

Answer in Persian (فارسی):".

Definition no_answer : string := "پاسخی یافت نشد.".

(** [doc.page_content[:200] + "..." if len(doc.page_content) > 200 else doc.page_content] *)
Definition snippet (page_content : string) : string :=
  if (200 <? String.length page_content)%nat
  then Py.slice_to 200 page_content +:+ "..."
  else page_content.

Definition source_of (doc : Document) : Source :=
  {| page := default (Py.VStr "unknown") (Py.dict_get (metadata doc) "page");
     content := snippet (page_content doc) |}.

Section Methods.
Context `{Builtins} {W : Type} `{Externals W} (self : t).
Local Open Scope py_scope.

Definition get_vector_store_path (company_name : string) : string :=
  let safe_company_name := Py.replace (Py.replace company_name " " "_") "/" "_" in
  path_truediv (base_dir self) safe_company_name.

(** Each method below is [try: <method>_try except Exception as e: ...];
    the [try] block is named so that the theorems can speak of what is
    raised inside it. *)

Definition upload_and_process_pdf_try (file_path company_name : string)
    (description : option string) : M W pyexc UploadResult :=
  log INFO ("Processing PDF for company: " +:+ company_name) ;;
  documents ← call (CallPdfLoad file_path) (PyPDFLoader_load file_path);
  match documents with
  | [] => raise (ValueError "PDF file is empty or could not be read")
  | _ :: _ => ret tt
  end ;;
  log INFO ("Loaded " +:+ Py.str_of_nat (length documents) +:+ " pages from PDF") ;;
  let text_splitter :=
    {| chunk_size := 1000; chunk_overlap := 200; length_function := String.length |} in
  splits ← call (CallSplitDocuments text_splitter documents)
                (split_documents text_splitter documents);
  log INFO ("Split PDF into " +:+ Py.str_of_nat (length splits) +:+ " chunks") ;;
  let vector_store_path := get_vector_store_path company_name in
  exists_ ← call (CallPathExists vector_store_path) (path_exists vector_store_path);
  (if exists_ : bool
   then log INFO ("Removing existing vector store for " +:+ company_name) ;;
        call (CallRmtree vector_store_path) (shutil_rmtree vector_store_path)
   else ret tt) ;;
  call (CallChromaFromDocuments splits vector_store_path)
       (Chroma_from_documents splits vector_store_path) ;;
  log INFO ("Vector store created at: " +:+ vector_store_path) ;;
  ret {| vector_store_path := vector_store_path;
         document_count := length documents;
         chunk_count := length splits;
         status := "success" |}.

Definition upload_and_process_pdf (file_path company_name : string)
    (description : option string) : M W pyexc UploadResult :=
  try_except
    (upload_and_process_pdf_try file_path company_name description)
    (fun e =>
       log ERROR ("Error processing PDF: " +:+ exc_str e) ;;
       raise (Exception ("Error processing PDF: " +:+ exc_str e))).

Definition answer_question_try (company_name question : string) : M W pyexc Answer :=
  log INFO ("Answering question for company: " +:+ company_name) ;;
  let vector_store_path := get_vector_store_path company_name in
  exists_ ← call (CallPathExists vector_store_path) (path_exists vector_store_path);
  (if exists_ : bool
   then ret tt
   else raise (ValueError ("No knowledge base found for company: " +:+ company_name
                           +:+ ". Please upload a PDF document first."))) ;;
  call (CallChroma vector_store_path) (Chroma_open vector_store_path) ;;
  result ← call (CallRetrievalQA vector_store_path 4 prompt_template question)
                (RetrievalQA_invoke vector_store_path 4 prompt_template question);
  let source_docs := default [] (qa_source_documents result) in
  let sources :=
    match source_docs with
    | [] => []
    | _ :: _ => map source_of (take 3 source_docs)
    end in
  ret {| answer := default no_answer (qa_result result);
         sources := sources;
         confidence_score := 0.8 |}.

Definition answer_question (company_name question : string) : M W pyexc Answer :=
  try_except
    (answer_question_try company_name question)
    (fun e =>
       log ERROR ("Error answering question: " +:+ exc_str e) ;;
       raise (Exception ("Error answering question: " +:+ exc_str e))).

Definition delete_company_knowledge_base_try (company_name : string) : M W pyexc bool :=
  let vector_store_path := get_vector_store_path company_name in
  exists_ ← call (CallPathExists vector_store_path) (path_exists vector_store_path);
  if exists_ : bool
  then call (CallRmtree vector_store_path) (shutil_rmtree vector_store_path) ;;
       log INFO ("Deleted vector store for company: " +:+ company_name) ;;
       ret true
  else log WARNING ("Vector store not found for company: " +:+ company_name) ;;
       ret false.

Definition delete_company_knowledge_base (company_name : string) : M W pyexc bool :=
  try_except
    (delete_company_knowledge_base_try company_name)
    (fun e =>
       log ERROR ("Error deleting vector store: " +:+ exc_str e) ;;
       raise (Exception ("Error deleting vector store: " +:+ exc_str e))).

(** No [try] here: what [Path.exists] raises reaches the caller. *)
Definition check_company_knowledge_base_exists (company_name : string) : M W pyexc bool :=
  let vector_store_path := get_vector_store_path company_name in
  call (CallPathExists vector_store_path) (path_exists vector_store_path).

End Methods.
End KnowledgeBaseService.

(** ** api/services/company_document_service.py *)

Module CompanyDocumentService.

Record t := { uploads_dir : string }.

Section Methods.
Context `{Builtins} {W : Type} `{Externals W} (self : t).
Local Open Scope py_scope.

(** As in the knowledge-base service, the [try] block of each method is
    named [<method>_try].  The methods take the session [db] from the
    world. *)

Definition save_uploaded_file_try (file_content : Py.bytes) (company_name file_name : string)
    : M W pyexc string :=
  let safe_company_name := Py.replace (Py.replace company_name " " "_") "/" "_" in
  let company_dir := path_truediv (uploads_dir self) safe_company_name in
  call (CallMkdir company_dir) (path_mkdir company_dir) ;;
  let file_path := path_truediv company_dir file_name in
  call (CallOpenWrite file_path file_content) (open_write file_path file_content) ;;
  log INFO ("Saved file: " +:+ file_path) ;;
  ret file_path.

Definition save_uploaded_file (file_content : Py.bytes) (company_name file_name : string)
    : M W pyexc string :=
  try_except
    (save_uploaded_file_try file_content company_name file_name)
    (fun e =>
       log ERROR ("Error saving file: " +:+ exc_str e) ;;
       raise (Exception ("Error saving file: " +:+ exc_str e))).

Definition create_document_record_try (company_name file_name file_path : string)
    (vector_store_path description : option string) : M W pyexc Model.CompanyDocument :=
  let db_document :=
    {| Model.id := None;
       Model.company_name := company_name;
       Model.file_name := file_name;
       Model.file_path := file_path;
       Model.vector_store_path := vector_store_path;
       Model.description := description;
       Model.created_at := None;
       Model.updated_at := None |} in
  call (CallDbAdd db_document) (db_add db_document) ;;
  call CallDbCommit db_commit ;;
  db_document ← call (CallDbRefresh db_document) (db_refresh db_document);
  ret db_document.

Definition create_document_record (company_name file_name file_path : string)
    (vector_store_path description : option string) : M W pyexc Model.CompanyDocument :=
  try_except
    (create_document_record_try company_name file_name file_path vector_store_path description)
    (fun e =>
       call CallDbRollback db_rollback ;;
       log ERROR ("Error creating document record: " +:+ exc_str e) ;;
       raise (Exception ("Error creating document record: " +:+ exc_str e))).

Definition get_documents_by_company_try (company_name : string)
    : M W pyexc (list Model.CompanyDocument) :=
  call (CallDbQueryByCompany company_name) (db_query_by_company company_name).

Definition get_documents_by_company (company_name : string)
    : M W pyexc (list Model.CompanyDocument) :=
  try_except
    (get_documents_by_company_try company_name)
    (fun e =>
       log ERROR ("Error getting documents: " +:+ exc_str e) ;;
       raise (Exception ("Error getting documents: " +:+ exc_str e))).

Definition get_document_by_id_try (document_id : Z)
    : M W pyexc (option Model.CompanyDocument) :=
  call (CallDbQueryFirstById document_id) (db_query_first_by_id document_id).

Definition get_document_by_id (document_id : Z) : M W pyexc (option Model.CompanyDocument) :=
  try_except
    (get_document_by_id_try document_id)
    (fun e =>
       log ERROR ("Error getting document: " +:+ exc_str e) ;;
       raise (Exception ("Error getting document: " +:+ exc_str e))).

(** Truth value of [document.vector_store_path]: neither [None] nor empty. *)
Definition truthy_path (p : option string) : option string :=
  match p with
  | Some (String c r) => Some (String c r)
  | _ => None
  end.

Definition delete_document_try (document_id : Z) : M W pyexc bool :=
  document ← get_document_by_id document_id;
  match document with
  | None => ret false
  | Some document =>
      file_exists ← gets (os_path_exists (Model.file_path document));
      (if file_exists : bool
       then call (CallOsRemove (Model.file_path document))
                 (os_remove (Model.file_path document))
       else ret tt) ;;
      match truthy_path (Model.vector_store_path document) with
      | Some vector_store_path =>
          store_exists ← gets (os_path_exists vector_store_path);
          if store_exists : bool
          then call (CallRmtree vector_store_path) (shutil_rmtree vector_store_path)
          else ret tt
      | None => ret tt
      end ;;
      call (CallDbDelete document) (db_delete document) ;;
      call CallDbCommit db_commit ;;
      log INFO ("Deleted document: " +:+ Py.str_of_int document_id) ;;
      ret true
  end.

Definition delete_document (document_id : Z) : M W pyexc bool :=
  try_except
    (delete_document_try document_id)
    (fun e =>
       call CallDbRollback db_rollback ;;
       log ERROR ("Error deleting document: " +:+ exc_str e) ;;
       raise (Exception ("Error deleting document: " +:+ exc_str e))).

End Methods.
End CompanyDocumentService.

(** ** api/routes/knowledge_base_routes.py *)

Module Routes.

(** The two module-level service objects. *)
Record services := {
  knowledge_base_service : KnowledgeBaseService.t;
  company_document_service : CompanyDocumentService.t
}.

(** What the handlers read from an [UploadFile]. *)
Record UploadFile := { filename : option string; file_content : Py.bytes }.

Record QuestionRequest := {
  rq_company_name : string;
  question : string;
  session_id : option string
}.

Record QuestionResponse := {
  answer : string;
  company_name : string;
  sources : option (list KnowledgeBaseService.Source);
  confidence_score : option float
}.

(** The body of a deletion reply. *)
Record Deleted (K : Type) := { message : string; subject : K }.
Arguments message {K} d.
Arguments subject {K} d.

(** [b"%PDF"] *)
Definition pdf_magic : Py.bytes := [Byte.x25; Byte.x50; Byte.x44; Byte.x46].

(** [not file.filename or not file.filename.lower().endswith(".pdf")] *)
Definition bad_filename (filename : option string) : bool :=
  match filename with
  | None | Some EmptyString => true
  | Some name => negb (Py.endswith (Py.lower name) ".pdf")
  end.

(** [except HTTPException: raise] followed by
    [except Exception as e: raise HTTPException(status_code=500, detail=str(e))] *)
Definition reraise_http {W A} (e : exn) : M W exn A :=
  match e with
  | HTTPException status_code detail => raise (HTTPException status_code detail)
  | Py e => raise (HTTPException 500 (exc_str e))
  end.

(** [except Exception as e: raise HTTPException(status_code=500, detail=str(e))] alone *)
Definition all_to_500 {W A} (e : exn) : M W exn A :=
  raise (HTTPException 500 (str_exn e)).

(** The status of the reply FastAPI sends for an outcome of a handler. *)
Definition status_of {A} (r : result exn A) : nat :=
  match r with
  | Return _ => 200
  | Raise (HTTPException status_code _) => status_code
  | Raise (Py _) => 500
  end.

Section Handlers.
Context `{Builtins} {W : Type} `{Externals W} (app : services).
Local Open Scope py_scope.

(** Each handler is [try: <handler>_try except ...]; the [try] block is
    named so that the theorems can speak of what is raised inside it. *)

Definition upload_pdf_try (company_name : string) (file : UploadFile)
    (description : option string) : M W exn Model.CompanyDocument :=
  (if bad_filename (filename file)
   then raise (HTTPException 400 "File must be a PDF (.pdf)")
   else ret tt) ;;
  let file_content := file_content file in
  (if Py.bytes_startswith file_content pdf_magic
   then ret tt
   else raise (HTTPException 400 "Invalid PDF file format")) ;;
  let file_name := default "" (filename file) in
  file_path ← lift (CompanyDocumentService.save_uploaded_file
                      (company_document_service app) file_content company_name file_name);
  vector_store_info ← lift (KnowledgeBaseService.upload_and_process_pdf
                              (knowledge_base_service app) file_path company_name description);
  db_document ← lift (CompanyDocumentService.create_document_record
                        company_name file_name file_path
                        (Some (KnowledgeBaseService.vector_store_path vector_store_info))
                        description);
  ret db_document.

Definition upload_pdf (company_name : string) (file : UploadFile)
    (description : option string) : M W exn Model.CompanyDocument :=
  try_except (upload_pdf_try company_name file description) reraise_http.

Definition ask_question_try (request : QuestionRequest) : M W exn QuestionResponse :=
  exists_ ← lift (KnowledgeBaseService.check_company_knowledge_base_exists
                    (knowledge_base_service app) (rq_company_name request));
  (if exists_ : bool
   then ret tt
   else raise (HTTPException 404
                 ("No knowledge base found for company: " +:+ rq_company_name request
                  +:+ ". Please upload a PDF first."))) ;;
  result ← lift (KnowledgeBaseService.answer_question
                   (knowledge_base_service app) (rq_company_name request) (question request));
  ret {| answer := KnowledgeBaseService.answer result;
         company_name := rq_company_name request;
         sources := Some (KnowledgeBaseService.sources result);
         confidence_score := Some (KnowledgeBaseService.confidence_score result) |}.

Definition ask_question (request : QuestionRequest) : M W exn QuestionResponse :=
  try_except (ask_question_try request) reraise_http.

Definition get_company_documents_try (company_name : string)
    : M W exn (list Model.CompanyDocument) :=
  lift (CompanyDocumentService.get_documents_by_company company_name).

Definition get_company_documents (company_name : string)
    : M W exn (list Model.CompanyDocument) :=
  try_except (get_company_documents_try company_name) all_to_500.

Definition get_document_try (document_id : Z) : M W exn Model.CompanyDocument :=
  document ← lift (CompanyDocumentService.get_document_by_id document_id);
  match document with
  | None => raise (HTTPException 404 "Document not found")
  | Some document => ret document
  end.

Definition get_document (document_id : Z) : M W exn Model.CompanyDocument :=
  try_except (get_document_try document_id) reraise_http.

Definition delete_document_try (document_id : Z) : M W exn (Deleted Z) :=
  success ← lift (CompanyDocumentService.delete_document document_id);
  (if success : bool
   then ret tt
   else raise (HTTPException 404 "Document not found")) ;;
  ret {| message := "Document deleted successfully"; subject := document_id |}.

Definition delete_document (document_id : Z) : M W exn (Deleted Z) :=
  try_except (delete_document_try document_id) reraise_http.

(** A row that a query returned carries its primary key; for a row without
    one the lookup by id would find nothing. *)
Definition delete_row (document : Model.CompanyDocument) : M W exn unit :=
  match Model.id document with
  | Some document_id =>
      lift (CompanyDocumentService.delete_document document_id) ;; ret tt
  | None => ret tt
  end.

Definition delete_company_knowledge_base_try (company_name : string)
    : M W exn (Deleted string) :=
  documents ← lift (CompanyDocumentService.get_documents_by_company company_name);
  for_each documents delete_row ;;
  lift (KnowledgeBaseService.delete_company_knowledge_base
          (knowledge_base_service app) company_name) ;;
  ret {| message := "All documents and knowledge base deleted for company: " +:+ company_name;
         subject := company_name |}.

Definition delete_company_knowledge_base (company_name : string) : M W exn (Deleted string) :=
  try_except (delete_company_knowledge_base_try company_name) all_to_500.

End Handlers.
End Routes.

(** ** api-old/services/openai_service.py *)

Module OpenAIService.

(** [self]: the URL and proxies read from the environment by [__init__],
    and whether the session object has a [poolmanager] attribute. *)
Record t := {
  url : option string;
  proxies : option (list (string * string));
  session_has_poolmanager : bool
}.

Definition str_of_bool (b : bool) : string := if b then "True" else "False".

Definition str_of_optional (o : option string) : string := default "None" o.

(** [bool(self.proxies)] *)
Definition proxies_on (p : option (list (string * string))) : bool :=
  match p with
  | Some (_ :: _) => true
  | _ => false
  end.

Definition direct_headers : list (string * string) :=
  [("Content-Type", "application/json");
   ("Accept", "application/json");
   ("User-Agent", "curl/7.68.0")].

(** [repr(type(result))] *)
Definition type_repr (v : Py.value) : string :=
  match v with
  | Py.VNone => "<class 'NoneType'>"
  | Py.VBool _ => "<class 'bool'>"
  | Py.VInt _ => "<class 'int'>"
  | Py.VFloat _ => "<class 'float'>"
  | Py.VStr _ => "<class 'str'>"
  | Py.VList _ => "<class 'list'>"
  | Py.VDict _ => "<class 'dict'>"
  end.

(** [list(result.keys()) if isinstance(result, dict) else type(result)],
    formatted.  A [dict] lists each key once, at its first position. *)
Definition keys_repr `{Builtins} (result : Py.value) : string :=
  match result with
  | Py.VDict d => py_repr (Py.VList (map Py.VStr (remove_dups (map fst d))))
  | _ => type_repr result
  end.

(** [response.raise_for_status()] *)
Definition raise_for_status {W} (response : Response) : M W pyexc unit :=
  if (400 <=? resp_status_code response)%nat && (resp_status_code response <? 600)%nat
  then raise (HTTPError (resp_http_error_msg response))
  else ret tt.

(** [result["messages"] if "messages" in result else result] *)
Definition messages_of {W} (result : Py.value) : M W pyexc Py.value :=
  match result with
  | Py.VDict d =>
      match Py.dict_get d "messages" with
      | Some v => ret v
      | None => ret result
      end
  | Py.VList l =>
      if existsb (fun v => match v with Py.VStr s => String.eqb s "messages" | _ => false end) l
      then raise (TypeError "list indices must be integers or slices, not str")
      else ret result
  | Py.VStr s =>
      if Py.contains s "messages"
      then raise (TypeError "string indices must be integers, not 'str'")
      else ret result
  | Py.VNone => raise (TypeError "argument of type 'NoneType' is not iterable")
  | Py.VBool _ => raise (TypeError "argument of type 'bool' is not iterable")
  | Py.VInt _ => raise (TypeError "argument of type 'int' is not iterable")
  | Py.VFloat _ => raise (TypeError "argument of type 'float' is not iterable")
  end.

Definition ping_host : string := "elevenlab-test.vercel.app".

Section Methods.
Context `{Builtins} {W : Type} `{Externals W} (self : t).
Local Open Scope py_scope.

(** What both paths do with the response once the POST has returned;
    [done_msg] and [ok_msg] are the two log prefixes of the path. *)
Definition read_response (done_msg ok_msg : string) (response : Response)
    : M W pyexc Py.value :=
  log INFO (done_msg +:+ "status=" +:+ Py.str_of_nat (resp_status_code response)
            +:+ " elapsed=" +:+ resp_elapsed response) ;;
  raise_for_status response ;;
  result ← (match resp_json response with
            | Return v => ret v
            | Raise e => raise e
            end);
  log INFO (ok_msg +:+ "keys=" +:+ keys_repr result) ;;
  messages_of result.

(** The three [try] blocks under [if use_direct_connection:].  The result
    is [Some v] when the direct POST path returns [v], and [None] when
    control falls through to the session-based request. *)
Definition direct_connection (payload : list (string * Py.value))
    : M W pyexc (option Py.value) :=
  log INFO ("Testing direct connection to: " +:+ str_of_optional (url self)) ;;
  try_except
    (ip ← call (CallGetHostByName ping_host) (socket_gethostbyname ping_host);
     log INFO ("DNS resolution successful: " +:+ ping_host +:+ " -> " +:+ ip))
    (fun dns_error => log WARNING ("DNS resolution failed: " +:+ exc_str dns_error)) ;;
  try_except
    (let argv := ["ping"; "-c"; "1"; ping_host] in
     ping_proc ← call (CallSubprocessRun argv 10) (subprocess_run argv 10);
     if (returncode ping_proc =? 0)%Z
     then log INFO "Ping test successful"
     else
       reason ← (match stderr ping_proc with
                 | [] => ret "Unknown error"
                 | _ :: _ =>
                     match bytes_decode (stderr ping_proc) with
                     | Return s => ret s
                     | Raise e => raise e
                     end
                 end);
       log WARNING ("Ping test failed: " +:+ reason))
    (fun ping_error => log WARNING ("Ping test error: " +:+ exc_str ping_error)) ;;
  try_except
    (let request :=
       {| post_via_session := false;
          post_url := url self;
          post_json := payload;
          post_timeout := 30;
          post_headers := Some direct_headers;
          post_verify := false;
          post_proxies := Some (proxies self) |} in
     response ← call (CallPost request) (requests_post request);
     result ← read_response "OpenAIService call done " "Direct connection successful: " response;
     ret (Some result))
    (fun direct_error =>
       log WARNING ("Direct connection failed: " +:+ exc_str direct_error) ;;
       log INFO "Falling back to session-based connection" ;;
       ret None).

Definition session_connection (payload : list (string * Py.value)) : M W pyexc Py.value :=
  try_except
    (log INFO ("Calling EXTERNAL_CHAT_SERVICE_URL via session url="
               +:+ str_of_optional (url self)
               +:+ " proxies=" +:+ (if proxies_on (proxies self) then "on" else "off")) ;;
     let request :=
       {| post_via_session := true;
          post_url := url self;
          post_json := payload;
          post_timeout := 30;
          post_headers := None;
          post_verify := false;
          post_proxies := None |} in
     response ← call (CallPost request) (requests_post request);
     read_response "Session call done " "Session connection successful: " response)
    (fun e =>
       log ERROR ("Session connection failed: " +:+ exc_str e) ;;
       raise e).

Definition get_assistant_response (user_message session_id language : string)
    : M W pyexc Py.value :=
  let payload :=
    [("message", Py.VStr user_message);
     ("session_id", Py.VStr session_id);
     ("language", Py.VStr language)] in
  env ← gets (os_getenv "USE_DIRECT_CONNECTION");
  let use_direct_connection := String.eqb (Py.lower (default "false" env)) "true" in
  log INFO ("USE_DIRECT_CONNECTION: " +:+ str_of_bool use_direct_connection) ;;
  (if session_has_poolmanager self
   then call CallPoolClear poolmanager_clear ;; log INFO "Connection pool cleared"
   else ret tt) ;;
  direct ← (if use_direct_connection then direct_connection payload else ret None);
  match direct with
  | Some result => ret result
  | None => session_connection payload
  end.

End Methods.
End OpenAIService.

(** ** Paths

    [pathlib.PurePosixPath], on the strings [str(path)]: a path is a
    root (none, [/] or [//]) and the components between the slashes, of
    which the empty ones and [.] are dropped; [..] is kept as it is. *)

Module Path.

Fixpoint split (s : string) : list string :=
  match s with
  | EmptyString => [EmptyString]
  | String c r =>
      if (c =? "/")%char
      then EmptyString :: split r
      else match split r with
           | x :: xs => String c x :: xs
           | [] => [String c EmptyString]
           end
  end.

Definition is_part (c : string) : bool :=
  negb (String.eqb c "") && negb (String.eqb c ".").

Definition parts (s : string) : list string := List.filter is_part (split s).

(** Two leading slashes are a root of their own, three or more are one. *)
Definition root (s : string) : string :=
  match s with
  | String "/" (String "/" (String "/" _)) => "/"
  | String "/" (String "/" _) => "//"
  | String "/" _ => "/"
  | _ => ""
  end.

Fixpoint join (l : list string) : string :=
  match l with
  | [] => ""
  | [x] => x
  | x :: r => x +:+ "/" +:+ join r
  end.

(** [str] of the path with this root and these components *)
Definition make (root : string) (parts : list string) : string :=
  match root, parts with
  | EmptyString, [] => "."
  | _, _ => root +:+ join parts
  end.

(** [str(Path(base) / segment)]: a segment with a root replaces the base. *)
Definition truediv (base segment : string) : string :=
  match root segment with
  | EmptyString => make (root base) (parts base ++ parts segment)
  | r => make r (parts segment)
  end.

Fixpoint prefixb (l k : list string) : bool :=
  match l, k with
  | [], _ => true
  | x :: l', y :: k' => String.eqb x y && prefixb l' k'
  | _ :: _, [] => false
  end.

(** [k] is [p] or lies below [p]. *)
Definition within (p k : string) : bool :=
  String.eqb (root p) (root k) && prefixb (parts p) (parts k).

(** The non-empty prefixes of a list, shortest first. *)
Fixpoint prefixes (l : list string) : list (list string) :=
  match l with
  | [] => []
  | x :: r => [x] :: map (cons x) (prefixes r)
  end.

(** The directories above [p], outermost first, short of the root or the
    working directory. *)
Definition ancestors (p : string) : list string :=
  map (make (root p)) (removelast (prefixes (parts p))).

Definition parent (p : string) : option string := last (ancestors p).



End Path.

(** ** A reference world

    One implementation of the interface, on finite maps: a POSIX file
    system without links, given by what is at each path, in which a
    directory that is a vector store holds the persisted chunks; the
    Chroma clients the process holds; one table with an integer primary
    key; and an SQLAlchemy session with its pending changes.  An entry is
    kept under the path as [pathlib] prints it and is found under that
    spelling only: a doubled slash or a [.] component in a string that
    did not come from [pathlib] is not normalised, and [..] is not
    resolved.  What a remote service, a parser or a driver answers is
    given by an [oracle]. *)

Module Ref.

Inductive node :=
| File (content : Py.bytes)
| Dir (collection : list Document).

Record world := {
  fs : gmap string node;
  environ : gmap string string;
  table : gmap Z Model.CompanyDocument;
  next_id : Z;
  now : nat;
  session_new : list Model.CompanyDocument;
  session_deleted : list Z;
  session_identity : list (Model.CompanyDocument * Z);
  (** the directories for which this process holds a Chroma client *)
  clients : list string
}.

Class oracle := {
  (** pypdf on the bytes of a file *)
  parse_pdf : Py.bytes -> result pyexc (list Document);
  (** the text splitter *)
  splitter : RecursiveCharacterTextSplitter -> list Document -> result pyexc (list Document);
  (** a failure of the embeddings API on these chunks, if any *)
  embed_fault : list Document -> option pyexc;
  (** what [Chroma.from_documents] raises, if anything, when the process
      already holds a client for a directory that has been removed since *)
  stale_client : option pyexc;
  (** the chunks of a collection, nearest to the question first *)
  rank : string -> list Document -> list Document;
  (** the chat model on the prompt, the retrieved context and the question *)
  llm : string -> list Document -> string -> result pyexc string;
  (** what the database driver raises, if anything, when it is given this
      integer as a parameter of a query *)
  bind_fault : Z -> option pyexc;
  dns : string -> result pyexc string;
  ping : list string -> nat -> result pyexc CompletedProcess;
  http : PostRequest -> result pyexc Response;
  repr : Py.value -> string;
  decode : Py.bytes -> result pyexc string
}.

#[global] Instance CompanyDocument_eq_dec : EqDecision Model.CompanyDocument.
Proof. solve_decision. Defined.

(** Python's errors for the file operations below. *)
Definition IsADirectoryError (p : string) : pyexc :=
  PyExc "IsADirectoryError" ("[Errno 21] Is a directory: '" +:+ p +:+ "'").
Definition NotADirectoryError (p : string) : pyexc :=
  PyExc "NotADirectoryError" ("[Errno 20] Not a directory: '" +:+ p +:+ "'").
Definition FileNotFoundError (p : string) : pyexc :=
  PyExc "FileNotFoundError" ("[Errno 2] No such file or directory: '" +:+ p +:+ "'").
Definition FileExistsError (p : string) : pyexc :=
  PyExc "FileExistsError" ("[Errno 17] File exists: '" +:+ p +:+ "'").
Definition PermissionError (p : string) : pyexc :=
  PyExc "PermissionError" ("[Errno 13] Permission denied: '" +:+ p +:+ "'").
Definition InvalidRequestError (msg : string) : pyexc := PyExc "InvalidRequestError" msg.

Definition set_fs (w : world) (f : gmap string node) : world :=
  {| fs := f; environ := environ w; table := table w; next_id := next_id w; now := now w;
     session_new := session_new w; session_deleted := session_deleted w;
     session_identity := session_identity w; clients := clients w |}.

Definition set_session (w : world) (new : list Model.CompanyDocument) (deleted : list Z) : world :=
  {| fs := fs w; environ := environ w; table := table w; next_id := next_id w; now := now w;
     session_new := new; session_deleted := deleted;
     session_identity := session_identity w; clients := clients w |}.

Definition add_client (w : world) (p : string) : world :=
  {| fs := fs w; environ := environ w; table := table w; next_id := next_id w; now := now w;
     session_new := session_new w; session_deleted := session_deleted w;
     session_identity := session_identity w; clients := p :: clients w |}.

(** INSERT of one pending object: the row gets the next key and the
    server-side [created_at]. *)
Definition flush_new (w : world) (row : Model.CompanyDocument) : world :=
  let key := next_id w in
  let stored :=
    {| Model.id := Some key;
       Model.company_name := Model.company_name row;
       Model.file_name := Model.file_name row;
       Model.file_path := Model.file_path row;
       Model.vector_store_path := Model.vector_store_path row;
       Model.description := Model.description row;
       Model.created_at := Some (now w);
       Model.updated_at := Model.updated_at row |} in
  {| fs := fs w; environ := environ w;
     table := <[key := stored]> (table w);
     next_id := (key + 1)%Z; now := now w;
     session_new := session_new w; session_deleted := session_deleted w;
     session_identity := (row, key) :: session_identity w; clients := clients w |}.

Definition flush_deleted (w : world) (key : Z) : world :=
  {| fs := fs w; environ := environ w;
     table := delete key (table w);
     next_id := next_id w; now := now w;
     session_new := session_new w; session_deleted := session_deleted w;
     session_identity := session_identity w; clients := clients w |}.

Definition commit (w : world) : world :=
  let w1 := foldl flush_new w (session_new w) in
  let w2 := foldl flush_deleted w1 (session_deleted w) in
  set_session w2 [] [].

(** The rows of the table carry their own key as [id]. *)
Definition well_keyed (w : world) : Prop :=
  forall key row, table w !! key = Some row -> Model.id row = Some key.

Fixpoint identity_lookup (m : list (Model.CompanyDocument * Z)) (row : Model.CompanyDocument)
    : option Z :=
  match m with
  | [] => None
  | (r, key) :: rest => if decide (r = row) then Some key else identity_lookup rest row
  end.

Definition key_of (w : world) (row : Model.CompanyDocument) : option Z :=
  match Model.id row with
  | Some key => Some key
  | None => identity_lookup (session_identity w) row
  end.

(** [os.makedirs(..., exist_ok=True)] on a chain of directories, outermost
    first: those that are missing are created; a regular file in the way
    stops it. *)
Fixpoint make_dirs (ps : list string) (f : gmap string node)
    : result pyexc (gmap string node) :=
  match ps with
  | [] => Return f
  | q :: r =>
      match f !! q with
      | Some (File _) => Raise (NotADirectoryError q)
      | Some (Dir _) => make_dirs r f
      | None => make_dirs r (<[q := Dir []]> f)
      end
  end.

(** What is left when [p] and all that lies below it are taken away. *)
Definition remove_tree (p : string) (f : gmap string node) : gmap string node :=
  filter (fun entry => Path.within p entry.1 = false) f.

Section Operations.
Context `{oracle}.

Definition ref_path_exists (p : string) : ext world bool :=
  fun w => (Return (bool_decide (is_Some (fs w !! p))), w).

(** [mkdir(parents=True, exist_ok=True)] *)
Definition ref_path_mkdir (p : string) : ext world unit :=
  fun w =>
    match make_dirs (Path.ancestors p) (fs w) with
    | Raise e => (Raise e, w)
    | Return f =>
        match f !! p with
        | Some (File _) => (Raise (FileExistsError p), w)
        | Some (Dir _) => (Return tt, set_fs w f)
        | None => (Return tt, set_fs w (<[p := Dir []]> f))
        end
    end.

Definition ref_os_path_exists (p : string) (w : world) : bool :=
  bool_decide (is_Some (fs w !! p)).

Definition ref_os_remove (p : string) : ext world unit :=
  fun w =>
    match fs w !! p with
    | Some (File _) => (Return tt, set_fs w (delete p (fs w)))
    | Some (Dir _) => (Raise (IsADirectoryError p), w)
    | None => (Raise (FileNotFoundError p), w)
    end.

(** [shutil.rmtree]: the directory goes with all that lies below it. *)
Definition ref_shutil_rmtree (p : string) : ext world unit :=
  fun w =>
    match fs w !! p with
    | Some (Dir _) => (Return tt, set_fs w (remove_tree p (fs w)))
    | Some (File _) => (Raise (NotADirectoryError p), w)
    | None => (Raise (FileNotFoundError p), w)
    end.

(** [open(p, "wb")] needs the directory of [p] to be there. *)
Definition ref_open_write (p : string) (content : Py.bytes) : ext world unit :=
  fun w =>
    match fs w !! p with
    | Some (Dir _) => (Raise (IsADirectoryError p), w)
    | _ =>
        match Path.parent p with
        | None => (Return tt, set_fs w (<[p := File content]> (fs w)))
        | Some q =>
            match fs w !! q with
            | Some (Dir _) => (Return tt, set_fs w (<[p := File content]> (fs w)))
            | Some (File _) => (Raise (NotADirectoryError p), w)
            | None => (Raise (FileNotFoundError p), w)
            end
        end
    end.

Definition ref_os_getenv (name : string) (w : world) : option string := environ w !! name.

Definition ref_PyPDFLoader_load (file_path : string) : ext world (list Document) :=
  fun w =>
    match fs w !! file_path with
    | Some (File content) => (parse_pdf content, w)
    | _ => (Raise (ValueError ("File path " +:+ file_path +:+ " is not a valid file or url")), w)
    end.

Definition ref_split_documents (text_splitter : RecursiveCharacterTextSplitter)
    (documents : list Document) : ext world (list Document) :=
  fun w => (splitter text_splitter documents, w).

(** The Chroma client of a directory: the directory is created when it is
    missing, with the directories above it, and a collection that is
    already there is kept.  A client that the process holds for a
    directory removed since may refuse to work. *)
Definition chroma_client (persist_directory : string) : ext world (list Document) :=
  fun w =>
    match fs w !! persist_directory with
    | Some (File _) => (Raise (NotADirectoryError persist_directory), w)
    | Some (Dir old) => (Return old, add_client w persist_directory)
    | None =>
        match (if bool_decide (persist_directory ∈ clients w) then stale_client else None) with
        | Some e => (Raise e, w)
        | None =>
            match make_dirs (Path.ancestors persist_directory) (fs w) with
            | Raise e => (Raise e, w)
            | Return f =>
                (Return [], add_client (set_fs w (<[persist_directory := Dir []]> f))
                              persist_directory)
            end
        end
    end.

(** [Chroma.from_documents]: the client is made first, then the chunks
    are embedded and added to the collection; when the embedding fails
    the directory is there already. *)
Definition ref_Chroma_from_documents (documents : list Document) (persist_directory : string)
    : ext world unit :=
  fun w =>
    match chroma_client persist_directory w with
    | (Raise e, w1) => (Raise e, w1)
    | (Return old, w1) =>
        match embed_fault documents with
        | Some e => (Raise e, w1)
        | None =>
            (Return tt, set_fs w1 (<[persist_directory := Dir (old ++ documents)]> (fs w1)))
        end
    end.

Definition ref_Chroma_open (persist_directory : string) : ext world unit :=
  fun w =>
    match chroma_client persist_directory w with
    | (Raise e, w1) => (Raise e, w1)
    | (Return _, w1) => (Return tt, w1)
    end.

(** The chain retrieves the [k] nearest chunks and hands them to the chat
    model; it returns the answer and, as asked, the retrieved chunks. *)
Definition ref_RetrievalQA_invoke (persist_directory : string) (k : nat)
    (prompt query : string) : ext world QAResult :=
  fun w =>
    let collection :=
      match fs w !! persist_directory with
      | Some (Dir c) => c
      | _ => []
      end in
    let retrieved := take k (rank query collection) in
    match llm prompt retrieved query with
    | Return text =>
        (Return {| qa_result := Some text; qa_source_documents := Some retrieved |}, w)
    | Raise e => (Raise e, w)
    end.

Definition ref_db_add (row : Model.CompanyDocument) : ext world unit :=
  fun w => (Return tt, set_session w (session_new w ++ [row]) (session_deleted w)).

Definition ref_db_commit : ext world unit := fun w => (Return tt, commit w).

Definition ref_db_refresh (row : Model.CompanyDocument) : ext world Model.CompanyDocument :=
  fun w =>
    match key_of w row ≫= (fun key => table w !! key) with
    | Some stored => (Return stored, w)
    | None => (Raise (InvalidRequestError "Instance is not persistent within this Session"), w)
    end.

(** In the reference world the database is up, and a rollback goes through. *)
Definition ref_db_rollback : ext world unit := fun w => (Return tt, set_session w [] []).

Definition ref_db_delete (row : Model.CompanyDocument) : ext world unit :=
  fun w =>
    match key_of w row with
    | Some key => (Return tt, set_session w (session_new w) (session_deleted w ++ [key]))
    | None => (Raise (InvalidRequestError "Instance is not persisted"), w)
    end.

Definition ref_db_query_by_company (company_name : string)
    : ext world (list Model.CompanyDocument) :=
  fun w =>
    (Return (filter (fun row => Model.company_name row = company_name)
                    (map snd (map_to_list (table w)))), w).

(** The id goes to the driver as a parameter of the query.  The keys of
    the table are integers that the driver takes. *)
Definition ref_db_query_first_by_id (document_id : Z)
    : ext world (option Model.CompanyDocument) :=
  fun w =>
    match table w !! document_id with
    | Some row => (Return (Some row), w)
    | None =>
        match bind_fault document_id with
        | Some e => (Raise e, w)
        | None => (Return None, w)
        end
    end.

Definition ref_poolmanager_clear : ext world unit := fun w => (Return tt, w).

Definition ref_socket_gethostbyname (host : string) : ext world string :=
  fun w => (dns host, w).

Definition ref_subprocess_run (argv : list string) (timeout : nat) : ext world CompletedProcess :=
  fun w => (ping argv timeout, w).

Definition ref_requests_post (request : PostRequest) : ext world Response :=
  fun w => (http request, w).

Definition ref_path_truediv (base segment : string) : string := Path.truediv base segment.

Definition builtins : Builtins := {|
  path_truediv := ref_path_truediv;
  py_repr := repr;
  bytes_decode := decode
|}.

Definition externals : Externals world := {|
  path_exists := ref_path_exists;
  path_mkdir := ref_path_mkdir;
  os_path_exists := ref_os_path_exists;
  os_remove := ref_os_remove;
  shutil_rmtree := ref_shutil_rmtree;
  open_write := ref_open_write;
  os_getenv := ref_os_getenv;
  PyPDFLoader_load := ref_PyPDFLoader_load;
  split_documents := ref_split_documents;
  Chroma_from_documents := ref_Chroma_from_documents;
  Chroma_open := ref_Chroma_open;
  RetrievalQA_invoke := ref_RetrievalQA_invoke;
  db_add := ref_db_add;
  db_commit := ref_db_commit;
  db_refresh := ref_db_refresh;
  db_rollback := ref_db_rollback;
  db_delete := ref_db_delete;
  db_query_by_company := ref_db_query_by_company;
  db_query_first_by_id := ref_db_query_first_by_id;
  poolmanager_clear := ref_poolmanager_clear;
  socket_gethostbyname := ref_socket_gethostbyname;
  subprocess_run := ref_subprocess_run;
  requests_post := ref_requests_post
|}.

(** The same world on a host that denies [stat] under the vector-store
    directory: [Path.exists] raises instead of answering. *)
Definition externals_stat_denied : Externals world := {|
  path_exists := fun p w => (Raise (PermissionError p), w);
  path_mkdir := ref_path_mkdir;
  os_path_exists := ref_os_path_exists;
  os_remove := ref_os_remove;
  shutil_rmtree := ref_shutil_rmtree;
  open_write := ref_open_write;
  os_getenv := ref_os_getenv;
  PyPDFLoader_load := ref_PyPDFLoader_load;
  split_documents := ref_split_documents;
  Chroma_from_documents := ref_Chroma_from_documents;
  Chroma_open := ref_Chroma_open;
  RetrievalQA_invoke := ref_RetrievalQA_invoke;
  db_add := ref_db_add;
  db_commit := ref_db_commit;
  db_refresh := ref_db_refresh;
  db_rollback := ref_db_rollback;
  db_delete := ref_db_delete;
  db_query_by_company := ref_db_query_by_company;
  db_query_first_by_id := ref_db_query_first_by_id;
  poolmanager_clear := ref_poolmanager_clear;
  socket_gethostbyname := ref_socket_gethostbyname;
  subprocess_run := ref_subprocess_run;
  requests_post := ref_requests_post
|}.

End Operations.
End Ref.

(** ** The specification's wording, for comparison *)

Module Spec.

(** "replacing spaces and slashes with underscores" *)
Definition underscore_of (c : ascii) : ascii :=
  if (c =? " ")%char || (c =? "/")%char then "_"%char else c.

Fixpoint normalize (name : string) : string :=
  match name with
  | EmptyString => EmptyString
  | String c r => String (underscore_of c) (normalize r)
  end.

End Spec.

(** The calls of one kind in a trace, with their arguments: to the text
    splitter, to [Chroma.from_documents], to the retrieval chain, and the
    POST requests. *)
Fixpoint split_calls (evs : list Event)
    : list (RecursiveCharacterTextSplitter * list Document) :=
  match evs with
  | [] => []
  | CallSplitDocuments text_splitter documents :: r =>
      (text_splitter, documents) :: split_calls r
  | _ :: r => split_calls r
  end.

Fixpoint persist_calls (evs : list Event) : list (list Document * string) :=
  match evs with
  | [] => []
  | CallChromaFromDocuments documents persist_directory :: r =>
      (documents, persist_directory) :: persist_calls r
  | _ :: r => persist_calls r
  end.

Fixpoint retrievals (evs : list Event) : list (string * nat * string * string) :=
  match evs with
  | [] => []
  | CallRetrievalQA persist_directory k prompt query :: r =>
      (persist_directory, k, prompt, query) :: retrievals r
  | _ :: r => retrievals r
  end.

Fixpoint posts (evs : list Event) : list PostRequest :=
  match evs with
  | [] => []
  | CallPost request :: r => request :: posts r
  | _ :: r => posts r
  end.

(** ** Predicates on runs *)

(** A method [method] is its [try] block [body] under a handler that logs
    the exception and raises a generic [Exception] with [prefix] before the
    original message.  When [rollback] is given, the handler first rolls
    the session back, outside any [try]: an exception of the rollback
    itself ends the method, with nothing logged. *)
Definition handled {W A} (prefix : string) (rollback : option (ext W unit))
    (body method : M W pyexc A) (s : State W) : Prop :=
  match body s with
  | (Return a, s1) => method s = (Return a, s1)
  | (Raise e, s1) =>
      match rollback with
      | None =>
          method s =
          (Raise (Exception (prefix +:+ exc_str e)),
           mkState (world s1) (trace s1 ++ [Log ERROR (prefix +:+ exc_str e)]))
      | Some undo =>
          match undo (world s1) with
          | (Return _, w2) =>
              method s =
              (Raise (Exception (prefix +:+ exc_str e)),
               mkState w2 (trace s1 ++ [CallDbRollback; Log ERROR (prefix +:+ exc_str e)]))
          | (Raise e2, w2) =>
              method s = (Raise e2, mkState w2 (trace s1 ++ [CallDbRollback]))
          end
      end
  end.

(** Every event that a computation adds to the trace satisfies [P]. *)
Definition emits {W E A} (P : Event -> Prop) (c : M W E A) : Prop :=
  forall s, exists evs, trace (c s).2 = (trace s ++ evs)%list /\ Forall P evs.

(** A POST, if the event is one, goes out with [verify=False]. *)
Definition post_unverified (ev : Event) : Prop :=
  match ev with
  | CallPost request => post_verify request = false
  | _ => True
  end.

(** ** Concrete inputs *)

Module Examples.

Definition page1 : Document :=
  {| page_content := "Test content page 1"; metadata := [("page", Py.VInt 0)] |}.

Definition page2 : Document :=
  {| page_content := "Test content page 2"; metadata := [("page", Py.VInt 1)] |}.

(** A chunk of 201 characters. *)
Definition long_chunk : Document :=
  {| page_content := string_of_list_ascii (repeat "a"%char 201);
     metadata := [("page", Py.VInt 3)] |}.

Definition old_chunk : Document :=
  {| page_content := "Last year's handbook"; metadata := [] |}.

Definition ok_response : Response :=
  {| resp_status_code := 200;
     resp_elapsed := "0:00:00.250000";
     resp_http_error_msg := "";
     resp_json := Return (Py.VDict [("messages", Py.VList [Py.VStr "salam"])]) |}.

(** The SQLite driver takes 64-bit integers. *)
Definition sqlite_int (z : Z) : option pyexc :=
  if ((z <? - 2 ^ 63) || (2 ^ 63 <=? z))%Z
  then Some (PyExc "OverflowError" "Python int too large to convert to SQLite INTEGER")
  else None.

(** An oracle in which every page is shorter than the chunk size and comes
    back from the splitter whole, as in the repository's unit test of
    [upload_and_process_pdf].  A file that holds the four magic bytes and
    nothing else has no page.  The chat service cannot be reached directly,
    only through the session. *)
Definition oracle : Ref.oracle :=
  {| Ref.parse_pdf := fun content =>
       match content with
       | [_; _; _; _] => Return []
       | _ => Return [page1; page2]
       end;
     Ref.splitter := fun _ documents => Return documents;
     Ref.embed_fault := fun _ => None;
     Ref.stale_client := None;
     Ref.rank := fun _ collection => collection;
     Ref.llm := fun _ _ _ => Return "This is a test answer";
     Ref.bind_fault := sqlite_int;
     Ref.dns := fun _ => Return "76.76.21.21";
     Ref.ping := fun _ _ => Return {| returncode := 0; stderr := [] |};
     Ref.http := fun request =>
       if post_via_session request
       then Return ok_response
       else Raise (PyExc "ConnectionError" "Connection refused");
     Ref.repr := fun _ => "['messages']";
     Ref.decode := fun _ => Return "" |}.

Definition kb : KnowledgeBaseService.t := {| KnowledgeBaseService.base_dir := "vector_stores" |}.

Definition uploads : CompanyDocumentService.t :=
  {| CompanyDocumentService.uploads_dir := "pdf_uploads" |}.

Definition app : Routes.services :=
  {| Routes.knowledge_base_service := kb; Routes.company_document_service := uploads |}.

Definition pdf_bytes : Py.bytes :=
  (Routes.pdf_magic ++ [Byte.x2d; Byte.x31; Byte.x2e; Byte.x34])%list.

Definition row1 : Model.CompanyDocument :=
  {| Model.id := Some 1%Z;
     Model.company_name := "Acme";
     Model.file_name := "report.pdf";
     Model.file_path := "pdf_uploads/Acme/report.pdf";
     Model.vector_store_path := Some "vector_stores/Acme";
     Model.description := None;
     Model.created_at := Some 0;
     Model.updated_at := None |}.

(** Acme has uploaded one report: the file, its store and its row. *)
Definition world0 : Ref.world :=
  {| Ref.fs := {[ "pdf_uploads" := Ref.Dir [];
                  "pdf_uploads/Acme" := Ref.Dir [];
                  "pdf_uploads/Acme/report.pdf" := Ref.File pdf_bytes;
                  "vector_stores" := Ref.Dir [];
                  "vector_stores/Acme" := Ref.Dir [long_chunk; old_chunk] ]};
     Ref.environ := ∅;
     Ref.table := {[ 1%Z := row1 ]};
     Ref.next_id := 2;
     Ref.now := 1;
     Ref.session_new := [];
     Ref.session_deleted := [];
     Ref.session_identity := [];
     Ref.clients := [] |}.

Definition start : State Ref.world := mkState world0 [].

(** A store that the names "a b", "a_b" and "a/b" share, and a new PDF. *)
Definition shared : State Ref.world :=
  mkState
    {| Ref.fs := {[ "pdf_uploads" := Ref.Dir [];
                    "pdf_uploads/a_b" := Ref.Dir [];
                    "pdf_uploads/a_b/new.pdf" := Ref.File pdf_bytes;
                    "vector_stores" := Ref.Dir [];
                    "vector_stores/a_b" := Ref.Dir [old_chunk] ]};
       Ref.environ := ∅;
       Ref.table := ∅;
       Ref.next_id := 1;
       Ref.now := 1;
       Ref.session_new := [];
       Ref.session_deleted := [];
       Ref.session_identity := [];
       Ref.clients := [] |}
    [].

(** The server is started with [USE_DIRECT_CONNECTION=True]. *)
Definition direct : State Ref.world :=
  mkState
    {| Ref.fs := ∅;
       Ref.environ := {[ "USE_DIRECT_CONNECTION" := "True" ]};
       Ref.table := ∅;
       Ref.next_id := 1;
       Ref.now := 1;
       Ref.session_new := [];
       Ref.session_deleted := [];
       Ref.session_identity := [];
       Ref.clients := [] |}
    [].

Definition chat : OpenAIService.t :=
  {| OpenAIService.url := Some "https://chat.example/api";
     OpenAIService.proxies := None;
     OpenAIService.session_has_poolmanager := false |}.

Definition text_upload : Routes.UploadFile :=
  {| Routes.filename := Some "notes.txt"; Routes.file_content := pdf_bytes |}.

Definition empty_pdf_upload : Routes.UploadFile :=
  {| Routes.filename := Some "Empty.PDF"; Routes.file_content := Routes.pdf_magic |}.

Definition acme_question : Routes.QuestionRequest :=
  {| Routes.rq_company_name := "Acme";
     Routes.question := "What is your policy?";
     Routes.session_id := None |}.

(** A row that records a directory as its file. *)
Definition row7 : Model.CompanyDocument :=
  {| Model.id := Some 7%Z;
     Model.company_name := "Acme";
     Model.file_name := "Acme";
     Model.file_path := "vector_stores/Acme";
     Model.vector_store_path := None;
     Model.description := None;
     Model.created_at := Some 0;
     Model.updated_at := None |}.

Definition misfiled : State Ref.world :=
  mkState
    {| Ref.fs := {[ "vector_stores" := Ref.Dir [];
                    "vector_stores/Acme" := Ref.Dir [old_chunk] ]};
       Ref.environ := ∅;
       Ref.table := {[ 7%Z := row7 ]};
       Ref.next_id := 8;
       Ref.now := 1;
       Ref.session_new := [];
       Ref.session_deleted := [];
       Ref.session_identity := [];
       Ref.clients := [] |}
    [].

Definition nobody : Routes.QuestionRequest :=
  {| Routes.rq_company_name := "Nobody";
     Routes.question := "What is your policy?";
     Routes.session_id := None |}.

End Examples.

(** ** The chat client: the requests it sends and what a reply means *)

(** The events of a trace that are calls to outside code, in order: all
    but the log lines. *)
Fixpoint outside_calls (evs : list Event) : list Event :=
  match evs with
  | [] => []
  | Log _ _ :: r => outside_calls r
  | ev :: r => ev :: outside_calls r
  end.

Module ChatReply.

(** [result["messages"] if "messages" in result else result], as a value
    or the [TypeError] of the lookup. *)
Definition messages_value (body : Py.value) : result pyexc Py.value :=
  match body with
  | Py.VDict d =>
      match Py.dict_get d "messages" with
      | Some v => Return v
      | None => Return body
      end
  | Py.VList l =>
      if existsb (fun v => match v with Py.VStr s => String.eqb s "messages" | _ => false end) l
      then Raise (TypeError "list indices must be integers or slices, not str")
      else Return body
  | Py.VStr s =>
      if Py.contains s "messages"
      then Raise (TypeError "string indices must be integers, not 'str'")
      else Return body
  | Py.VNone => Raise (TypeError "argument of type 'NoneType' is not iterable")
  | Py.VBool _ => Raise (TypeError "argument of type 'bool' is not iterable")
  | Py.VInt _ => Raise (TypeError "argument of type 'int' is not iterable")
  | Py.VFloat _ => Raise (TypeError "argument of type 'float' is not iterable")
  end.

(** What a path makes of a response: the error of [raise_for_status] for
    a status from 400 to 599, else the error of [response.json()], else
    the messages of the body. *)
Definition response_value (response : Response) : result pyexc Py.value :=
  if (400 <=? resp_status_code response)%nat && (resp_status_code response <? 600)%nat
  then Raise (HTTPError (resp_http_error_msg response))
  else
    match resp_json response with
    | Return body => messages_value body
    | Raise e => Raise e
    end.

Definition payload_of (user_message session_id language : string)
    : list (string * Py.value) :=
  [("message", Py.VStr user_message);
   ("session_id", Py.VStr session_id);
   ("language", Py.VStr language)].

(** The two requests of [get_assistant_response]. *)
Definition direct_request (self : OpenAIService.t) (payload : list (string * Py.value))
    : PostRequest :=
  {| post_via_session := false;
     post_url := OpenAIService.url self;
     post_json := payload;
     post_timeout := 30;
     post_headers := Some OpenAIService.direct_headers;
     post_verify := false;
     post_proxies := Some (OpenAIService.proxies self) |}.

Definition session_request (self : OpenAIService.t) (payload : list (string * Py.value))
    : PostRequest :=
  {| post_via_session := true;
     post_url := OpenAIService.url self;
     post_json := payload;
     post_timeout := 30;
     post_headers := None;
     post_verify := false;
     post_proxies := None |}.

(** [os.getenv("USE_DIRECT_CONNECTION", "false").lower() == "true"] *)
Definition use_direct_connection (env : option string) : bool :=
  String.eqb (Py.lower (default "false" env)) "true".

End ChatReply.

(** ** More concrete inputs *)

Module Cases.


Section Hosts.
Context `{Ref.oracle}.

(** The reference world on a bad day: a second worker removes a company's
    store right after this one has looked for it, the pool of the HTTP
    session cannot be cleared, and the database connection is gone when
    the session is rolled back. *)
Definition externals_unreliable : Externals Ref.world := {|
  path_exists := fun p w =>
    (Return (bool_decide (is_Some (Ref.fs w !! p))),
     Ref.set_fs w (Ref.remove_tree p (Ref.fs w)));
  path_mkdir := Ref.ref_path_mkdir;
  os_path_exists := Ref.ref_os_path_exists;
  os_remove := Ref.ref_os_remove;
  shutil_rmtree := Ref.ref_shutil_rmtree;
  open_write := Ref.ref_open_write;
  os_getenv := Ref.ref_os_getenv;
  PyPDFLoader_load := Ref.ref_PyPDFLoader_load;
  split_documents := Ref.ref_split_documents;
  Chroma_from_documents := Ref.ref_Chroma_from_documents;
  Chroma_open := Ref.ref_Chroma_open;
  RetrievalQA_invoke := Ref.ref_RetrievalQA_invoke;
  db_add := Ref.ref_db_add;
  db_commit := Ref.ref_db_commit;
  db_refresh := Ref.ref_db_refresh;
  db_rollback := fun w =>
    (Raise (PyExc "OperationalError" "server closed the connection"), w);
  db_delete := Ref.ref_db_delete;
  db_query_by_company := Ref.ref_db_query_by_company;
  db_query_first_by_id := Ref.ref_db_query_first_by_id;
  poolmanager_clear := fun w => (Raise (PyExc "RuntimeError" "pool is closed"), w);
  socket_gethostbyname := Ref.ref_socket_gethostbyname;
  subprocess_run := Ref.ref_subprocess_run;
  requests_post := Ref.ref_requests_post
|}.

End Hosts.

(** A session object that has a [poolmanager]. *)
Definition pooled_chat : OpenAIService.t :=
  {| OpenAIService.url := Some "https://chat.example/api";
     OpenAIService.proxies := None;
     OpenAIService.session_has_poolmanager := true |}.

(** The empty PDF of Acme has been saved; Acme's store is from last year. *)
Definition empty_saved : State Ref.world :=
  mkState
    {| Ref.fs := {[ "pdf_uploads" := Ref.Dir [];
                    "pdf_uploads/Acme" := Ref.Dir [];
                    "pdf_uploads/Acme/Empty.PDF" := Ref.File Routes.pdf_magic;
                    "vector_stores" := Ref.Dir [];
                    "vector_stores/Acme" := Ref.Dir [Examples.old_chunk] ]};
       Ref.environ := ∅;
       Ref.table := ∅;
       Ref.next_id := 1;
       Ref.now := 1;
       Ref.session_new := [];
       Ref.session_deleted := [];
       Ref.session_identity := [];
       Ref.clients := [] |}
    [].

(** Acme's row and file are in place, but a plain file sits where the
    store should be. *)
Definition store_is_file : State Ref.world :=
  mkState
    {| Ref.fs := {[ "pdf_uploads" := Ref.Dir [];
                    "pdf_uploads/Acme" := Ref.Dir [];
                    "pdf_uploads/Acme/report.pdf" := Ref.File Examples.pdf_bytes;
                    "vector_stores" := Ref.Dir [];
                    "vector_stores/Acme" := Ref.File [] ]};
       Ref.environ := ∅;
       Ref.table := {[ 1%Z := Examples.row1 ]};
       Ref.next_id := 2;
       Ref.now := 1;
       Ref.session_new := [];
       Ref.session_deleted := [];
       Ref.session_identity := [];
       Ref.clients := [] |}
    [].

(** The row for Acme's second document, as the table of [Examples.world0]
    stores it. *)
Definition plan_row : Model.CompanyDocument :=
  {| Model.id := Some 2%Z;
     Model.company_name := "Acme";
     Model.file_name := "plan.pdf";
     Model.file_path := "pdf_uploads/Acme/plan.pdf";
     Model.vector_store_path := Some "vector_stores/Acme";
     Model.description := None;
     Model.created_at := Some 1;
     Model.updated_at := None |}.

(** A row of Acme that records the company's upload directory as its
    file, in a table that also holds the row of Acme's plan. *)
Definition dir_row : Model.CompanyDocument :=
  {| Model.id := Some 1%Z;
     Model.company_name := "Acme";
     Model.file_name := "Acme";
     Model.file_path := "pdf_uploads/Acme";
     Model.vector_store_path := Some "vector_stores/Acme";
     Model.description := None;
     Model.created_at := Some 0;
     Model.updated_at := None |}.

Definition two_rows : State Ref.world :=
  mkState
    {| Ref.fs := {[ "pdf_uploads" := Ref.Dir [];
                    "pdf_uploads/Acme" := Ref.Dir [];
                    "pdf_uploads/Acme/plan.pdf" := Ref.File Examples.pdf_bytes;
                    "vector_stores" := Ref.Dir [];
                    "vector_stores/Acme" := Ref.Dir [Examples.old_chunk] ]};
       Ref.environ := ∅;
       Ref.table := {[ 1%Z := dir_row; 2%Z := plan_row ]};
       Ref.next_id := 3;
       Ref.now := 1;
       Ref.session_new := [];
       Ref.session_deleted := [];
       Ref.session_identity := [];
       Ref.clients := [] |}
    [].



Definition draft_bytes : Py.bytes := (Routes.pdf_magic ++ [Byte.x0a])%list.

End Cases.

(** * Properties *)

(** ** Strings *)

Lemma prefix_char (a c : ascii) (r : string) :
  String.prefix (String a "") (String c r) = (c =? a)%char.
Proof.
  simpl. destruct (ascii_dec a c) as [->|Hne].
  - rewrite Ascii.eqb_refl. by destruct r.
  - symmetry. apply Ascii.eqb_neq. congruence.
Qed.

(** Replacing one character by another is a character-wise map. *)
Lemma replace_char (a b : ascii) (s : string) :
  Py.replace s (String a "") (String b "") =
  (fix go s := match s with
               | EmptyString => EmptyString
               | String c r => String (if (c =? a)%char then b else c) (go r)
               end) s.
Proof.
  unfold Py.replace. induction s as [|c r IH]; [done|].
  cbn [Py.replace_from]. rewrite prefix_char.
  destruct (c =? a)%char; cbn [String.length Nat.sub]; simpl; by rewrite IH.
Qed.

Lemma normalize_refines (name : string) :
  Py.replace (Py.replace name " " "_") "/" "_" = Spec.normalize name.
Proof.
  rewrite !replace_char. induction name as [|c r IH]; [done|].
  cbn [Spec.normalize]. rewrite <- IH. f_equal.
  unfold Spec.underscore_of.
  destruct (c =? " ")%char eqn:Hsp; cbn [orb]; [done|].
  by destruct (c =? "/")%char.
Qed.

(** C3. For every company name the vector store path is the base directory
    joined with the name in which every space and every forward slash has
    become an underscore; the path depends on nothing but the service's
    base directory and the name, so equal names give equal paths. *)
Theorem get_vector_store_path_deterministic `{Builtins}
    (self : KnowledgeBaseService.t) (name1 name2 : string) :
  KnowledgeBaseService.get_vector_store_path self name1
    = path_truediv (KnowledgeBaseService.base_dir self) (Spec.normalize name1)
  /\ (name1 = name2 ->
      KnowledgeBaseService.get_vector_store_path self name1
        = KnowledgeBaseService.get_vector_store_path self name2).
Proof.
  split.
  - unfold KnowledgeBaseService.get_vector_store_path. by rewrite normalize_refines.
  - by intros ->.
Qed.

(** ** Running a computation *)

Section Run.
Context {W E : Type}.

Lemma bind_Return {A B} (c : M W E A) (k : A -> M W E B) s b s' :
  bind c k s = (Return b, s') ->
  exists a s1, c s = (Return a, s1) /\ k a s1 = (Return b, s').
Proof.
  unfold bind. destruct (c s) as [[a|e] s1]; [eauto | discriminate].
Qed.


Lemma emit_run (ev : Event) s :
  emit (W:=W) (E:=E) ev s = (Return tt, mkState (world s) (trace s ++ [ev])).
Proof. reflexivity. Qed.

Lemma gets_run {A} (f : W -> A) s : gets (E:=E) f s = (Return (f (world s)), s).
Proof. reflexivity. Qed.

End Run.

Lemma call_Return {W A} (ev : Event) (op : ext W A) s a s' :
  call ev op s = (Return a, s') ->
  exists w', op (world s) = (Return a, w') /\ s' = mkState w' (trace s ++ [ev]).
Proof.
  unfold call. destruct (op (world s)) as [r w']. intros [= -> <-]. eauto.
Qed.

(** A handler that logs and raises never turns a failure into a result. *)
Lemma try_except_Return {W E E' A} (body : M W E A) (handler : E -> M W E' A) s a s' :
  (forall e s1 a1 s2, handler e s1 <> (Return a1, s2)) ->
  try_except body handler s = (Return a, s') ->
  body s = (Return a, s').
Proof.
  unfold try_except. intros Hh. destruct (body s) as [[a0|e] s1].
  - by intros [= -> ->].
  - intros Hr. by apply Hh in Hr.
Qed.

Lemma lift_Return {W A} (c : M W pyexc A) s a s' :
  lift c s = (Return a, s') -> c s = (Return a, s').
Proof. apply try_except_Return. discriminate. Qed.

(** Running the first steps of a computation. *)
Lemma bind_run {W E A B} (c : M W E A) (k : A -> M W E B) s a s1 :
  c s = (Return a, s1) -> bind c k s = k a s1.
Proof. unfold bind. by intros ->. Qed.

Lemma call_run {W A} (ev : Event) (op : ext W A) s r w' :
  op (world s) = (r, w') -> call ev op s = (r, mkState w' (trace s ++ [ev])).
Proof. unfold call. by intros ->. Qed.

Lemma try_except_run {W E E' A} (body : M W E A) (handler : E -> M W E' A) s a s' :
  body s = (Return a, s') -> try_except body handler s = (Return a, s').
Proof. unfold try_except. by intros ->. Qed.

(** Running a computation that fails. *)
Lemma bind_run_raise {W E A B} (c : M W E A) (k : A -> M W E B) s e s1 :
  c s = (Raise e, s1) -> bind c k s = (Raise e, s1).
Proof. unfold bind. by intros ->. Qed.

Lemma try_except_handle {W E E' A} (body : M W E A) (handler : E -> M W E' A) s e s1 :
  body s = (Raise e, s1) -> try_except body handler s = handler e s1.
Proof. unfold try_except. by intros ->. Qed.

(** Peel the leading binds off a run that returned. *)
Ltac returned H :=
  repeat
    (let a := fresh "a" in
     let s := fresh "s" in
     let Hc := fresh "Hc" in
     apply bind_Return in H as (a & s & Hc & H)).

(** Open whatever the hypotheses say about steps that have run. *)
Ltac opened :=
  repeat
    match goal with
    | H : call _ _ _ = (Return _, _) |- _ =>
        let w := fresh "w" in
        let Hop := fresh "Hop" in
        apply call_Return in H as (w & Hop & ->)
    | H : log _ _ _ = (_, _) |- _ => unfold log in H; rewrite emit_run in H; simplify_eq
    | H : gets _ _ = (_, _) |- _ => rewrite gets_run in H; simplify_eq
    | H : ret _ _ = (_, _) |- _ => unfold ret in H; simplify_eq
    | H : raise _ _ = (_, _) |- _ => unfold raise in H; simplify_eq
    | H : (if ?b then _ else _) _ = (_, _) |- _ => destruct b eqn:?
    | H : match ?l with [] => _ | _ :: _ => _ end _ = (_, _) |- _ => destruct l eqn:?
    | H : lift _ _ = (Return _, _) |- _ => apply lift_Return in H
    | H : bind _ _ _ = (Return _, _) |- _ =>
        let a := fresh "a" in
        let s := fresh "s" in
        let Hc := fresh "Hc" in
        apply bind_Return in H as (a & s & Hc & H)
    end.

Ltac units := repeat match goal with u : unit |- _ => destruct u end.

(** ** The answer to a question *)

(** What a call of [answer_question] that returns has done, step by step. *)
Lemma answer_question_returns `{Builtins} {W : Type} `{Externals W}
    (self : KnowledgeBaseService.t) (company_name question : string) s r s' :
  KnowledgeBaseService.answer_question self company_name question s = (Return r, s') ->
  let p := KnowledgeBaseService.get_vector_store_path self company_name in
  exists w1 w2 w3 qa,
    path_exists p (world s) = (Return true, w1)
    /\ Chroma_open p w1 = (Return tt, w2)
    /\ RetrievalQA_invoke p 4 KnowledgeBaseService.prompt_template question w2 = (Return qa, w3)
    /\ r = {| KnowledgeBaseService.answer :=
                default KnowledgeBaseService.no_answer (qa_result qa);
              KnowledgeBaseService.sources :=
                map KnowledgeBaseService.source_of (take 3 (default [] (qa_source_documents qa)));
              KnowledgeBaseService.confidence_score := 0.8 |}
    /\ s' = mkState w3
              (trace s ++
               [Log INFO ("Answering question for company: " +:+ company_name);
                CallPathExists p;
                CallChroma p;
                CallRetrievalQA p 4 KnowledgeBaseService.prompt_template question]).
Proof.
  intros Hrun p. unfold KnowledgeBaseService.answer_question in Hrun.
  apply try_except_Return in Hrun; [|by intros].
  unfold KnowledgeBaseService.answer_question_try in Hrun.
  returned Hrun. opened. cbn [world trace] in *.
  match goal with u : unit |- _ => destruct u end.
  eexists _, _, _, _. repeat split; try eassumption.
  - f_equal. by destruct (default [] (qa_source_documents _)).
  - by rewrite <- !app_assoc.
Qed.

(** C1. Whenever [answer_question] returns, the [confidence_score] of the
    dictionary it returns is the constant 0.8, whatever the company, the
    question, and whatever the retrieval and the chat model produced; the
    question route passes the same value on in its reply. *)
Theorem answer_question_confidence_is_constant `{Builtins} {W : Type} `{Externals W} :
  (forall (self : KnowledgeBaseService.t) (company_name question : string) s r s',
     KnowledgeBaseService.answer_question self company_name question s = (Return r, s') ->
     KnowledgeBaseService.confidence_score r = 0.8%float)
  /\ (forall (app : Routes.services) (request : Routes.QuestionRequest) s reply s',
        Routes.ask_question app request s = (Return reply, s') ->
        Routes.confidence_score reply = Some 0.8%float).
Proof.
  split.
  - intros self company_name question s r s' Hrun.
    apply answer_question_returns in Hrun as (w1 & w2 & w3 & qa & _ & _ & _ & -> & _).
    reflexivity.
  - intros app request s reply s' Hrun.
    unfold Routes.ask_question in Hrun.
    apply try_except_Return in Hrun; [|by intros [] ????].
    unfold Routes.ask_question_try in Hrun. returned Hrun.
    match goal with
    | Ha : lift (KnowledgeBaseService.answer_question _ _ _) _ = _ |- _ =>
        apply lift_Return, answer_question_returns
          in Ha as (w1 & w2 & w3 & qa & _ & _ & _ & -> & _)
    end.
    by injection Hrun as <- <-.
Qed.

Section Witnesses_answer.
#[local] Existing Instances Examples.oracle Ref.builtins Ref.externals.

Lemma answer_question_confidence_is_constant_witness :
  match KnowledgeBaseService.answer_question Examples.kb "Acme" "What is your policy?"
          Examples.start with
  | (Return r, _) => KnowledgeBaseService.confidence_score r = 0.8%float
  | (Raise _, _) => False
  end
  /\ match Routes.ask_question Examples.app Examples.acme_question Examples.start with
     | (Return reply, _) => Routes.confidence_score reply = Some 0.8%float
     | (Raise _, _) => False
     end.
Proof.
  split.
  - destruct (KnowledgeBaseService.answer_question Examples.kb "Acme" "What is your policy?"
                Examples.start) as [[r|e] s'] eqn:Hrun.
    + exact (proj1 answer_question_confidence_is_constant _ _ _ _ _ _ Hrun).
    + vm_compute in Hrun. discriminate.
  - destruct (Routes.ask_question Examples.app Examples.acme_question Examples.start)
      as [[reply|e] s'] eqn:Hrun.
    + exact (proj2 answer_question_confidence_is_constant _ _ _ _ _ Hrun).
    + vm_compute in Hrun. discriminate.
Defined.

End Witnesses_answer.

(** ** Snippets and sources *)

Lemma length_app (s1 s2 : string) :
  String.length (s1 +:+ s2) = (String.length s1 + String.length s2)%nat.
Proof. induction s1 as [|c r IH]; simpl; [done | by rewrite IH]. Qed.

Lemma length_slice_to (n : nat) (s : string) :
  String.length (Py.slice_to n s) = Nat.min n (String.length s).
Proof.
  revert s. induction n as [|n IH]; intros [|c r]; simpl; try done.
  by rewrite IH.
Qed.

(** A snippet is the text itself when it has at most 200 characters, and
    otherwise its first 200 characters followed by three dots. *)
Lemma snippet_cases (text : string) :
  ((String.length text <= 200)%nat /\ KnowledgeBaseService.snippet text = text)
  \/ ((200 < String.length text)%nat
      /\ KnowledgeBaseService.snippet text = Py.slice_to 200 text +:+ "..."
      /\ String.length (KnowledgeBaseService.snippet text) = 203%nat).
Proof.
  unfold KnowledgeBaseService.snippet.
  destruct (200 <? String.length text)%nat eqn:Hlen.
  - apply Nat.ltb_lt in Hlen. right. repeat split; [done|].
    rewrite length_app, length_slice_to. change (String.length "...") with 3%nat. lia.
  - apply Nat.ltb_ge in Hlen. by left.
Qed.

(** C5, as the code has it. Whenever [answer_question] returns, it has asked
    the retrieval chain once, for the 4 nearest chunks; [sources] holds one
    entry for each of the first three source documents of the chain's
    result, so at most 3; and the content of an entry is the chunk's text
    when that has at most 200 characters, and otherwise the first 200
    characters of the text followed by "...", 203 characters in all. *)
Theorem answer_question_sources `{Builtins} {W : Type} `{Externals W}
    (self : KnowledgeBaseService.t) (company_name question : string) s r s' :
  KnowledgeBaseService.answer_question self company_name question s = (Return r, s') ->
  let p := KnowledgeBaseService.get_vector_store_path self company_name in
  (exists events qa w w',
     trace s' = (trace s ++ events)%list
     /\ retrievals events = [(p, 4, KnowledgeBaseService.prompt_template, question)]
     /\ RetrievalQA_invoke p 4 KnowledgeBaseService.prompt_template question w = (Return qa, w')
     /\ KnowledgeBaseService.sources r
        = map KnowledgeBaseService.source_of (take 3 (default [] (qa_source_documents qa))))
  /\ (length (KnowledgeBaseService.sources r) <= 3)%nat
  /\ Forall (fun src =>
               exists doc,
                 src = KnowledgeBaseService.source_of doc
                 /\ ((String.length (page_content doc) <= 200)%nat
                       /\ KnowledgeBaseService.content src = page_content doc
                     \/ (200 < String.length (page_content doc))%nat
                       /\ KnowledgeBaseService.content src
                          = Py.slice_to 200 (page_content doc) +:+ "..."
                       /\ String.length (KnowledgeBaseService.content src) = 203%nat))
       (KnowledgeBaseService.sources r).
Proof.
  intros Hrun p.
  apply answer_question_returns in Hrun as (w1 & w2 & w3 & qa & _ & _ & Hqa & -> & ->).
  fold p in Hqa. cbn [KnowledgeBaseService.sources trace].
  split; [|split].
  - eexists _, qa, w2, w3.
    split; [reflexivity|]. split; [reflexivity|]. split; [exact Hqa | reflexivity].
  - rewrite length_map, length_take. lia.
  - apply Forall_map, Forall_forall. intros doc _. exists doc. split; [done|].
    apply snippet_cases.
Qed.

Section Witnesses_sources.
#[local] Existing Instances Examples.oracle Ref.builtins Ref.externals.

Lemma answer_question_sources_witness :
  match KnowledgeBaseService.answer_question Examples.kb "Acme" "What is your policy?"
          Examples.start with
  | (Return r, _) => (length (KnowledgeBaseService.sources r) <= 3)%nat
  | (Raise _, _) => False
  end.
Proof.
  destruct (KnowledgeBaseService.answer_question Examples.kb "Acme" "What is your policy?"
              Examples.start) as [[r|e] s'] eqn:Hrun.
  - exact (proj1 (proj2 (answer_question_sources _ _ _ _ _ _ Hrun))).
  - vm_compute in Hrun. discriminate.
Defined.

(** C5, as stated, fails: Acme's store holds a chunk of 201 characters, and
    the snippet returned for it has 203 characters, not 200 or fewer. *)
Lemma answer_question_snippet_exceeds_200 :
  match KnowledgeBaseService.answer_question Examples.kb "Acme" "What is your policy?"
          Examples.start with
  | (Return r, _) =>
      map (fun src => String.length (KnowledgeBaseService.content src))
          (KnowledgeBaseService.sources r) = [203; 20]%nat
      /\ ~ Forall (fun src => (String.length (KnowledgeBaseService.content src) <= 200)%nat)
             (KnowledgeBaseService.sources r)
  | (Raise _, _) => False
  end.
Proof.
  destruct (KnowledgeBaseService.answer_question Examples.kb "Acme" "What is your policy?"
              Examples.start) as [[r|e] s'] eqn:Hrun.
  - vm_compute in Hrun. injection Hrun as <- _. split; [reflexivity|].
    intros Hall. apply Forall_cons_1 in Hall as [Hlen _]. vm_compute in Hlen. lia.
  - vm_compute in Hrun. discriminate.
Qed.

End Witnesses_sources.

(** ** Uploading a document *)

(** What a call of [upload_and_process_pdf] that returns has done. *)
Lemma upload_returns `{Builtins} {W : Type} `{Externals W}
    (self : KnowledgeBaseService.t) (file_path company_name : string)
    (description : option string) s r s' :
  KnowledgeBaseService.upload_and_process_pdf self file_path company_name description s
    = (Return r, s') ->
  let p := KnowledgeBaseService.get_vector_store_path self company_name in
  let text_splitter :=
    {| chunk_size := 1000; chunk_overlap := 200; length_function := String.length |} in
  exists documents splits w1 w2 w3 w4 (existed : bool),
    PyPDFLoader_load file_path (world s) = (Return documents, w1)
    /\ documents <> []
    /\ split_documents text_splitter documents w1 = (Return splits, w2)
    /\ path_exists p w2 = (Return existed, w3)
    /\ (if existed then shutil_rmtree p w3 = (Return tt, w4) else w4 = w3)
    /\ Chroma_from_documents splits p w4 = (Return tt, world s')
    /\ r = {| KnowledgeBaseService.vector_store_path := p;
              KnowledgeBaseService.document_count := length documents;
              KnowledgeBaseService.chunk_count := length splits;
              KnowledgeBaseService.status := "success" |}
    /\ trace s' =
       (trace s ++
        [Log INFO ("Processing PDF for company: " +:+ company_name);
         CallPdfLoad file_path;
         Log INFO ("Loaded " +:+ Py.str_of_nat (length documents) +:+ " pages from PDF");
         CallSplitDocuments text_splitter documents;
         Log INFO ("Split PDF into " +:+ Py.str_of_nat (length splits) +:+ " chunks");
         CallPathExists p] ++
        (if existed
         then [Log INFO ("Removing existing vector store for " +:+ company_name);
               CallRmtree p]
         else []) ++
        [CallChromaFromDocuments splits p;
         Log INFO ("Vector store created at: " +:+ p)])%list.
Proof.
  intros Hrun p text_splitter.
  unfold KnowledgeBaseService.upload_and_process_pdf in Hrun.
  apply try_except_Return in Hrun; [|by intros].
  unfold KnowledgeBaseService.upload_and_process_pdf_try in Hrun.
  opened; units; cbn [world trace] in *.
  - eexists _, _, _, _, _, _, true. repeat split; try eassumption; try done.
    by rewrite <- !app_assoc.
  - eexists _, _, _, _, _, _, false. repeat split; try eassumption; try done.
    by rewrite <- !app_assoc.
Qed.

(** C2, as the code has it. Whenever [upload_and_process_pdf] returns, it has
    handed the loaded pages, once, to a text splitter configured with chunk
    size 1000 and chunk overlap 200, both measured with [len], that is by
    character count; after that, it has given exactly the chunks the
    splitter returned to [Chroma.from_documents] for the company's path, and
    it reports their number.  The size of a chunk is whatever the splitter
    returns. *)
Theorem upload_splits_with_configured_splitter `{Builtins} {W : Type} `{Externals W}
    (self : KnowledgeBaseService.t) (file_path company_name : string)
    (description : option string) s r s' :
  KnowledgeBaseService.upload_and_process_pdf self file_path company_name description s
    = (Return r, s') ->
  let p := KnowledgeBaseService.get_vector_store_path self company_name in
  let text_splitter :=
    {| chunk_size := 1000; chunk_overlap := 200; length_function := String.length |} in
  exists documents splits w1 w2 w3 before between after,
    PyPDFLoader_load file_path (world s) = (Return documents, w1)
    /\ split_documents text_splitter documents w1 = (Return splits, w2)
    /\ Chroma_from_documents splits p w3 = (Return tt, world s')
    /\ trace s' =
       (trace s ++ before ++ [CallSplitDocuments text_splitter documents] ++ between
        ++ [CallChromaFromDocuments splits p] ++ after)%list
    /\ split_calls (before ++ between ++ after) = []
    /\ persist_calls (before ++ between ++ after) = []
    /\ KnowledgeBaseService.chunk_count r = length splits.
Proof.
  intros Hrun p text_splitter.
  apply upload_returns in Hrun
    as (documents & splits & w1 & w2 & w3 & w4 & existed
        & Hload & _ & Hsplit & _ & _ & Hpersist & -> & ->).
  exists documents, splits, w1, w2, w4.
  eexists [_; _; _], (_ :: _ :: (if existed then [_; _] else [])), [_].
  do 3 (split; [eassumption|]).
  split; [cbn [app]; by destruct existed|].
  split; [by destruct existed|].
  split; [by destruct existed | reflexivity].
Qed.

(** A window of a text is no longer than the text: no splitter can cut
    windows of 1000 characters out of a page that has fewer. *)
Lemma window_no_longer_than_text (text before window after : string) :
  text = before +:+ window +:+ after ->
  (String.length window <= String.length text)%nat.
Proof. intros ->. rewrite !length_app. lia. Qed.

Section Witnesses_upload.
#[local] Existing Instances Examples.oracle Ref.builtins Ref.externals.

Lemma upload_splits_with_configured_splitter_witness :
  match KnowledgeBaseService.upload_and_process_pdf Examples.kb
          "pdf_uploads/Acme/report.pdf" "Acme" None Examples.start with
  | (Return r, _) => KnowledgeBaseService.chunk_count r = 2%nat
  | (Raise _, _) => False
  end.
Proof.
  destruct (KnowledgeBaseService.upload_and_process_pdf Examples.kb
              "pdf_uploads/Acme/report.pdf" "Acme" None Examples.start)
    as [[r|e] s'] eqn:Hrun.
  - destruct (upload_splits_with_configured_splitter _ _ _ _ _ _ _ Hrun)
      as (documents & splits & w1 & w2 & w3 & before & between & after
          & Hload & Hsplit & _ & _ & _ & _ & ->).
    vm_compute in Hload. injection Hload as <- <-.
    vm_compute in Hsplit. by injection Hsplit as <- _.
  - vm_compute in Hrun. discriminate.
Defined.

(** C2, as stated, fails: the two pages of Acme's report have 19 characters
    each; the splitter returns them whole, and the store then holds two
    chunks of 19 characters, not windows of 1000. *)
Lemma upload_chunks_shorter_than_1000 :
  match KnowledgeBaseService.upload_and_process_pdf Examples.kb
          "pdf_uploads/Acme/report.pdf" "Acme" None Examples.start with
  | (Return _, s') =>
      match Ref.fs (world s') !! "vector_stores/Acme" with
      | Some (Ref.Dir chunks) =>
          map (fun chunk => String.length (page_content chunk)) chunks = [19; 19]%nat
          /\ ~ Forall (fun chunk => String.length (page_content chunk) = 1000%nat) chunks
      | _ => False
      end
  | (Raise _, _) => False
  end.
Proof.
  destruct (KnowledgeBaseService.upload_and_process_pdf Examples.kb
              "pdf_uploads/Acme/report.pdf" "Acme" None Examples.start)
    as [[r|e] s'] eqn:Hrun.
  - vm_compute in Hrun. injection Hrun as _ <-. vm_compute.
    split; [reflexivity|]. intros Hall. apply Forall_cons_1 in Hall as [Hlen _].
    discriminate Hlen.
  - vm_compute in Hrun. discriminate.
Qed.

End Witnesses_upload.

(** ** The reference world *)

(** *** Paths and the file system *)

Lemma prefixb_refl (l : list string) : Path.prefixb l l = true.
Proof. induction l as [|x l IH]; [done|]. cbn. by rewrite String.eqb_refl. Qed.

Lemma within_refl (p : string) : Path.within p p = true.
Proof. unfold Path.within. by rewrite String.eqb_refl, prefixb_refl. Qed.

(** What is left of a path after [p] has been removed with all below it. *)
Lemma lookup_remove_tree (p q : string) (f : gmap string Ref.node) :
  Ref.remove_tree p f !! q = if Path.within p q then None else f !! q.
Proof.
  unfold Ref.remove_tree. apply option_eq. intros n.
  rewrite map_lookup_filter_Some. cbn [fst].
  destruct (Path.within p q).
  - split; [by intros [_ ?] | done].
  - split; [by intros [? _] | done].
Qed.

Lemma remove_tree_self (p : string) (f : gmap string Ref.node) :
  Ref.remove_tree p f !! p = None.
Proof. by rewrite lookup_remove_tree, within_refl. Qed.

(** Making directories keeps what is there, and adds empty directories
    only, at the paths it was given. *)
Lemma make_dirs_keeps (ps : list string) (f f' : gmap string Ref.node) (q : string) n :
  Ref.make_dirs ps f = Return f' -> f !! q = Some n -> f' !! q = Some n.
Proof.
  revert f. induction ps as [|a ps IH]; intros f Hrun Hq; cbn in Hrun.
  - by simplify_eq.
  - destruct (f !! a) as [[c|c]|] eqn:Ha; [done| by eapply IH |].
    eapply IH; [exact Hrun|]. rewrite lookup_insert_ne; [done|]. by intros ->; simplify_eq.
Qed.

Lemma make_dirs_other (ps : list string) (f f' : gmap string Ref.node) (q : string) :
  Ref.make_dirs ps f = Return f' -> q ∉ ps -> f' !! q = f !! q.
Proof.
  revert f. induction ps as [|a ps IH]; intros f Hrun Hq; cbn in Hrun.
  - by simplify_eq.
  - apply not_elem_of_cons in Hq as [Hne Hq].
    destruct (f !! a) as [[c|c]|] eqn:Ha; [done| by eapply IH |].
    rewrite (IH _ Hrun Hq). by rewrite lookup_insert_ne.
Qed.

Lemma make_dirs_new (ps : list string) (f f' : gmap string Ref.node) (q : string) n :
  Ref.make_dirs ps f = Return f' -> f' !! q = Some n ->
  f !! q = Some n \/ (f !! q = None /\ n = Ref.Dir []).
Proof.
  revert f. induction ps as [|a ps IH]; intros f Hrun Hq; cbn in Hrun.
  - simplify_eq. by left.
  - destruct (f !! a) as [[c|c]|] eqn:Ha; [done| by eapply IH |].
    destruct (IH _ Hrun Hq) as [Hold|[Hnone ->]].
    + destruct (decide (a = q)) as [->|Hne].
      * rewrite lookup_insert_eq in Hold. simplify_eq. by right.
      * rewrite lookup_insert_ne in Hold by done. by left.
    + right. split; [|done].
      destruct (decide (a = q)) as [->|Hne]; [done|].
      by rewrite lookup_insert_ne in Hnone.
Qed.

Section RefWorld.
Context `{Ref.oracle}.
#[local] Existing Instances Ref.builtins Ref.externals.

(** Reduce the operations of the interface to those of the reference world. *)
Ltac ref_ops :=
  cbn [path_exists path_mkdir os_path_exists os_remove shutil_rmtree open_write os_getenv
       PyPDFLoader_load split_documents Chroma_from_documents Chroma_open
       RetrievalQA_invoke db_add db_commit db_refresh db_rollback db_delete
       db_query_by_company db_query_first_by_id Ref.externals] in *.

(** [Chroma.from_documents] on a directory that is not there: when it
    returns, the store holds the given chunks; when it raises, the
    directory is missing or holds no chunk. *)
Lemma from_documents_fresh (documents : list Document) (p : string) (w : Ref.world) :
  Ref.fs w !! p = None ->
  match Ref.ref_Chroma_from_documents documents p w with
  | (Return _, w') =>
      Ref.fs w' !! p = Some (Ref.Dir documents)
      /\ (forall q, q <> p -> q ∉ Path.ancestors p -> Ref.fs w' !! q = Ref.fs w !! q)
      /\ (forall q n, Ref.fs w !! q = Some n -> q <> p -> Ref.fs w' !! q = Some n)
      /\ (forall q c, Ref.fs w' !! q = Some (Ref.File c) -> Ref.fs w !! q = Some (Ref.File c))
      /\ Ref.table w' = Ref.table w /\ Ref.next_id w' = Ref.next_id w
      /\ Ref.now w' = Ref.now w
      /\ Ref.session_new w' = Ref.session_new w
      /\ Ref.session_deleted w' = Ref.session_deleted w
      /\ Ref.session_identity w' = Ref.session_identity w
  | (Raise _, w') =>
      forall chunks, Ref.fs w' !! p = Some (Ref.Dir chunks) -> chunks = []
  end.
Proof.
  intros Hnone. unfold Ref.ref_Chroma_from_documents, Ref.chroma_client. rewrite Hnone.
  destruct (if bool_decide (p ∈ Ref.clients w) then Ref.stale_client else None) as [e|].
  { intros chunks. by rewrite Hnone. }
  destruct (Ref.make_dirs (Path.ancestors p) (Ref.fs w)) as [f|e] eqn:Hdirs.
  2:{ intros chunks. by rewrite Hnone. }
  destruct (Ref.embed_fault documents) as [e|].
  { intros chunks. cbn [Ref.fs Ref.add_client Ref.set_fs]. rewrite lookup_insert_eq.
    by intros [= <-]. }
  cbn [Ref.fs Ref.add_client Ref.set_fs Ref.table Ref.next_id Ref.now Ref.session_new
       Ref.session_deleted Ref.session_identity app].
  split; [apply lookup_insert_eq|]. split; [|split; [|split; [|done]]].
  - intros q Hq Hanc. rewrite !lookup_insert_ne by done. by eapply make_dirs_other.
  - intros q n Hq Hne. rewrite !lookup_insert_ne by done. by eapply make_dirs_keeps.
  - intros q c. destruct (decide (p = q)) as [->|Hne].
    + by rewrite lookup_insert_eq.
    + rewrite !lookup_insert_ne by done. intros Hq.
      by destruct (make_dirs_new _ _ _ _ _ Hdirs Hq) as [?|[_ ?]].
Qed.

(** [mkdir(parents=True, exist_ok=True)] when it returns: the directory is
    there, what was there is kept, and only directories have been added,
    at the path and above it. *)
Lemma mkdir_returns (p : string) (w w' : Ref.world) :
  Ref.ref_path_mkdir p w = (Return tt, w') ->
  exists f,
    w' = Ref.set_fs w f
    /\ (exists c, f !! p = Some (Ref.Dir c))
    /\ (forall q n, Ref.fs w !! q = Some n -> f !! q = Some n)
    /\ (forall q, q <> p -> q ∉ Path.ancestors p -> f !! q = Ref.fs w !! q)
    /\ (forall q c, f !! q = Some (Ref.File c) -> Ref.fs w !! q = Some (Ref.File c)).
Proof.
  unfold Ref.ref_path_mkdir.
  destruct (Ref.make_dirs (Path.ancestors p) (Ref.fs w)) as [f|e] eqn:Hdirs; [|done].
  destruct (f !! p) as [[c|c]|] eqn:Hp; [done| |]; intros [= <-]; eexists; (split; [done|]).
  - split; [eauto|]. split; [|split].
    + intros q n. by eapply make_dirs_keeps.
    + intros q _ Hq. by eapply make_dirs_other.
    + intros q c' Hq. by destruct (make_dirs_new _ _ _ _ _ Hdirs Hq) as [?|[_ ?]].
  - split; [rewrite lookup_insert_eq; eauto|]. split; [|split].
    + intros q n Hq. pose proof (make_dirs_keeps _ _ _ _ _ Hdirs Hq) as Hq'.
      rewrite lookup_insert_ne; [done|]. intros ->. by rewrite Hp in Hq'.
    + intros q Hne Hq. rewrite lookup_insert_ne by done. by eapply make_dirs_other.
    + intros q c'. destruct (decide (p = q)) as [->|Hne].
      * by rewrite lookup_insert_eq.
      * rewrite lookup_insert_ne by done. intros Hq.
        by destruct (make_dirs_new _ _ _ _ _ Hdirs Hq) as [?|[_ ?]].
Qed.

(** [open(p, "wb")] and [write] when they return. *)
Lemma open_write_returns (p : string) (content : Py.bytes) (w w' : Ref.world) :
  Ref.ref_open_write p content w = (Return tt, w') ->
  w' = Ref.set_fs w (<[p := Ref.File content]> (Ref.fs w))
  /\ (forall c, Ref.fs w !! p <> Some (Ref.Dir c)).
Proof.
  unfold Ref.ref_open_write.
  destruct (Ref.fs w !! p) as [[c|c]|] eqn:Hp; [|done|];
    (destruct (Path.parent p) as [q|];
     [destruct (Ref.fs w !! q) as [[?|?]|]; [done| |done]|]);
    by intros [= <-].
Qed.


(** In the reference world every upload that returns leaves, at the
    company's path, a store holding the chunks of the uploaded document and
    nothing else; outside the store it changes nothing but for the
    directories above the store, which it makes when they are missing; and
    when something was at the path, no file below it is left. *)
Lemma upload_returns_ref (self : KnowledgeBaseService.t) (file_path company_name : string)
    (description : option string) (s : State Ref.world) r s' :
  KnowledgeBaseService.upload_and_process_pdf self file_path company_name description s
    = (Return r, s') ->
  let p := KnowledgeBaseService.get_vector_store_path self company_name in
  exists content documents splits,
    Ref.fs (world s) !! file_path = Some (Ref.File content)
    /\ Ref.parse_pdf content = Return documents
    /\ Ref.splitter
         {| chunk_size := 1000; chunk_overlap := 200; length_function := String.length |}
         documents = Return splits
    /\ Ref.fs (world s') !! p = Some (Ref.Dir splits)
    /\ (forall q, Path.within p q = false -> q ∉ Path.ancestors p ->
                  Ref.fs (world s') !! q = Ref.fs (world s) !! q)
    /\ (forall q n, Ref.fs (world s) !! q = Some n -> Path.within p q = false ->
                    Ref.fs (world s') !! q = Some n)
    /\ (is_Some (Ref.fs (world s) !! p) ->
        forall q c, Path.within p q = true -> Ref.fs (world s') !! q <> Some (Ref.File c))
    /\ Ref.table (world s') = Ref.table (world s)
    /\ Ref.next_id (world s') = Ref.next_id (world s)
    /\ Ref.now (world s') = Ref.now (world s)
    /\ Ref.session_new (world s') = Ref.session_new (world s)
    /\ Ref.session_deleted (world s') = Ref.session_deleted (world s)
    /\ Ref.session_identity (world s') = Ref.session_identity (world s).
Proof.
  intros Hrun p.
  apply upload_returns in Hrun
    as (documents & splits & w1 & w2 & w3 & w4 & existed
        & Hload & _ & Hsplit & Hex & Hrm & Hnew & _ & _).
  fold p in Hex, Hrm, Hnew. ref_ops.
  unfold Ref.ref_PyPDFLoader_load in Hload.
  destruct (Ref.fs (world s) !! file_path) as [[content|?]|] eqn:Hfile;
    try discriminate Hload.
  injection Hload as Hparse <-.
  unfold Ref.ref_split_documents in Hsplit. injection Hsplit as Hsplit <-.
  unfold Ref.ref_path_exists in Hex. injection Hex as <- <-.
  exists content, documents, splits. do 3 (split; [done|]).
  case_bool_decide as Hsome.
  - unfold Ref.ref_shutil_rmtree in Hrm.
    destruct (Ref.fs (world s) !! p) as [[?|old]|] eqn:Hp; try discriminate Hrm.
    injection Hrm as <-.
    pose proof (from_documents_fresh splits p
                  (Ref.set_fs (world s) (Ref.remove_tree p (Ref.fs (world s))))) as Hfresh.
    cbn [Ref.fs Ref.set_fs] in Hfresh. specialize (Hfresh (remove_tree_self _ _)).
    rewrite Hnew in Hfresh.
    destruct Hfresh as (Hstore & Hother & Hkept & Hfiles & Hrest).
    cbn [Ref.table Ref.next_id Ref.now Ref.session_new Ref.session_deleted
         Ref.session_identity Ref.set_fs] in Hrest.
    split; [exact Hstore|]. split; [|split; [|split; [|exact Hrest]]].
    + intros q Hq Hanc.
      rewrite Hother; [|by intros ->; rewrite within_refl in Hq|done].
      by rewrite lookup_remove_tree, Hq.
    + intros q n Hq Hout. apply Hkept; [|by intros ->; rewrite within_refl in Hout].
      by rewrite lookup_remove_tree, Hout.
    + intros _ q c Hin Hq. apply Hfiles in Hq.
      by rewrite lookup_remove_tree, Hin in Hq.
  - subst w4. assert (Hp : Ref.fs (world s) !! p = None).
    { destruct (Ref.fs (world s) !! p) eqn:Hp; [|done]. exfalso. apply Hsome. eauto. }
    pose proof (from_documents_fresh splits p (world s) Hp) as Hfresh.
    rewrite Hnew in Hfresh.
    destruct Hfresh as (Hstore & Hother & Hkept & Hfiles & Hrest).
    split; [exact Hstore|]. split; [|split; [|split; [|exact Hrest]]].
    + intros q Hq Hanc. apply Hother; [by intros ->; rewrite within_refl in Hq|done].
    + intros q n Hq Hout. apply Hkept; [done|by intros ->; rewrite within_refl in Hout].
    + rewrite Hp. by intros [? ?].
Qed.

(** C9. The normalisation is not injective: the distinct names "a b", "a_b"
    and "a/b" have the same vector store path.  For any two names with the
    same path, a knowledge-base deletion under one that finds a store
    leaves the other without its knowledge base, and an upload under one
    that returns leaves at the other's path a store holding the chunks of
    the uploaded document and nothing of what the other had. *)
Theorem normalization_not_injective (self : KnowledgeBaseService.t) :
  ("a b" <> "a_b" /\ "a_b" <> "a/b" /\ "a b" <> "a/b")
  /\ KnowledgeBaseService.get_vector_store_path self "a b"
     = KnowledgeBaseService.get_vector_store_path self "a_b"
  /\ KnowledgeBaseService.get_vector_store_path self "a/b"
     = KnowledgeBaseService.get_vector_store_path self "a_b"
  /\ (forall (name other : string) (s s' : State Ref.world),
        KnowledgeBaseService.get_vector_store_path self name
          = KnowledgeBaseService.get_vector_store_path self other ->
        KnowledgeBaseService.delete_company_knowledge_base self name s = (Return true, s') ->
        (KnowledgeBaseService.check_company_knowledge_base_exists self other s).1 = Return true
        /\ (KnowledgeBaseService.check_company_knowledge_base_exists self other s').1
           = Return false)
  /\ (forall (name other file_path : string) (description : option string)
             (s s' : State Ref.world) r,
        KnowledgeBaseService.get_vector_store_path self name
          = KnowledgeBaseService.get_vector_store_path self other ->
        KnowledgeBaseService.upload_and_process_pdf self file_path name description s
          = (Return r, s') ->
        exists content documents splits,
          Ref.fs (world s) !! file_path = Some (Ref.File content)
          /\ Ref.parse_pdf content = Return documents
          /\ Ref.splitter
               {| chunk_size := 1000; chunk_overlap := 200; length_function := String.length |}
               documents = Return splits
          /\ Ref.fs (world s') !! KnowledgeBaseService.get_vector_store_path self other
             = Some (Ref.Dir splits)).
Proof.
  split; [by repeat split|]. split; [reflexivity|]. split; [reflexivity|]. split.
  - intros name other s s' Hsame Hrun.
    unfold KnowledgeBaseService.check_company_knowledge_base_exists, call.
    rewrite <- Hsame. clear Hsame.
    unfold KnowledgeBaseService.delete_company_knowledge_base,
      KnowledgeBaseService.delete_company_knowledge_base_try in Hrun.
    remember (KnowledgeBaseService.get_vector_store_path self name) as p eqn:Hpath.
    clear Hpath.
    apply try_except_Return in Hrun; [|by intros].
    opened; units; ref_ops; cbn [world trace fst] in *.
    unfold Ref.ref_path_exists, Ref.ref_shutil_rmtree in *.
    simplify_eq.
    destruct (Ref.fs (world s) !! p) as [[?|old]|] eqn:Hp; simplify_eq.
    cbn [world Ref.fs Ref.set_fs]. rewrite remove_tree_self.
    split; f_equal.
  - intros name other file_path description s s' r Hsame Hrun.
    apply upload_returns_ref in Hrun
      as (content & documents & splits & ? & ? & ? & Hstore & _).
    exists content, documents, splits. do 3 (split; [done|]).
    by rewrite <- Hsame.
Qed.




(** Rows keep their keys: an INSERT stores the row under the key it is
    given, and a DELETE only removes. *)
Lemma flush_new_well_keyed (w : Ref.world) (row : Model.CompanyDocument) :
  Ref.well_keyed w -> Ref.well_keyed (Ref.flush_new w row).
Proof.
  intros Hwf key stored. unfold Ref.flush_new. cbn [Ref.table].
  destruct (decide (Ref.next_id w = key)) as [<-|Hne].
  - rewrite lookup_insert_eq. by intros [= <-].
  - rewrite lookup_insert_ne by done. apply Hwf.
Qed.





End RefWorld.
(** ** Exception handlers of the services *)

Lemma handled_wrap {W A} (prefix : string) (body : M W pyexc A) s :
  handled prefix None body
    (try_except body
       (fun e => bind (log ERROR (prefix +:+ exc_str e))
                      (fun _ => raise (Exception (prefix +:+ exc_str e))))) s.
Proof.
  unfold handled, try_except. by destruct (body s) as [[a|e] s1].
Qed.

Lemma handled_wrap_rollback {W A} (prefix : string) (undo : ext W unit)
    (body : M W pyexc A) s :
  handled prefix (Some undo) body
    (try_except body
       (fun e =>
          bind (call CallDbRollback undo)
               (fun _ => bind (log ERROR (prefix +:+ exc_str e))
                              (fun _ => raise (Exception (prefix +:+ exc_str e)))))) s.
Proof.
  unfold handled, try_except. destruct (body s) as [[a|e] s1]; [done|].
  unfold bind, call, log, emit, raise.
  destruct (undo (world s1)) as [[u|e2] w2]; cbn [world trace]; [|done].
  by rewrite <- app_assoc.
Qed.

(** C6, as the code has it. Each of the eight service methods that has a
    [try] block returns what the block returns, and, whenever an exception
    is raised inside the block, logs it as an error and raises a generic
    [Exception] whose message is the method's fixed prefix followed by the
    original message.  [create_document_record] and [delete_document]
    first call [db.rollback()], unguarded: when the rollback returns they
    go on as the others do, and when the rollback raises, its exception
    reaches the caller as it is, with nothing logged.
    [check_company_knowledge_base_exists] has no handler: what
    [Path.exists] raises inside it reaches the caller as it is, unlogged. *)
Theorem service_handlers_wrap_exceptions `{Builtins} {W : Type} `{Externals W}
    (kb : KnowledgeBaseService.t) (docs : CompanyDocumentService.t) (s : State W) :
  (forall file_path company_name description,
     handled "Error processing PDF: " None
       (KnowledgeBaseService.upload_and_process_pdf_try kb file_path company_name description)
       (KnowledgeBaseService.upload_and_process_pdf kb file_path company_name description) s)
  /\ (forall company_name question,
        handled "Error answering question: " None
          (KnowledgeBaseService.answer_question_try kb company_name question)
          (KnowledgeBaseService.answer_question kb company_name question) s)
  /\ (forall company_name,
        handled "Error deleting vector store: " None
          (KnowledgeBaseService.delete_company_knowledge_base_try kb company_name)
          (KnowledgeBaseService.delete_company_knowledge_base kb company_name) s)
  /\ (forall file_content company_name file_name,
        handled "Error saving file: " None
          (CompanyDocumentService.save_uploaded_file_try docs file_content company_name file_name)
          (CompanyDocumentService.save_uploaded_file docs file_content company_name file_name) s)
  /\ (forall company_name file_name file_path vector_store_path description,
        handled "Error creating document record: " (Some db_rollback)
          (CompanyDocumentService.create_document_record_try
             company_name file_name file_path vector_store_path description)
          (CompanyDocumentService.create_document_record
             company_name file_name file_path vector_store_path description) s)
  /\ (forall company_name,
        handled "Error getting documents: " None
          (CompanyDocumentService.get_documents_by_company_try company_name)
          (CompanyDocumentService.get_documents_by_company company_name) s)
  /\ (forall document_id,
        handled "Error getting document: " None
          (CompanyDocumentService.get_document_by_id_try document_id)
          (CompanyDocumentService.get_document_by_id document_id) s)
  /\ (forall document_id,
        handled "Error deleting document: " (Some db_rollback)
          (CompanyDocumentService.delete_document_try document_id)
          (CompanyDocumentService.delete_document document_id) s)
  /\ (forall company_name,
        KnowledgeBaseService.check_company_knowledge_base_exists kb company_name s
        = let p := KnowledgeBaseService.get_vector_store_path kb company_name in
          ((path_exists p (world s)).1,
           mkState (path_exists p (world s)).2 (trace s ++ [CallPathExists p]))).
Proof.
  repeat split; intros;
    try apply handled_wrap; try apply handled_wrap_rollback.
  unfold KnowledgeBaseService.check_company_knowledge_base_exists, call.
  by destruct (path_exists _ _).
Qed.

(** C6, as stated, fails: on a host that denies [stat] on the vector-store
    directory, [check_company_knowledge_base_exists] raises the
    [PermissionError] of [Path.exists] itself, not a generic [Exception],
    with its message unprefixed and with nothing logged. *)
Lemma check_exists_lets_exception_escape :
  @KnowledgeBaseService.check_company_knowledge_base_exists
    (@Ref.builtins Examples.oracle) Ref.world (@Ref.externals_stat_denied Examples.oracle)
    Examples.kb "Acme" Examples.start
  = (Raise (PyExc "PermissionError" "[Errno 13] Permission denied: 'vector_stores/Acme'"),
     mkState Examples.world0 [CallPathExists "vector_stores/Acme"])
  /\ (forall msg,
        PyExc "PermissionError" "[Errno 13] Permission denied: 'vector_stores/Acme'"
        <> Exception msg).
Proof.
  split; [reflexivity | discriminate].
Qed.

(** The handler at work: no file is at the path, the loader raises a
    [ValueError], and [upload_and_process_pdf] logs it and raises the
    generic exception with its prefix. *)
Example upload_of_missing_file_is_wrapped :
  @KnowledgeBaseService.upload_and_process_pdf
    (@Ref.builtins Examples.oracle) Ref.world (@Ref.externals Examples.oracle)
    Examples.kb "pdf_uploads/Acme/missing.pdf" "Acme" None Examples.start
  = (Raise (Exception ("Error processing PDF: "
                       +:+ "File path pdf_uploads/Acme/missing.pdf is not a valid file or url")),
     mkState Examples.world0
       [Log INFO "Processing PDF for company: Acme";
        CallPdfLoad "pdf_uploads/Acme/missing.pdf";
        Log ERROR ("Error processing PDF: "
                   +:+ "File path pdf_uploads/Acme/missing.pdf is not a valid file or url")]).
Proof. reflexivity. Qed.

(** ** Status codes of the routes *)

Lemma reraise_http_500 {W A} (body : M W exn A) s e s1 :
  body s = (Raise (Py e), s1) ->
  try_except body Routes.reraise_http s = (Raise (HTTPException 500 (exc_str e)), s1).
Proof. unfold try_except. by intros ->. Qed.

Lemma reraise_http_same {W A} (body : M W exn A) s status_code detail s1 :
  body s = (Raise (HTTPException status_code detail), s1) ->
  try_except body Routes.reraise_http s = (Raise (HTTPException status_code detail), s1).
Proof. unfold try_except. by intros ->. Qed.

Lemma all_to_500_run {W A} (body : M W exn A) s e s1 :
  body s = (Raise (Py e), s1) ->
  try_except body Routes.all_to_500 s = (Raise (HTTPException 500 (exc_str e)), s1).
Proof. unfold try_except. by intros ->. Qed.

Lemma reraise_http_not_py {W A} (body : M W exn A) s e :
  (try_except body Routes.reraise_http s).1 <> Raise (Py e).
Proof. unfold try_except. by destruct (body s) as [[a|[e0|c d]] s1]. Qed.

Lemma all_to_500_not_py {W A} (body : M W exn A) s e :
  (try_except body Routes.all_to_500 s).1 <> Raise (Py e).
Proof. unfold try_except. by destruct (body s) as [[a|[e0|c d]] s1]. Qed.

Lemma lift_run {W A} (c : M W pyexc A) s a s1 :
  c s = (Return a, s1) -> lift c s = (Return a, s1).
Proof. unfold lift, try_except. by intros ->. Qed.

(** C7. An upload whose file name is missing or does not end in ".pdf"
    (compared in lower case), or whose content does not start with the
    bytes "%PDF", is answered with status 400.  A question for a company
    whose vector store path does not exist, and a lookup or a deletion of a
    document id for which the query finds no row, are answered with status
    404.  In each of the six handlers, any other exception raised inside
    the [try] block is answered with status 500, with the exception's
    message as detail. *)
Theorem routes_map_exceptions_to_status `{Builtins} {W : Type} `{Externals W}
    (app : Routes.services) (s : State W) :
  (forall company_name file description,
     Routes.bad_filename (Routes.filename file) = true
     \/ Py.bytes_startswith (Routes.file_content file) Routes.pdf_magic = false ->
     Routes.status_of (Routes.upload_pdf app company_name file description s).1 = 400%nat)
  /\ (forall request w',
        path_exists
          (KnowledgeBaseService.get_vector_store_path
             (Routes.knowledge_base_service app) (Routes.rq_company_name request))
          (world s) = (Return false, w') ->
        Routes.status_of (Routes.ask_question app request s).1 = 404%nat)
  /\ (forall document_id w',
        db_query_first_by_id document_id (world s) = (Return None, w') ->
        Routes.status_of (Routes.get_document document_id s).1 = 404%nat
        /\ Routes.status_of (Routes.delete_document document_id s).1 = 404%nat)
  /\ (forall e s1,
        (forall company_name file description,
           Routes.upload_pdf_try app company_name file description s = (Raise (Py e), s1) ->
           Routes.upload_pdf app company_name file description s
           = (Raise (HTTPException 500 (exc_str e)), s1))
        /\ (forall request,
              Routes.ask_question_try app request s = (Raise (Py e), s1) ->
              Routes.ask_question app request s = (Raise (HTTPException 500 (exc_str e)), s1))
        /\ (forall company_name,
              Routes.get_company_documents_try company_name s = (Raise (Py e), s1) ->
              Routes.get_company_documents company_name s
              = (Raise (HTTPException 500 (exc_str e)), s1))
        /\ (forall document_id,
              Routes.get_document_try document_id s = (Raise (Py e), s1) ->
              Routes.get_document document_id s = (Raise (HTTPException 500 (exc_str e)), s1))
        /\ (forall document_id,
              Routes.delete_document_try document_id s = (Raise (Py e), s1) ->
              Routes.delete_document document_id s
              = (Raise (HTTPException 500 (exc_str e)), s1))
        /\ (forall company_name,
              Routes.delete_company_knowledge_base_try app company_name s = (Raise (Py e), s1) ->
              Routes.delete_company_knowledge_base app company_name s
              = (Raise (HTTPException 500 (exc_str e)), s1)))
  /\ (forall e,
        (forall company_name file description,
           (Routes.upload_pdf app company_name file description s).1 <> Raise (Py e))
        /\ (forall request, (Routes.ask_question app request s).1 <> Raise (Py e))
        /\ (forall company_name,
              (Routes.get_company_documents company_name s).1 <> Raise (Py e))
        /\ (forall document_id, (Routes.get_document document_id s).1 <> Raise (Py e))
        /\ (forall document_id, (Routes.delete_document document_id s).1 <> Raise (Py e))
        /\ (forall company_name,
              (Routes.delete_company_knowledge_base app company_name s).1 <> Raise (Py e))).
Proof.
  split; [|split; [|split; [|split]]].
  - intros company_name file description Hbad.
    unfold Routes.upload_pdf, Routes.upload_pdf_try, try_except, bind.
    destruct (Routes.bad_filename (Routes.filename file)) eqn:Hname; [reflexivity|].
    destruct Hbad as [Hbad|Hbad]; [discriminate|].
    cbn [ret]. unfold ret at 1. by rewrite Hbad.
  - intros request w' Hexists.
    unfold Routes.ask_question.
    erewrite reraise_http_same; [reflexivity|].
    unfold Routes.ask_question_try.
    erewrite bind_run;
      [|apply lift_run;
        unfold KnowledgeBaseService.check_company_knowledge_base_exists;
        apply call_run; exact Hexists].
    reflexivity.
  - intros document_id w' Hquery.
    assert (Hget : CompanyDocumentService.get_document_by_id document_id s
                   = (Return None, mkState w' (trace s ++ [CallDbQueryFirstById document_id]))).
    { unfold CompanyDocumentService.get_document_by_id. apply try_except_run.
      by apply call_run. }
    split.
    + unfold Routes.get_document.
      erewrite reraise_http_same; [reflexivity|].
      unfold Routes.get_document_try.
      erewrite bind_run; [|apply lift_run; exact Hget].
      reflexivity.
    + unfold Routes.delete_document.
      erewrite reraise_http_same; [reflexivity|].
      unfold Routes.delete_document_try.
      erewrite bind_run;
        [|apply lift_run;
          unfold CompanyDocumentService.delete_document; apply try_except_run;
          unfold CompanyDocumentService.delete_document_try;
          erewrite bind_run; [|exact Hget]; reflexivity].
      reflexivity.
  - intros e s1. repeat split; intros;
      first [by apply reraise_http_500 | by apply all_to_500_run].
  - intros e. repeat split; intros;
      first [apply reraise_http_not_py | apply all_to_500_not_py].
Qed.

(** ** The outbound chat request *)

Section Emits.
Context {W E : Type} (P : Event -> Prop).

Lemma emits_ret {A} (a : A) : emits (W:=W) (E:=E) P (ret a).
Proof. intros s. exists []. by rewrite app_nil_r. Qed.

Lemma emits_raise {A} (e : E) : emits (W:=W) (A:=A) P (raise e).
Proof. intros s. exists []. by rewrite app_nil_r. Qed.

Lemma emits_gets {A} (f : W -> A) : emits (E:=E) P (gets f).
Proof. intros s. exists []. by rewrite app_nil_r. Qed.

Lemma emits_log lvl msg : P (Log lvl msg) -> emits (W:=W) (E:=E) P (log lvl msg).
Proof. intros HP s. exists [Log lvl msg]. split; [done | by constructor]. Qed.

Lemma emits_bind {A B} (c : M W E A) (k : A -> M W E B) :
  emits P c -> (forall a, emits P (k a)) -> emits P (bind c k).
Proof.
  intros Hc Hk s. unfold bind. destruct (Hc s) as (evs1 & Ht1 & HP1).
  destruct (c s) as [[a|e] s1]; cbn [snd] in *.
  - destruct (Hk a s1) as (evs2 & Ht2 & HP2).
    exists (evs1 ++ evs2)%list. rewrite Ht2, Ht1, app_assoc. split; [done|].
    by apply Forall_app.
  - by exists evs1.
Qed.

End Emits.

Lemma emits_call {W A} (P : Event -> Prop) (ev : Event) (op : ext W A) :
  P ev -> emits P (call ev op).
Proof.
  intros HP s. unfold call. destruct (op (world s)) as [r w'].
  exists [ev]. split; [done | by constructor].
Qed.

Lemma emits_try_except {W E E' A} (P : Event -> Prop)
    (body : M W E A) (handler : E -> M W E' A) :
  emits P body -> (forall e, emits P (handler e)) -> emits P (try_except body handler).
Proof.
  intros Hb Hh s. unfold try_except. destruct (Hb s) as (evs1 & Ht1 & HP1).
  destruct (body s) as [[a|e] s1]; cbn [snd] in *.
  - by exists evs1.
  - destruct (Hh e s1) as (evs2 & Ht2 & HP2).
    exists (evs1 ++ evs2)%list. rewrite Ht2, Ht1, app_assoc. split; [done|].
    by apply Forall_app.
Qed.

Create HintDb emits discriminated.
#[local] Hint Resolve emits_ret emits_raise emits_gets emits_log emits_call : emits.
#[local] Hint Extern 1 (post_unverified _) => exact I : emits.
#[local] Hint Extern 1 (post_unverified (CallPost _)) => reflexivity : emits.

(** Go through a computation, construct by construct. *)
Ltac emits_steps :=
  repeat
    first
      [ apply emits_bind; [|intros ?]
      | apply emits_try_except; [|intros ?]
      | solve [eauto with emits]
      | match goal with
        | |- emits _ (if ?b then _ else _) => destruct b
        | |- emits _ (match ?x with _ => _ end) => destruct x
        end ].

Lemma posts_unverified (evs : list Event) :
  Forall post_unverified evs -> Forall (fun request => post_verify request = false) (posts evs).
Proof.
  induction 1 as [|ev evs Hev _ IH]; [constructor|].
  destruct ev; cbn [posts]; try exact IH. by constructor.
Qed.

(** C8. Every POST that [get_assistant_response] makes, on the direct path
    as on the session-based path, and whatever the environment answers, is
    made with [verify=False]. *)
Theorem chat_posts_skip_tls_verification `{Builtins} {W : Type} `{Externals W}
    (self : OpenAIService.t) (user_message session_id language : string)
    (s : State W) :
  exists evs,
    trace (OpenAIService.get_assistant_response self user_message session_id language s).2
      = (trace s ++ evs)%list
    /\ Forall (fun request => post_verify request = false) (posts evs).
Proof.
  assert (Hemits : emits post_unverified
            (OpenAIService.get_assistant_response self user_message session_id language)).
  { unfold OpenAIService.get_assistant_response, OpenAIService.direct_connection,
      OpenAIService.session_connection, OpenAIService.read_response,
      OpenAIService.raise_for_status, OpenAIService.messages_of.
    emits_steps. }
  destruct (Hemits s) as (evs & Htrace & Hall).
  exists evs. split; [exact Htrace | by apply posts_unverified].
Qed.

(** ** The theorems at concrete inputs *)

Section Witnesses.
#[local] Existing Instances Examples.oracle Ref.builtins Ref.externals.

Example vector_store_path_of_name :
  KnowledgeBaseService.get_vector_store_path Examples.kb "Acme Corp/EU"
  = "vector_stores/Acme_Corp_EU".
Proof. reflexivity. Qed.

Lemma get_vector_store_path_deterministic_witness :
  "Acme Corp/EU" = "Acme Corp/EU"
  /\ KnowledgeBaseService.get_vector_store_path Examples.kb "Acme Corp/EU"
     = KnowledgeBaseService.get_vector_store_path Examples.kb "Acme Corp/EU".
Proof.
  split; [reflexivity|].
  exact (proj2 (get_vector_store_path_deterministic Examples.kb
                  "Acme Corp/EU" "Acme Corp/EU") eq_refl).
Defined.


Lemma normalization_not_injective_witness :
  (KnowledgeBaseService.check_company_knowledge_base_exists Examples.kb "a_b" Examples.shared).1
  = Return true
  /\ match KnowledgeBaseService.delete_company_knowledge_base Examples.kb "a b"
            Examples.shared with
     | (Return true, s') =>
         (KnowledgeBaseService.check_company_knowledge_base_exists Examples.kb "a_b" s').1
         = Return false
     | _ => False
     end
  /\ match KnowledgeBaseService.upload_and_process_pdf Examples.kb
            "pdf_uploads/a_b/new.pdf" "a/b" None Examples.shared with
     | (Return _, s') =>
         Ref.fs (world s') !! "vector_stores/a_b"
         = Some (Ref.Dir [Examples.page1; Examples.page2])
     | (Raise _, _) => False
     end.
Proof.
  destruct (normalization_not_injective Examples.kb) as (_ & _ & _ & Hdelete & Hupload).
  split; [reflexivity|]. split.
  - destruct (KnowledgeBaseService.delete_company_knowledge_base Examples.kb "a b"
                Examples.shared) as [[[|]|e] s'] eqn:Hrun.
    + exact (proj2 (Hdelete "a b" "a_b" Examples.shared s' eq_refl Hrun)).
    + vm_compute in Hrun. discriminate.
    + vm_compute in Hrun. discriminate.
  - destruct (KnowledgeBaseService.upload_and_process_pdf Examples.kb
                "pdf_uploads/a_b/new.pdf" "a/b" None Examples.shared)
      as [[r|e] s'] eqn:Hrun.
    + destruct (Hupload "a/b" "a_b" _ _ _ _ _ eq_refl Hrun)
        as (content & documents & splits & Hfile & Hparse & Hsplit & Hfs).
      vm_compute in Hfile. injection Hfile as <-.
      vm_compute in Hparse. injection Hparse as <-.
      vm_compute in Hsplit. injection Hsplit as <-.
      exact Hfs.
    + vm_compute in Hrun. discriminate.
Defined.



(** An id beyond 64 bits: the SQLite driver refuses it, and
    [delete_document] raises instead of returning [False]. *)
Example delete_document_of_huge_id_raises :
  (CompanyDocumentService.delete_document (2 ^ 63) Examples.start).1
  = Raise (Exception ("Error deleting document: Error getting document: "
                      +:+ "Python int too large to convert to SQLite INTEGER")).
Proof. reflexivity. Qed.


(** The handler of [delete_document] when the connection is gone: the
    rollback raises, and its exception reaches the caller as it is, with
    no error logged. *)
Example failed_rollback_escapes :
  @CompanyDocumentService.delete_document Ref.world
    (@Cases.externals_unreliable Examples.oracle) 7 Examples.misfiled
  = (Raise (PyExc "OperationalError" "server closed the connection"),
     mkState (world Examples.misfiled)
       [CallDbQueryFirstById 7; CallOsRemove "vector_stores/Acme"; CallDbRollback]).
Proof. reflexivity. Qed.

Lemma routes_map_exceptions_to_status_witness :
  Routes.status_of
    (Routes.upload_pdf Examples.app "Acme" Examples.text_upload None Examples.start).1 = 400%nat
  /\ Routes.status_of (Routes.ask_question Examples.app Examples.nobody Examples.start).1
     = 404%nat
  /\ Routes.status_of (Routes.get_document 99 Examples.start).1 = 404%nat
  /\ Routes.status_of (Routes.delete_document 99 Examples.start).1 = 404%nat
  /\ (Routes.upload_pdf Examples.app "Acme" Examples.empty_pdf_upload None Examples.start).1
     = Raise (HTTPException 500
                "Error processing PDF: PDF file is empty or could not be read").
Proof.
  destruct (routes_map_exceptions_to_status Examples.app Examples.start)
    as (H400 & H404 & Hrow & H500 & _).
  split; [apply H400; by left|].
  split; [exact (H404 Examples.nobody Examples.world0 eq_refl)|].
  split; [exact (proj1 (Hrow 99%Z Examples.world0 eq_refl))|].
  split; [exact (proj2 (Hrow 99%Z Examples.world0 eq_refl))|].
  destruct (Routes.upload_pdf_try Examples.app "Acme" Examples.empty_pdf_upload None
              Examples.start) as [[a|[e|c d]] s1] eqn:Htry.
  - vm_compute in Htry. discriminate.
  - rewrite (proj1 (H500 e s1) _ _ _ Htry).
    vm_compute in Htry. by injection Htry as <- _.
  - vm_compute in Htry. discriminate.
Defined.

(** With [USE_DIRECT_CONNECTION=True] and the chat service unreachable
    directly, [get_assistant_response] posts twice, first directly and
    then through the session, both times with [verify=False], and returns
    the messages of the second reply. *)
Example chat_falls_back_to_session :
  let out := OpenAIService.get_assistant_response Examples.chat "salam" "s-1" "fa"
               Examples.direct in
  out.1 = Return (Py.VList [Py.VStr "salam"])
  /\ map (fun request => (post_via_session request, post_verify request)) (posts (trace out.2))
     = [(false, false); (true, false)].
Proof. vm_compute. split; reflexivity. Qed.

End Witnesses.

(** * Further properties of the services and routes *)

Lemma lift_run_raise {W A} (c : M W pyexc A) s e s1 :
  c s = (Raise e, s1) -> lift c s = (Raise (Py e), s1).
Proof. unfold lift, try_except. by intros ->. Qed.

(** ** Edge cases of the knowledge-base service *)

(** X1. When the loader finds no page in the PDF, [upload_and_process_pdf]
    raises the generic exception for an empty file, and has called
    nothing but the loader: the splitter, [rmtree] and Chroma are not
    reached, so an existing store of the company is left as it is. *)
Theorem upload_of_empty_pdf_touches_nothing `{Builtins} {W : Type} `{Externals W}
    (self : KnowledgeBaseService.t) (file_path company_name : string)
    (description : option string) (s : State W) (w1 : W) :
  PyPDFLoader_load file_path (world s) = (Return [], w1) ->
  KnowledgeBaseService.upload_and_process_pdf self file_path company_name description s
  = (Raise (Exception "Error processing PDF: PDF file is empty or could not be read"),
     mkState w1
       (trace s ++
        [Log INFO ("Processing PDF for company: " +:+ company_name);
         CallPdfLoad file_path;
         Log ERROR "Error processing PDF: PDF file is empty or could not be read"])).
Proof.
  intros Hload.
  unfold KnowledgeBaseService.upload_and_process_pdf.
  erewrite try_except_handle.
  2:{ unfold KnowledgeBaseService.upload_and_process_pdf_try.
      erewrite bind_run; [|reflexivity].
      erewrite bind_run; [|apply call_run; exact Hload].
      apply bind_run_raise. reflexivity. }
  unfold bind, log, emit, raise. cbn [world trace exc_str ValueError].
  by rewrite <- !app_assoc.
Qed.

(** X2. When the company's path does not exist, [answer_question] raises
    the generic exception that names the company, and has neither opened
    a Chroma store (which would create the directory) nor asked the
    retrieval chain. *)
Theorem answer_question_without_store `{Builtins} {W : Type} `{Externals W}
    (self : KnowledgeBaseService.t) (company_name question : string)
    (s : State W) (w1 : W) :
  let p := KnowledgeBaseService.get_vector_store_path self company_name in
  let msg := "Error answering question: No knowledge base found for company: "
             +:+ company_name +:+ ". Please upload a PDF document first." in
  path_exists p (world s) = (Return false, w1) ->
  KnowledgeBaseService.answer_question self company_name question s
  = (Raise (Exception msg),
     mkState w1
       (trace s ++
        [Log INFO ("Answering question for company: " +:+ company_name);
         CallPathExists p;
         Log ERROR msg])).
Proof.
  intros p msg Hexists.
  unfold KnowledgeBaseService.answer_question.
  erewrite try_except_handle.
  2:{ unfold KnowledgeBaseService.answer_question_try.
      erewrite bind_run; [|reflexivity].
      erewrite bind_run; [|apply call_run; exact Hexists].
      apply bind_run_raise. reflexivity. }
  unfold bind, log, emit, raise. cbn [world trace exc_str ValueError].
  by rewrite <- !app_assoc.
Qed.

Lemma lookup_map {A B} (f : A -> B) (l : list A) (i : nat) :
  map f l !! i = f <$> (l !! i).
Proof. revert i. induction l as [|x l IH]; intros [|i]; simpl; auto. Qed.

(** X3. What [answer_question] returns when the chain's dictionary lacks a
    key: without ["result"] the answer is the fixed Persian sentence;
    without ["source_documents"], or with an empty list there, [sources]
    is empty; and a source whose chunk has no ["page"] in its metadata
    gets the page ["unknown"]. *)
Theorem answer_question_defaults `{Builtins} {W : Type} `{Externals W}
    (self : KnowledgeBaseService.t) (company_name question : string) s r s' :
  KnowledgeBaseService.answer_question self company_name question s = (Return r, s') ->
  exists qa w w',
    RetrievalQA_invoke (KnowledgeBaseService.get_vector_store_path self company_name) 4
      KnowledgeBaseService.prompt_template question w = (Return qa, w')
    /\ (qa_result qa = None ->
        KnowledgeBaseService.answer r = KnowledgeBaseService.no_answer)
    /\ (forall text, qa_result qa = Some text -> KnowledgeBaseService.answer r = text)
    /\ (qa_source_documents qa = None \/ qa_source_documents qa = Some [] ->
        KnowledgeBaseService.sources r = [])
    /\ (forall docs i doc,
          qa_source_documents qa = Some docs -> (i < 3)%nat -> docs !! i = Some doc ->
          exists src,
            KnowledgeBaseService.sources r !! i = Some src
            /\ KnowledgeBaseService.page src
               = match Py.dict_get (metadata doc) "page" with
                 | Some v => v
                 | None => Py.VStr "unknown"
                 end).
Proof.
  intros Hrun.
  apply answer_question_returns in Hrun as (w1 & w2 & w3 & qa & _ & _ & Hqa & -> & _).
  exists qa, w2, w3. split; [exact Hqa|].
  cbn [KnowledgeBaseService.answer KnowledgeBaseService.sources].
  split; [by intros ->|]. split; [by intros text ->|]. split.
  - by intros [-> | ->].
  - intros docs i doc -> Hi Hdoc. cbn [default].
    exists (KnowledgeBaseService.source_of doc). split.
    + rewrite lookup_map, lookup_take_lt by done. unfold id. by rewrite Hdoc.
    + unfold KnowledgeBaseService.source_of. cbn [KnowledgeBaseService.page].
      by destruct (Py.dict_get (metadata doc) "page").
Qed.

(** X4. A rejected upload has no effect at all.  When the file name is
    missing, empty or does not end in ".pdf", the handler raises 400
    "File must be a PDF (.pdf)" whatever the content is; when the name
    passes and the content does not start with "%PDF", it raises 400
    "Invalid PDF file format".  In both cases no outside call has been
    made and nothing has been logged: no file is written. *)
Theorem rejected_upload_has_no_effect `{Builtins} {W : Type} `{Externals W}
    (app : Routes.services) (company_name : string) (file : Routes.UploadFile)
    (description : option string) (s : State W) :
  (Routes.bad_filename (Routes.filename file) = true ->
   Routes.upload_pdf app company_name file description s
   = (Raise (HTTPException 400 "File must be a PDF (.pdf)"), s))
  /\ (Routes.bad_filename (Routes.filename file) = false ->
      Py.bytes_startswith (Routes.file_content file) Routes.pdf_magic = false ->
      Routes.upload_pdf app company_name file description s
      = (Raise (HTTPException 400 "Invalid PDF file format"), s)).
Proof.
  unfold Routes.upload_pdf, Routes.upload_pdf_try, try_except, bind.
  split.
  - by intros ->.
  - intros -> Hmagic. unfold ret at 1. by rewrite Hmagic.
Qed.

(** X5. The three answers of the lookup route, by what the query does: a
    row is returned as it is (200); no row gives 404 "Document not found";
    and an exception of the query gives 500, whose detail is the
    exception's message behind the prefix of [get_document_by_id]. *)
Theorem get_document_answers {W : Type} `{Externals W}
    (document_id : Z) (s : State W) :
  let s1 w := mkState w (trace s ++ [CallDbQueryFirstById document_id]) in
  match db_query_first_by_id document_id (world s) with
  | (Return (Some document), w) => Routes.get_document document_id s = (Return document, s1 w)
  | (Return None, w) =>
      Routes.get_document document_id s
      = (Raise (HTTPException 404 "Document not found"), s1 w)
  | (Raise e, w) =>
      Routes.get_document document_id s
      = (Raise (HTTPException 500 ("Error getting document: " +:+ exc_str e)),
         mkState w (trace s ++ [CallDbQueryFirstById document_id;
                                Log ERROR ("Error getting document: " +:+ exc_str e)]))
  end.
Proof.
  intros s1.
  unfold Routes.get_document, Routes.get_document_try, try_except, bind, lift, try_except,
    CompanyDocumentService.get_document_by_id, try_except,
    CompanyDocumentService.get_document_by_id_try, call.
  destruct (db_query_first_by_id document_id (world s)) as [[[document|]|e] w]; try done.
  unfold bind, log, emit, raise, Routes.reraise_http. cbn [world trace exc_str Exception].
  by rewrite <- app_assoc.
Qed.

(** X6. Deleting the knowledge base of a company that has no document and
    no store is not an error: the route answers 200 with its usual
    message, having only run the query and the existence test. *)
Theorem delete_unknown_company_succeeds `{Builtins} {W : Type} `{Externals W}
    (app : Routes.services) (company_name : string) (s : State W) (w1 w2 : W) :
  let p := KnowledgeBaseService.get_vector_store_path
             (Routes.knowledge_base_service app) company_name in
  db_query_by_company company_name (world s) = (Return [], w1) ->
  path_exists p w1 = (Return false, w2) ->
  Routes.delete_company_knowledge_base app company_name s
  = (Return {| Routes.message :=
                 "All documents and knowledge base deleted for company: " +:+ company_name;
               Routes.subject := company_name |},
     mkState w2
       (trace s ++
        [CallDbQueryByCompany company_name;
         CallPathExists p;
         Log WARNING ("Vector store not found for company: " +:+ company_name)])).
Proof.
  intros p Hquery Hexists.
  unfold Routes.delete_company_knowledge_base. apply try_except_run.
  unfold Routes.delete_company_knowledge_base_try.
  erewrite bind_run.
  2:{ apply lift_run. unfold CompanyDocumentService.get_documents_by_company.
      apply try_except_run. apply call_run. exact Hquery. }
  cbv beta. erewrite bind_run; [|reflexivity].
  erewrite bind_run.
  2:{ apply lift_run. unfold KnowledgeBaseService.delete_company_knowledge_base.
      apply try_except_run. unfold KnowledgeBaseService.delete_company_knowledge_base_try.
      erewrite bind_run; [|apply call_run; exact Hexists].
      cbv beta iota. erewrite bind_run; [|reflexivity]. reflexivity. }
  unfold ret. cbn [world trace]. by rewrite <- !app_assoc.
Qed.

(** X7. The question route tests the store twice, once itself and once
    inside [answer_question].  When the store is there at the first test
    and gone at the second, the answer is not the 404 of the route but a
    500 that carries the message of the service. *)
Theorem question_after_store_vanished `{Builtins} {W : Type} `{Externals W}
    (app : Routes.services) (request : Routes.QuestionRequest) (s : State W) (w1 w2 : W) :
  let p := KnowledgeBaseService.get_vector_store_path
             (Routes.knowledge_base_service app) (Routes.rq_company_name request) in
  path_exists p (world s) = (Return true, w1) ->
  path_exists p w1 = (Return false, w2) ->
  (Routes.ask_question app request s).1
  = Raise (HTTPException 500
             ("Error answering question: No knowledge base found for company: "
              +:+ Routes.rq_company_name request
              +:+ ". Please upload a PDF document first.")).
Proof.
  intros p Hfirst Hsecond.
  unfold Routes.ask_question.
  erewrite reraise_http_500.
  2:{ unfold Routes.ask_question_try.
      erewrite bind_run.
      2:{ apply lift_run. unfold KnowledgeBaseService.check_company_knowledge_base_exists.
          apply call_run. exact Hfirst. }
      cbv beta iota. erewrite bind_run; [|reflexivity].
      apply bind_run_raise. apply lift_run_raise.
      unfold KnowledgeBaseService.answer_question.
      erewrite try_except_handle.
      2:{ unfold KnowledgeBaseService.answer_question_try.
          erewrite bind_run; [|reflexivity].
          erewrite bind_run; [|apply call_run; exact Hsecond].
          apply bind_run_raise. reflexivity. }
      reflexivity. }
  reflexivity.
Qed.

(** X8. A failure in the middle of [delete_document] is not undone.  When
    the row's file has been removed and [shutil.rmtree] on its vector
    store then raises, the handler calls [db.rollback()].  If that
    returns, the error is logged and the generic exception is raised; if
    that raises too, its exception is the one the caller gets, and
    nothing is logged.  Either way no DELETE has been issued, and the
    world is the one the rollback leaves, in which the file is gone. *)
Theorem delete_document_stops_at_failed_rmtree {W : Type} `{Externals W}
    (document_id : Z) (document : Model.CompanyDocument) (p : string)
    (e : pyexc) (s : State W) (w1 w2 w3 : W) :
  let calls :=
    [CallDbQueryFirstById document_id;
     CallOsRemove (Model.file_path document);
     CallRmtree p;
     CallDbRollback] in
  db_query_first_by_id document_id (world s) = (Return (Some document), w1) ->
  os_path_exists (Model.file_path document) w1 = true ->
  os_remove (Model.file_path document) w1 = (Return tt, w2) ->
  CompanyDocumentService.truthy_path (Model.vector_store_path document) = Some p ->
  os_path_exists p w2 = true ->
  shutil_rmtree p w2 = (Raise e, w3) ->
  match db_rollback w3 with
  | (Return _, w4) =>
      CompanyDocumentService.delete_document document_id s
      = (Raise (Exception ("Error deleting document: " +:+ exc_str e)),
         mkState w4
           (trace s ++ calls ++ [Log ERROR ("Error deleting document: " +:+ exc_str e)]))
  | (Raise e2, w4) =>
      CompanyDocumentService.delete_document document_id s
      = (Raise e2, mkState w4 (trace s ++ calls))
  end.
Proof.
  intros calls Hquery Hfile Hremove Hpath Hstore Hrmtree.
  unfold CompanyDocumentService.delete_document.
  erewrite try_except_handle.
  2:{ unfold CompanyDocumentService.delete_document_try.
      erewrite bind_run.
      2:{ unfold CompanyDocumentService.get_document_by_id. apply try_except_run.
          apply call_run. exact Hquery. }
      cbv beta iota. erewrite bind_run; [|reflexivity].
      cbn [world]. rewrite Hfile.
      erewrite bind_run; [|apply call_run; exact Hremove].
      apply bind_run_raise. rewrite Hpath.
      erewrite bind_run; [|reflexivity].
      cbn [world]. rewrite Hstore.
      apply call_run. exact Hrmtree. }
  unfold bind, call, log, emit, raise, calls. cbn [world trace].
  destruct (db_rollback w3) as [[u|e2] w4]; cbn [world trace]; by rewrite <- !app_assoc.
Qed.

(** ** The safe company name *)

Lemma underscore_of_safe (c : ascii) :
  (Spec.underscore_of c =? " ")%char = false /\ (Spec.underscore_of c =? "/")%char = false.
Proof.
  unfold Spec.underscore_of.
  destruct (c =? " ")%char eqn:Hsp; cbn [orb]; [done|].
  destruct (c =? "/")%char eqn:Hsl; [done|]. by rewrite Hsp, Hsl.
Qed.

Lemma underscore_of_fixed (c : ascii) :
  Spec.underscore_of (Spec.underscore_of c) = Spec.underscore_of c.
Proof.
  destruct (underscore_of_safe c) as [Hsp Hsl].
  unfold Spec.underscore_of at 1. by rewrite Hsp, Hsl.
Qed.

(** X9. The name that the services use on disk has as many characters as
    the company name, contains no space and no slash, and is left as it
    is by a second normalisation: the safe name of a company, used as a
    company name, leads to the same vector store. *)
Theorem safe_company_name_has_no_slash `{Builtins}
    (self : KnowledgeBaseService.t) (company_name : string) :
  let safe := Py.replace (Py.replace company_name " " "_") "/" "_" in
  String.length safe = String.length company_name
  /\ Py.contains safe " " = false
  /\ Py.contains safe "/" = false
  /\ Py.replace (Py.replace safe " " "_") "/" "_" = safe
  /\ KnowledgeBaseService.get_vector_store_path self safe
     = KnowledgeBaseService.get_vector_store_path self company_name.
Proof.
  intros safe. subst safe. unfold KnowledgeBaseService.get_vector_store_path.
  rewrite !normalize_refines.
  assert (Hfix : Spec.normalize (Spec.normalize company_name) = Spec.normalize company_name).
  { induction company_name as [|c r IH]; [done|].
    cbn [Spec.normalize]. by rewrite underscore_of_fixed, IH. }
  rewrite Hfix. repeat split.
  - clear Hfix. induction company_name as [|c r IH]; [done|].
    cbn [Spec.normalize String.length]. by rewrite IH.
  - clear Hfix. induction company_name as [|c r IH]; [done|].
    cbn [Spec.normalize Py.contains]. rewrite prefix_char, IH.
    by destruct (underscore_of_safe c) as [-> _].
  - clear Hfix. induction company_name as [|c r IH]; [done|].
    cbn [Spec.normalize Py.contains]. rewrite prefix_char, IH.
    by destruct (underscore_of_safe c) as [_ ->].
Qed.

(** ** What the upload route accepts *)

Lemma endswith_spec (s suffix : string) :
  Py.endswith s suffix = true <-> exists stem, s = stem +:+ suffix.
Proof.
  split.
  - induction s as [|c r IH]; cbn [Py.endswith]; intros Hend.
    + apply orb_true_iff in Hend as [Heq|?]; [|done].
      apply String.eqb_eq in Heq as <-. by exists "".
    + apply orb_true_iff in Hend as [Heq|Hrest].
      * apply String.eqb_eq in Heq as <-. by exists "".
      * destruct (IH Hrest) as [stem ->]. by exists (String c stem).
  - intros [stem ->]. induction stem as [|c stem IH].
    + change ("" +:+ suffix) with suffix. destruct suffix as [|c r]; [reflexivity|].
      cbn [Py.endswith]. by rewrite (String.eqb_refl (String c r)).
    + change (String c stem +:+ suffix) with (String c (stem +:+ suffix)).
      cbn [Py.endswith]. rewrite IH. apply orb_true_r.
Qed.

Lemma lower_app (a b : string) : Py.lower (a +:+ b) = Py.lower a +:+ Py.lower b.
Proof. induction a as [|c a IH]; [done|]. simpl. by rewrite IH. Qed.

Lemma lower_split (s x y : string) :
  Py.lower s = x +:+ y -> exists a b, s = a +:+ b /\ Py.lower a = x /\ Py.lower b = y.
Proof.
  revert s. induction x as [|c x IH]; intros s Hs.
  - by exists "", s.
  - destruct s as [|d s]; [done|]. simpl in Hs.
    injection Hs as Hc Hs. destruct (IH s Hs) as (a & b & -> & Ha & Hb).
    exists (String d a), b. simpl. by rewrite Hc, Ha.
Qed.

Lemma bytes_startswith_spec (b prefix : Py.bytes) :
  Py.bytes_startswith b prefix = true <-> exists rest, b = (prefix ++ rest)%list.
Proof.
  revert b. induction prefix as [|p prefix IH]; intros b.
  - destruct b; cbn [Py.bytes_startswith]; split; eauto.
  - destruct b as [|x b]; cbn [Py.bytes_startswith].
    + split; [done | by intros [rest ?]].
    + rewrite andb_true_iff, IH. split.
      * intros [Hpx [rest ->]]. apply Byte.byte_dec_bl in Hpx as ->. by exists rest.
      * intros [rest [= -> ->]]. split; [by apply Byte.byte_dec_lb | by exists rest].
Qed.

(** X10. The upload route lets a file through to the services exactly when
    its name is some stem followed by an extension that reads ".pdf" in
    lower case, and its content is the four bytes "%PDF" followed by
    anything.  In particular the stem may be empty, and nothing beyond
    the first four bytes of the content is looked at. *)
Theorem upload_validation_accepts (file : Routes.UploadFile) :
  (Routes.bad_filename (Routes.filename file) = false
   /\ Py.bytes_startswith (Routes.file_content file) Routes.pdf_magic = true)
  <-> (exists stem extension rest,
         Routes.filename file = Some (stem +:+ extension)
         /\ Py.lower extension = ".pdf"
         /\ Routes.file_content file = (Routes.pdf_magic ++ rest)%list).
Proof.
  rewrite bytes_startswith_spec. unfold Routes.bad_filename. split.
  - intros [Hname [rest Hrest]].
    destruct (Routes.filename file) as [[|c name]|]; try discriminate Hname.
    apply negb_false_iff, endswith_spec in Hname as [stem Hname].
    apply lower_split in Hname as (a & b & Hab & _ & Hb).
    exists a, b, rest. by rewrite Hab.
  - intros (stem & extension & rest & -> & Hext & ->). split; [|by exists rest].
    destruct (stem +:+ extension) as [|c name] eqn:Hname.
    + destruct stem; [|discriminate Hname].
      change ("" +:+ extension) with extension in Hname. by rewrite Hname in Hext.
    + apply negb_false_iff, endswith_spec. exists (Py.lower stem).
      by rewrite <- Hname, lower_app, Hext.
Qed.

(** ** Snippets *)

Lemma slice_to_app_prefix (n : nat) (text rest : string) :
  (n <= String.length text)%nat ->
  Py.slice_to n (Py.slice_to n text +:+ rest) = Py.slice_to n text.
Proof.
  revert text. induction n as [|n IH]; intros [|c r] Hlen; simpl in *; try done; try lia.
  f_equal. apply IH. lia.
Qed.

(** X11. A snippet starts with the same 200 characters as the text it was
    cut from, and cutting a snippet again gives the same snippet. *)
Theorem snippet_keeps_prefix (text : string) :
  Py.slice_to 200 (KnowledgeBaseService.snippet text) = Py.slice_to 200 text
  /\ KnowledgeBaseService.snippet (KnowledgeBaseService.snippet text)
     = KnowledgeBaseService.snippet text.
Proof.
  destruct (snippet_cases text) as [[Hshort Heq] | (Hlong & Heq & Hlen)].
  - by rewrite !Heq.
  - assert (Hprefix : Py.slice_to 200 (KnowledgeBaseService.snippet text)
                      = Py.slice_to 200 text).
    { rewrite Heq. apply slice_to_app_prefix. lia. }
    split; [exact Hprefix|].
    unfold KnowledgeBaseService.snippet at 1. rewrite Hlen.
    change (200 <? 203)%nat with true. cbv iota. by rewrite Hprefix, Heq.
Qed.

(** ** The chat client *)

Lemma outside_calls_app (evs1 evs2 : list Event) :
  outside_calls (evs1 ++ evs2) = (outside_calls evs1 ++ outside_calls evs2)%list.
Proof.
  induction evs1 as [|ev evs1 IH]; [done|].
  destruct ev; cbn [app outside_calls]; by rewrite IH.
Qed.

(** Reading a response changes nothing in the world, only logs, and gives
    the value of the response. *)
Lemma read_response_run `{Builtins} {W : Type} `{Externals W}
    (done_msg ok_msg : string) (response : Response) (s : State W) :
  exists logs,
    OpenAIService.read_response done_msg ok_msg response s
    = (ChatReply.response_value response, mkState (world s) (trace s ++ logs))
    /\ outside_calls logs = [].
Proof.
  unfold OpenAIService.read_response, ChatReply.response_value,
    OpenAIService.raise_for_status, bind, log, emit, ret, raise.
  cbn [world trace].
  destruct ((400 <=? resp_status_code response)%nat
            && (resp_status_code response <? 600)%nat).
  - by eexists [_].
  - destruct (resp_json response) as [body|e]; [|by eexists [_]].
    cbn [world trace].
    destruct body as [| | | | text | l | d]; cbn [OpenAIService.messages_of
      ChatReply.messages_value]; unfold ret, raise; rewrite <- ?app_assoc;
      try (by eexists [_; _]).
    + destruct (Py.contains text "messages"); by eexists [_; _].
    + destruct (existsb _ l); by eexists [_; _].
    + destruct (Py.dict_get d "messages"); by eexists [_; _].
Qed.

(** The log lines at the end of a trace do not count as calls. *)
Ltac trace_shape :=
  cbn [world trace]; rewrite <- ?app_assoc; cbn [app];
  eexists; split; [reflexivity|];
  repeat first
    [ rewrite outside_calls_app
    | match goal with Hlogs : outside_calls _ = [] |- _ => rewrite Hlogs end
    | progress cbn [outside_calls app] ];
  reflexivity.

(** Replace the reading of a reply by its value and its log lines. *)
Ltac read_reply :=
  match goal with
  | |- context [OpenAIService.read_response ?d ?o ?r ?st] =>
      let logs := fresh "logs" in
      let Hread := fresh "Hread" in
      let Hlogs := fresh "Hlogs" in
      destruct (read_response_run d o r st) as (logs & Hread & Hlogs);
      rewrite Hread; clear Hread;
      destruct (ChatReply.response_value r); cbn [world trace]
  end.

(** The block under [if use_direct_connection:] never raises.  Whatever
    the name lookup and the ping do, it goes on to the direct POST, and
    it yields the messages of the reply, or nothing when the POST or the
    reading of the reply failed. *)
Lemma direct_connection_run `{Builtins} {W : Type} `{Externals W}
    (self : OpenAIService.t) (payload : list (string * Py.value)) (s : State W) :
  let argv := ["ping"; "-c"; "1"; OpenAIService.ping_host] in
  let w1 := (socket_gethostbyname OpenAIService.ping_host (world s)).2 in
  let w2 := (subprocess_run argv 10 w1).2 in
  let request := ChatReply.direct_request self payload in
  let out := requests_post request w2 in
  let value := match out.1 with
               | Return response => ChatReply.response_value response
               | Raise e => Raise e
               end in
  exists evs,
    OpenAIService.direct_connection self payload s
    = (Return (match value with Return v => Some v | Raise _ => None end),
       mkState out.2 (trace s ++ evs))
    /\ outside_calls evs
       = [CallGetHostByName OpenAIService.ping_host; CallSubprocessRun argv 10;
          CallPost request].
Proof.
  intros argv w1 w2 request out value. subst value out w2 w1.
  unfold OpenAIService.direct_connection, try_except, bind, call, log, emit, ret, raise.
  fold argv. fold (ChatReply.direct_request self payload). fold request.
  cbn [world trace].
  destruct (socket_gethostbyname OpenAIService.ping_host (world s)) as [[ip|e1] w1];
    cbn [world trace snd].
  all: destruct (subprocess_run argv 10 w1) as [[proc|e2] w2]; cbn [world trace snd].
  all: try (destruct (returncode proc =? 0)%Z; [|destruct (stderr proc) as [|b bs];
         [|destruct (bytes_decode (b :: bs)) as [text|e3]]]); cbn [world trace].
  all: destruct (requests_post request w2) as [[response|e4] w3]; cbn [world trace fst snd].
  all: try read_reply.
  all: trace_shape.
Qed.

(** The session-based request: one POST, and whatever goes wrong with it
    or with the reply is logged and raised again as it is. *)
Lemma session_connection_run `{Builtins} {W : Type} `{Externals W}
    (self : OpenAIService.t) (payload : list (string * Py.value)) (s : State W) :
  let request := ChatReply.session_request self payload in
  let out := requests_post request (world s) in
  let value := match out.1 with
               | Return response => ChatReply.response_value response
               | Raise e => Raise e
               end in
  exists evs,
    OpenAIService.session_connection self payload s
    = (value, mkState out.2 (trace s ++ evs))
    /\ outside_calls evs = [CallPost request].
Proof.
  intros request out value. subst value out.
  unfold OpenAIService.session_connection, try_except, bind, call, log, emit, ret, raise.
  fold (ChatReply.session_request self payload). fold request. cbn [world trace].
  destruct (requests_post request (world s)) as [[response|e] w1]; cbn [world trace fst snd].
  all: try read_reply.
  all: trace_shape.
Qed.

(** The steps of [get_assistant_response] for a session without a
    [poolmanager] attribute. *)
Lemma get_assistant_response_steps `{Builtins} {W : Type} `{Externals W}
    (self : OpenAIService.t) (user_message session_id language : string) (s : State W) :
  OpenAIService.session_has_poolmanager self = false ->
  let payload :=
    [("message", Py.VStr user_message);
     ("session_id", Py.VStr session_id);
     ("language", Py.VStr language)] in
  let flag :=
    String.eqb (Py.lower (default "false" (os_getenv "USE_DIRECT_CONNECTION" (world s))))
               "true" in
  let s0 :=
    mkState (world s)
      (trace s ++ [Log INFO ("USE_DIRECT_CONNECTION: " +:+ OpenAIService.str_of_bool flag)]) in
  OpenAIService.get_assistant_response self user_message session_id language s
  = if flag
    then bind (OpenAIService.direct_connection self payload)
           (fun direct =>
              match direct with
              | Some messages => ret messages
              | None => OpenAIService.session_connection self payload
              end) s0
    else OpenAIService.session_connection self payload s0.
Proof.
  intros Hpool payload flag s0.
  unfold OpenAIService.get_assistant_response, bind at 1. rewrite gets_run.
  rewrite Hpool. fold payload flag.
  unfold bind at 1, log, emit. cbn [world trace]. fold s0.
  unfold bind at 1, ret at 1. unfold bind at 1.
  by destruct flag.
Qed.

(** X12. Unless [USE_DIRECT_CONNECTION] reads "true" in lower case, a call
    of [get_assistant_response] makes exactly one call to the outside,
    the POST through the session, with no name lookup and no ping before
    it.  The caller gets the messages of the reply, and when the POST,
    the status or the reading of the body fails, the caller gets that
    very exception: this method does not wrap it. *)
Theorem chat_uses_session_only_by_default `{Builtins} {W : Type} `{Externals W}
    (self : OpenAIService.t) (user_message session_id language : string) (s : State W) :
  let request :=
    ChatReply.session_request self (ChatReply.payload_of user_message session_id language) in
  let out := requests_post request (world s) in
  OpenAIService.session_has_poolmanager self = false ->
  ChatReply.use_direct_connection (os_getenv "USE_DIRECT_CONNECTION" (world s)) = false ->
  exists evs,
    OpenAIService.get_assistant_response self user_message session_id language s
    = (match out.1 with
       | Return response => ChatReply.response_value response
       | Raise e => Raise e
       end,
       mkState out.2 (trace s ++ evs))
    /\ outside_calls evs = [CallPost request].
Proof.
  intros request out Hpool Hflag.
  rewrite get_assistant_response_steps by done.
  fold (ChatReply.payload_of user_message session_id language).
  unfold ChatReply.use_direct_connection in Hflag. rewrite Hflag.
  match goal with
  | |- context [OpenAIService.session_connection self ?pl ?st] =>
      destruct (session_connection_run self pl st) as (evs & Hrun & Hcalls)
  end.
  cbn [world trace] in Hrun. fold request out in Hrun. rewrite Hrun.
  rewrite <- ?app_assoc. cbn [app].
  eexists. split; [reflexivity|]. cbn [outside_calls]. exact Hcalls.
Qed.

(** X13. With [USE_DIRECT_CONNECTION] set to "true" in any case, the method
    looks the host up, pings it and posts directly, in this order and
    whatever the lookup and the ping do.  When the direct POST gives
    messages these are returned and the session is not used; when it
    fails in any way, one POST through the session follows, with the same
    URL and payload, and its outcome is the outcome of the call. *)
Theorem chat_direct_then_session `{Builtins} {W : Type} `{Externals W}
    (self : OpenAIService.t) (user_message session_id language : string) (s : State W) :
  let payload := ChatReply.payload_of user_message session_id language in
  let argv := ["ping"; "-c"; "1"; OpenAIService.ping_host] in
  let w1 := (socket_gethostbyname OpenAIService.ping_host (world s)).2 in
  let w2 := (subprocess_run argv 10 w1).2 in
  let direct := requests_post (ChatReply.direct_request self payload) w2 in
  let session := requests_post (ChatReply.session_request self payload) direct.2 in
  let value out := match out with
                   | Return response => ChatReply.response_value response
                   | Raise e => Raise e
                   end in
  OpenAIService.session_has_poolmanager self = false ->
  ChatReply.use_direct_connection (os_getenv "USE_DIRECT_CONNECTION" (world s)) = true ->
  exists evs,
    match value direct.1 with
    | Return messages =>
        OpenAIService.get_assistant_response self user_message session_id language s
        = (Return messages, mkState direct.2 (trace s ++ evs))
        /\ outside_calls evs
           = [CallGetHostByName OpenAIService.ping_host; CallSubprocessRun argv 10;
              CallPost (ChatReply.direct_request self payload)]
    | Raise _ =>
        OpenAIService.get_assistant_response self user_message session_id language s
        = (value session.1, mkState session.2 (trace s ++ evs))
        /\ outside_calls evs
           = [CallGetHostByName OpenAIService.ping_host; CallSubprocessRun argv 10;
              CallPost (ChatReply.direct_request self payload);
              CallPost (ChatReply.session_request self payload)]
    end.
Proof.
  intros payload argv w1 w2 direct session value Hpool Hflag.
  rewrite get_assistant_response_steps by done.
  fold (ChatReply.payload_of user_message session_id language). fold payload.
  unfold ChatReply.use_direct_connection in Hflag. rewrite Hflag.
  unfold bind. cbv beta iota.
  match goal with
  | |- context [OpenAIService.direct_connection self payload ?st] =>
      destruct (direct_connection_run self payload st) as (evs1 & Hrun1 & Hcalls1)
  end.
  rewrite Hrun1. clear Hrun1. cbn [world trace] in *.
  fold argv w1 w2 direct in Hcalls1 |- *. fold (value direct.1).
  destruct (value direct.1) as [messages|e].
  - unfold ret. rewrite <- ?app_assoc. cbn [app].
    eexists. split; [reflexivity|]. cbn [outside_calls]. exact Hcalls1.
  - match goal with
    | |- context [OpenAIService.session_connection self payload ?st] =>
        destruct (session_connection_run self payload st) as (evs2 & Hrun2 & Hcalls2)
    end.
    cbn [world trace] in Hrun2. fold session in Hrun2. fold (value session.1) in Hrun2.
    eexists. rewrite Hrun2. rewrite <- ?app_assoc. cbn [app].
    split; [reflexivity|]. cbn [outside_calls].
    by rewrite outside_calls_app, Hcalls1, Hcalls2.
Qed.

(** X14. Clearing the connection pool is outside every [try] block: when
    the session has a [poolmanager] and clearing it raises, the call ends
    with that exception and no request is sent. *)
Theorem chat_stops_when_pool_clear_fails `{Builtins} {W : Type} `{Externals W}
    (self : OpenAIService.t) (user_message session_id language : string)
    (s : State W) (e : pyexc) (w1 : W) :
  OpenAIService.session_has_poolmanager self = true ->
  poolmanager_clear (world s) = (Raise e, w1) ->
  exists evs,
    OpenAIService.get_assistant_response self user_message session_id language s
    = (Raise e, mkState w1 (trace s ++ evs))
    /\ outside_calls evs = [CallPoolClear].
Proof.
  intros Hpool Hclear.
  unfold OpenAIService.get_assistant_response, bind at 1. rewrite gets_run.
  rewrite Hpool.
  unfold bind, log, emit, call. cbn [world trace]. rewrite Hclear.
  rewrite <- ?app_assoc. cbn [app]. by eexists.
Qed.

(** ** More of the reference world *)

Section RefWorldMore.
Context `{Ref.oracle}.
#[local] Existing Instances Ref.builtins Ref.externals.

Ltac ref_ops :=
  cbn [path_exists path_mkdir os_path_exists os_remove shutil_rmtree open_write os_getenv
       PyPDFLoader_load split_documents Chroma_from_documents Chroma_open
       RetrievalQA_invoke db_add db_commit db_refresh db_rollback db_delete
       db_query_by_company db_query_first_by_id path_truediv
       Ref.externals Ref.builtins] in *.


(** What a call of [save_uploaded_file] that returns has done: the
    company's directory is there, the file holds the content, nothing but
    the files has changed, and of the files only this one. *)
Lemma save_uploaded_file_returns (self : CompanyDocumentService.t) (content : Py.bytes)
    (company_name file_name : string) (s s1 : State Ref.world) (p : string) :
  CompanyDocumentService.save_uploaded_file self content company_name file_name s
    = (Return p, s1) ->
  let company_dir :=
    path_truediv (CompanyDocumentService.uploads_dir self)
      (Py.replace (Py.replace company_name " " "_") "/" "_") in
  p = path_truediv company_dir file_name
  /\ Ref.fs (world s1) !! p = Some (Ref.File content)
  /\ (exists c, Ref.fs (world s1) !! company_dir = Some (Ref.Dir c))
  /\ (forall q n, Ref.fs (world s) !! q = Some n -> q <> p -> Ref.fs (world s1) !! q = Some n)
  /\ (exists f, world s1 = Ref.set_fs (world s) f).
Proof.
  intros Hrun company_dir. unfold CompanyDocumentService.save_uploaded_file in Hrun.
  apply try_except_Return in Hrun; [|by intros].
  unfold CompanyDocumentService.save_uploaded_file_try in Hrun.
  fold company_dir in Hrun.
  returned Hrun. opened. units. ref_ops. cbn [world trace] in *.
  apply mkdir_returns in Hop0 as (f & -> & [c Hdir] & Hkept & _ & _).
  apply open_write_returns in Hop as [-> Hnodir].
  cbn [Ref.fs Ref.set_fs] in *.
  split; [done|]. split; [apply lookup_insert_eq|]. split; [|split].
  - exists c. rewrite lookup_insert_ne; [done|]. intros Heq. rewrite <- Heq in Hdir.
    by destruct (Hnodir c).
  - intros q n Hq Hne. rewrite lookup_insert_ne by done. by apply Hkept.
  - by eexists.
Qed.

(** X16. Uploaded files are kept under the normalised company name and
    the client's file name, and writing replaces what was there: of two
    saves under the same file name for companies whose names normalise to
    the same string (the same company, or "a b" and "a_b"), the second
    returns the path of the first and its bytes are the ones on disk. *)
Theorem save_uploaded_file_last_write_wins (self : CompanyDocumentService.t)
    (content1 content2 : Py.bytes) (company1 company2 file_name : string)
    (s s1 s2 : State Ref.world) (p1 p2 : string) :
  Spec.normalize company1 = Spec.normalize company2 ->
  CompanyDocumentService.save_uploaded_file self content1 company1 file_name s
    = (Return p1, s1) ->
  CompanyDocumentService.save_uploaded_file self content2 company2 file_name s1
    = (Return p2, s2) ->
  p2 = p1
  /\ Ref.fs (world s1) !! p1 = Some (Ref.File content1)
  /\ Ref.fs (world s2) !! p1 = Some (Ref.File content2).
Proof.
  intros Hsame Hfirst Hsecond.
  apply save_uploaded_file_returns in Hfirst as (Hp1 & Hfs1 & _).
  apply save_uploaded_file_returns in Hsecond as (Hp2 & Hfs2 & _).
  rewrite !normalize_refines in Hp1, Hp2. rewrite <- Hsame in Hp2.
  assert (p2 = p1) as -> by congruence. done.
Qed.

(** The session after [add] and [commit] of one new row. *)
Lemma commit_one (w : Ref.world) (row : Model.CompanyDocument) :
  Ref.session_new w = [] ->
  Ref.session_deleted w = [] ->
  Ref.commit (Ref.set_session w (Ref.session_new w ++ [row]) (Ref.session_deleted w))
  = Ref.set_session (Ref.flush_new w row) [] [].
Proof.
  intros Hnew Hdeleted. rewrite Hnew, Hdeleted.
  unfold Ref.commit, Ref.set_session, Ref.flush_new. by cbn.
Qed.

(** What [create_document_record] does in a session with nothing pending. *)
Lemma create_document_record_run (company_name file_name file_path : string)
    (vector_store_path description : option string) (s : State Ref.world) :
  Ref.session_new (world s) = [] ->
  Ref.session_deleted (world s) = [] ->
  let row :=
    {| Model.id := None;
       Model.company_name := company_name;
       Model.file_name := file_name;
       Model.file_path := file_path;
       Model.vector_store_path := vector_store_path;
       Model.description := description;
       Model.created_at := None;
       Model.updated_at := None |} in
  CompanyDocumentService.create_document_record
    company_name file_name file_path vector_store_path description s
  = (Return
       {| Model.id := Some (Ref.next_id (world s));
          Model.company_name := company_name;
          Model.file_name := file_name;
          Model.file_path := file_path;
          Model.vector_store_path := vector_store_path;
          Model.description := description;
          Model.created_at := Some (Ref.now (world s));
          Model.updated_at := None |},
     mkState (Ref.set_session (Ref.flush_new (world s) row) [] [])
             (trace s ++ [CallDbAdd row; CallDbCommit; CallDbRefresh row])).
Proof.
  intros Hnew Hdeleted row.
  unfold CompanyDocumentService.create_document_record.
  apply try_except_run.
  unfold CompanyDocumentService.create_document_record_try. fold row.
  erewrite bind_run; [|apply call_run; ref_ops; reflexivity].
  erewrite bind_run; [|apply call_run; ref_ops; reflexivity].
  cbv beta iota.
  erewrite bind_run.
  2:{ apply call_run. ref_ops. unfold Ref.ref_db_commit, Ref.ref_db_add.
      cbn [world trace fst snd]. rewrite commit_one by done.
      unfold Ref.ref_db_refresh, Ref.key_of.
      cbn [Model.id Ref.session_identity Ref.set_session Ref.flush_new Ref.identity_lookup
           Ref.table mbind option_bind row].
      rewrite decide_True by done. cbn [mbind option_bind].
      rewrite lookup_insert_eq. reflexivity. }
  unfold ret. cbn [world trace]. by rewrite <- !app_assoc.
Qed.

(** X17. A record that [create_document_record] has stored is found
    again.  In a session with nothing pending the call returns the row
    with the next key, the given fields and the server's time stamp;
    [get_document_by_id] with that key then returns this row, and it is
    among the rows [get_documents_by_company] returns for the company. *)
Theorem created_record_is_found (company_name file_name file_path : string)
    (vector_store_path description : option string) (s : State Ref.world) :
  Ref.session_new (world s) = [] ->
  Ref.session_deleted (world s) = [] ->
  let doc :=
    {| Model.id := Some (Ref.next_id (world s));
       Model.company_name := company_name;
       Model.file_name := file_name;
       Model.file_path := file_path;
       Model.vector_store_path := vector_store_path;
       Model.description := description;
       Model.created_at := Some (Ref.now (world s));
       Model.updated_at := None |} in
  exists s1,
    CompanyDocumentService.create_document_record
      company_name file_name file_path vector_store_path description s = (Return doc, s1)
    /\ Ref.fs (world s1) = Ref.fs (world s)
    /\ (exists s2,
          CompanyDocumentService.get_document_by_id (Ref.next_id (world s)) s1
            = (Return (Some doc), s2))
    /\ (exists docs s2,
          CompanyDocumentService.get_documents_by_company company_name s1
            = (Return docs, s2)
          /\ doc ∈ docs).
Proof.
  intros Hnew Hdeleted doc.
  eexists. split; [|split; [|split]].
  - by apply create_document_record_run.
  - reflexivity.
  - eexists. unfold CompanyDocumentService.get_document_by_id.
    apply try_except_run. unfold CompanyDocumentService.get_document_by_id_try.
    apply call_run. ref_ops. unfold Ref.ref_db_query_first_by_id.
    cbn [world Ref.table Ref.set_session Ref.flush_new].
    rewrite lookup_insert_eq. reflexivity.
  - eexists _, _. split.
    + unfold CompanyDocumentService.get_documents_by_company.
      apply try_except_run. unfold CompanyDocumentService.get_documents_by_company_try.
      apply call_run. ref_ops. unfold Ref.ref_db_query_by_company. reflexivity.
    + cbn [world Ref.table Ref.set_session Ref.flush_new].
      apply list_elem_of_filter. split; [done|].
      apply list_elem_of_fmap. exists (Ref.next_id (world s), doc). split; [done|].
      apply elem_of_map_to_list. apply lookup_insert_eq.
Qed.

(** X18. The life of a knowledge base.  After [upload_and_process_pdf]
    has returned for a company, [check_company_knowledge_base_exists]
    answers [True] for it; [delete_company_knowledge_base] then returns
    [True]; and after that the check answers [False]. *)
Theorem knowledge_base_life_cycle (self : KnowledgeBaseService.t)
    (file_path company_name : string) (description : option string)
    (s s1 : State Ref.world) (r : KnowledgeBaseService.UploadResult) :
  KnowledgeBaseService.upload_and_process_pdf self file_path company_name description s
    = (Return r, s1) ->
  exists s2 s3 s4,
    KnowledgeBaseService.check_company_knowledge_base_exists self company_name s1
      = (Return true, s2)
    /\ world s2 = world s1
    /\ KnowledgeBaseService.delete_company_knowledge_base self company_name s2
       = (Return true, s3)
    /\ KnowledgeBaseService.check_company_knowledge_base_exists self company_name s3
       = (Return false, s4).
Proof.
  intros Hrun.
  apply upload_returns_ref in Hrun as (content & documents & splits & _ & _ & _ & Hthere & _).
  set (p := KnowledgeBaseService.get_vector_store_path self company_name) in *.
  eexists _, _, _. split; [|split; [|split]].
  - unfold KnowledgeBaseService.check_company_knowledge_base_exists. fold p.
    apply call_run. ref_ops. unfold Ref.ref_path_exists. rewrite Hthere.
    by rewrite bool_decide_eq_true_2 by eauto.
  - reflexivity.
  - unfold KnowledgeBaseService.delete_company_knowledge_base. apply try_except_run.
    unfold KnowledgeBaseService.delete_company_knowledge_base_try. fold p.
    erewrite bind_run.
    2:{ apply call_run. ref_ops. unfold Ref.ref_path_exists. cbn [world]. rewrite Hthere.
        by rewrite bool_decide_eq_true_2 by eauto. }
    cbv beta iota.
    erewrite bind_run.
    2:{ apply call_run. ref_ops. unfold Ref.ref_shutil_rmtree. cbn [world].
        rewrite Hthere. reflexivity. }
    erewrite bind_run; [|reflexivity]. reflexivity.
  - unfold KnowledgeBaseService.check_company_knowledge_base_exists. fold p.
    apply call_run. ref_ops. unfold Ref.ref_path_exists.
    cbn [world Ref.fs Ref.set_fs]. rewrite remove_tree_self.
    by rewrite bool_decide_eq_false_2 by (by intros [? ?]).
Qed.


End RefWorldMore.


(** ** The routes as compositions of the services *)

(** X20. The upload route undoes nothing.  Once the file is saved, a
    failure of [upload_and_process_pdf] or of [create_document_record]
    ends the request with status 500 and the service's message, in the
    very state in which the service failed: the saved file stays, and so
    does a store that was already built. *)
Theorem upload_route_has_no_cleanup `{Builtins} {W : Type} `{Externals W}
    (app : Routes.services) (company_name : string) (file : Routes.UploadFile)
    (description : option string) (s s1 : State W) (p : string) :
  let file_name := default "" (Routes.filename file) in
  Routes.bad_filename (Routes.filename file) = false ->
  Py.bytes_startswith (Routes.file_content file) Routes.pdf_magic = true ->
  CompanyDocumentService.save_uploaded_file (Routes.company_document_service app)
    (Routes.file_content file) company_name file_name s = (Return p, s1) ->
  (forall e s2,
     KnowledgeBaseService.upload_and_process_pdf (Routes.knowledge_base_service app)
       p company_name description s1 = (Raise e, s2) ->
     Routes.upload_pdf app company_name file description s
     = (Raise (HTTPException 500 (exc_str e)), s2))
  /\ (forall info s2 e s3,
        KnowledgeBaseService.upload_and_process_pdf (Routes.knowledge_base_service app)
          p company_name description s1 = (Return info, s2) ->
        CompanyDocumentService.create_document_record company_name file_name p
          (Some (KnowledgeBaseService.vector_store_path info)) description s2
          = (Raise e, s3) ->
        Routes.upload_pdf app company_name file description s
        = (Raise (HTTPException 500 (exc_str e)), s3)).
Proof.
  intros file_name Hname Hmagic Hsave.
  split.
  - intros e s2 Hprocess.
    unfold Routes.upload_pdf. erewrite try_except_handle.
    2:{ unfold Routes.upload_pdf_try. rewrite Hname, Hmagic.
        erewrite bind_run; [|reflexivity].
        erewrite bind_run; [|reflexivity].
        erewrite bind_run; [|apply lift_run; exact Hsave].
        apply bind_run_raise. apply lift_run_raise. exact Hprocess. }
    reflexivity.
  - intros info s2 e s3 Hprocess Hrecord.
    unfold Routes.upload_pdf. erewrite try_except_handle.
    2:{ unfold Routes.upload_pdf_try. rewrite Hname, Hmagic.
        erewrite bind_run; [|reflexivity].
        erewrite bind_run; [|reflexivity].
        erewrite bind_run; [|apply lift_run; exact Hsave].
        erewrite bind_run; [|apply lift_run; exact Hprocess].
        apply bind_run_raise. apply lift_run_raise. exact Hrecord. }
    reflexivity.
Qed.

Lemma for_each_app {W E A} (xs ys : list A) (body : A -> M W E unit) s s1 :
  for_each xs body s = (Return tt, s1) ->
  for_each (xs ++ ys)%list body s = for_each ys body s1.
Proof.
  revert s. induction xs as [|x xs IH]; intros s Hrun.
  - cbn in Hrun. unfold ret in Hrun. by simplify_eq.
  - cbn [for_each app] in *. apply bind_Return in Hrun as (u & s0 & Hx & Hrest).
    erewrite bind_run by exact Hx. by apply IH.
Qed.

(** X21. The cascade of the company deletion stops at the first failure.
    When the rows before some row of the company have been dealt with and
    [delete_document] raises for that row, the request ends with status
    500 and the service's message, in the very state in which that call
    failed: no later row is looked at, and the service's own
    [delete_company_knowledge_base] is not called.  What the deletions of
    the earlier rows have removed stays removed. *)
Theorem cascade_stops_at_first_failure `{Builtins} {W : Type} `{Externals W}
    (app : Routes.services) (company_name : string)
    (before after : list Model.CompanyDocument) (document : Model.CompanyDocument)
    (document_id : Z) (s s1 s2 s3 : State W) (e : pyexc) :
  CompanyDocumentService.get_documents_by_company company_name s
    = (Return (before ++ document :: after)%list, s1) ->
  for_each before Routes.delete_row s1 = (Return tt, s2) ->
  Model.id document = Some document_id ->
  CompanyDocumentService.delete_document document_id s2 = (Raise e, s3) ->
  Routes.delete_company_knowledge_base app company_name s
  = (Raise (HTTPException 500 (exc_str e)), s3).
Proof.
  intros Hquery Hbefore Hid Hdelete.
  unfold Routes.delete_company_knowledge_base. erewrite try_except_handle.
  2:{ unfold Routes.delete_company_knowledge_base_try.
      erewrite bind_run; [|apply lift_run; exact Hquery].
      cbv beta. apply bind_run_raise.
      erewrite for_each_app by exact Hbefore.
      cbn [for_each]. apply bind_run_raise.
      unfold Routes.delete_row. rewrite Hid.
      apply bind_run_raise. apply lift_run_raise. exact Hdelete. }
  reflexivity.
Qed.

(** X22. The listing route has no 404: whatever rows the query returns,
    none included, are the reply (200); an exception of the query gives
    500, whose detail is the exception's message behind the prefix of
    [get_documents_by_company]. *)
Theorem get_company_documents_answers {W : Type} `{Externals W}
    (company_name : string) (s : State W) :
  match db_query_by_company company_name (world s) with
  | (Return rows, w) =>
      Routes.get_company_documents company_name s
      = (Return rows, mkState w (trace s ++ [CallDbQueryByCompany company_name]))
  | (Raise e, w) =>
      Routes.get_company_documents company_name s
      = (Raise (HTTPException 500 ("Error getting documents: " +:+ exc_str e)),
         mkState w (trace s ++ [CallDbQueryByCompany company_name;
                                Log ERROR ("Error getting documents: " +:+ exc_str e)]))
  end.
Proof.
  unfold Routes.get_company_documents, Routes.get_company_documents_try, try_except, lift,
    try_except, CompanyDocumentService.get_documents_by_company, try_except,
    CompanyDocumentService.get_documents_by_company_try, call.
  destruct (db_query_by_company company_name (world s)) as [[rows|e] w]; [done|].
  unfold bind, log, emit, raise, Routes.all_to_500.
  cbn [world trace exc_str Exception str_exn]. by rewrite <- app_assoc.
Qed.

(** ** The properties above on concrete inputs *)

Section MoreExamples.
#[local] Existing Instances Examples.oracle Ref.builtins Ref.externals.

Lemma upload_of_empty_pdf_touches_nothing_witness :
  exists s1,
    KnowledgeBaseService.upload_and_process_pdf Examples.kb
      "pdf_uploads/Acme/Empty.PDF" "Acme" None Cases.empty_saved
    = (Raise (Exception "Error processing PDF: PDF file is empty or could not be read"), s1)
    /\ Ref.fs (world s1) !! "vector_stores/Acme" = Some (Ref.Dir [Examples.old_chunk]).
Proof.
  eexists. split.
  - apply (upload_of_empty_pdf_touches_nothing Examples.kb
             "pdf_uploads/Acme/Empty.PDF" "Acme" None Cases.empty_saved
             (world Cases.empty_saved)).
    reflexivity.
  - reflexivity.
Defined.

Lemma answer_question_without_store_witness :
  (KnowledgeBaseService.answer_question Examples.kb "Nobody" "What is your policy?"
     Examples.start).1
  = Raise (Exception
             ("Error answering question: No knowledge base found for company: Nobody"
              +:+ ". Please upload a PDF document first.")).
Proof.
  rewrite (answer_question_without_store Examples.kb "Nobody" "What is your policy?"
             Examples.start Examples.world0); [reflexivity|].
  vm_compute. reflexivity.
Defined.

Lemma answer_question_defaults_witness :
  match KnowledgeBaseService.answer_question Examples.kb "Acme" "What is your policy?"
          Examples.start with
  | (Return r, _) => KnowledgeBaseService.answer r = "This is a test answer"
  | (Raise _, _) => False
  end.
Proof.
  destruct (KnowledgeBaseService.answer_question Examples.kb "Acme" "What is your policy?"
              Examples.start) as [[r|e] s'] eqn:Hrun.
  - destruct (answer_question_defaults _ _ _ _ _ _ Hrun)
      as (qa & w & w' & Hqa & _ & Htext & _).
    apply Htext. vm_compute in Hqa. by injection Hqa as <- _.
  - vm_compute in Hrun. discriminate.
Defined.

Lemma rejected_upload_has_no_effect_witness :
  Routes.upload_pdf Examples.app "Acme" Examples.text_upload None Examples.start
  = (Raise (HTTPException 400 "File must be a PDF (.pdf)"), Examples.start).
Proof.
  apply (proj1 (rejected_upload_has_no_effect Examples.app "Acme" Examples.text_upload None
                  Examples.start)).
  reflexivity.
Defined.

Lemma delete_unknown_company_succeeds_witness :
  (Routes.delete_company_knowledge_base Examples.app "Nobody" Examples.start).1
  = Return {| Routes.message := "All documents and knowledge base deleted for company: Nobody";
              Routes.subject := "Nobody" |}.
Proof.
  rewrite (delete_unknown_company_succeeds Examples.app "Nobody" Examples.start
             Examples.world0 Examples.world0); [reflexivity| |];
    vm_compute; reflexivity.
Defined.

Lemma question_after_store_vanished_witness :
  (@Routes.ask_question Ref.builtins Ref.world Cases.externals_unreliable
     Examples.app Examples.acme_question Examples.start).1
  = Raise (HTTPException 500
             ("Error answering question: No knowledge base found for company: Acme"
              +:+ ". Please upload a PDF document first.")).
Proof.
  eapply (@question_after_store_vanished Ref.builtins Ref.world Cases.externals_unreliable
            Examples.app Examples.acme_question Examples.start);
    vm_compute; reflexivity.
Defined.

Lemma delete_document_stops_at_failed_rmtree_witness :
  exists s1,
    CompanyDocumentService.delete_document 1 Cases.store_is_file
    = (Raise (Exception ("Error deleting document: "
                         +:+ exc_str (Ref.NotADirectoryError "vector_stores/Acme"))), s1)
    /\ Ref.fs (world s1) !! "pdf_uploads/Acme/report.pdf" = None
    /\ Ref.table (world s1) !! 1%Z = Some Examples.row1.
Proof.
  set (w1 := world Cases.store_is_file).
  set (w2 := Ref.set_fs w1 (delete "pdf_uploads/Acme/report.pdf" (Ref.fs w1))).
  assert (Hthm := delete_document_stops_at_failed_rmtree 1 Examples.row1
                    "vector_stores/Acme" (Ref.NotADirectoryError "vector_stores/Acme")
                    Cases.store_is_file w1 w2 w2).
  cbv zeta in Hthm.
  specialize (Hthm ltac:(vm_compute; reflexivity) ltac:(vm_compute; reflexivity)
                   ltac:(vm_compute; reflexivity) ltac:(vm_compute; reflexivity)
                   ltac:(vm_compute; reflexivity) ltac:(vm_compute; reflexivity)).
  cbn [db_rollback Ref.externals Ref.ref_db_rollback] in Hthm.
  eexists. split; [exact Hthm|]. vm_compute. split; reflexivity.
Defined.

Lemma chat_uses_session_only_by_default_witness :
  (OpenAIService.get_assistant_response Examples.chat "salam" "s-1" "fa" Examples.start).1
  = Return (Py.VList [Py.VStr "salam"]).
Proof.
  destruct (chat_uses_session_only_by_default Examples.chat "salam" "s-1" "fa" Examples.start)
    as (evs & Hrun & _); [reflexivity | vm_compute; reflexivity |].
  rewrite Hrun. reflexivity.
Defined.

Lemma chat_direct_then_session_witness :
  (OpenAIService.get_assistant_response Examples.chat "salam" "s-1" "fa" Examples.direct).1
  = Return (Py.VList [Py.VStr "salam"]).
Proof.
  destruct (chat_direct_then_session Examples.chat "salam" "s-1" "fa" Examples.direct)
    as (evs & Hrun); [reflexivity | vm_compute; reflexivity |].
  remember (OpenAIService.get_assistant_response Examples.chat "salam" "s-1" "fa"
              Examples.direct) as outcome eqn:Houtcome.
  clear Houtcome. vm_compute in Hrun. destruct Hrun as [-> _]. reflexivity.
Defined.

Lemma chat_stops_when_pool_clear_fails_witness :
  (@OpenAIService.get_assistant_response Ref.builtins Ref.world Cases.externals_unreliable
     Cases.pooled_chat "salam" "s-1" "fa" Examples.start).1
  = Raise (PyExc "RuntimeError" "pool is closed").
Proof.
  destruct (@chat_stops_when_pool_clear_fails Ref.builtins Ref.world Cases.externals_unreliable
              Cases.pooled_chat "salam" "s-1" "fa" Examples.start
              (PyExc "RuntimeError" "pool is closed") Examples.world0)
    as (evs & Hrun & _); [reflexivity | reflexivity |].
  by rewrite Hrun.
Defined.


Lemma save_uploaded_file_last_write_wins_witness :
  match CompanyDocumentService.save_uploaded_file Examples.uploads Examples.pdf_bytes
          "a b" "plan.pdf" Examples.start with
  | (Return p1, s1) =>
      match CompanyDocumentService.save_uploaded_file Examples.uploads Cases.draft_bytes
              "a_b" "plan.pdf" s1 with
      | (Return p2, s2) =>
          p2 = p1 /\ Ref.fs (world s2) !! p1 = Some (Ref.File Cases.draft_bytes)
      | (Raise _, _) => False
      end
  | (Raise _, _) => False
  end.
Proof.
  destruct (CompanyDocumentService.save_uploaded_file Examples.uploads Examples.pdf_bytes
              "a b" "plan.pdf" Examples.start) as [[p1|e] s1] eqn:Hfirst.
  - destruct (CompanyDocumentService.save_uploaded_file Examples.uploads Cases.draft_bytes
                "a_b" "plan.pdf" s1) as [[p2|e] s2] eqn:Hsecond.
    + destruct (save_uploaded_file_last_write_wins _ _ _ _ _ _ _ _ _ _ _
                  (eq_refl : Spec.normalize "a b" = Spec.normalize "a_b") Hfirst Hsecond)
        as (Hsame & _ & Hdisk).
      by split.
    + assert (Hvalue := Hfirst). vm_compute in Hvalue. injection Hvalue as _ <-.
      vm_compute in Hsecond. discriminate.
  - vm_compute in Hfirst. discriminate.
Defined.

Lemma created_record_is_found_witness :
  exists s1,
    CompanyDocumentService.create_document_record "Acme" "plan.pdf"
      "pdf_uploads/Acme/plan.pdf" (Some "vector_stores/Acme") None Examples.start
    = (Return Cases.plan_row, s1)
    /\ (CompanyDocumentService.get_document_by_id 2 s1).1 = Return (Some Cases.plan_row).
Proof.
  destruct (created_record_is_found "Acme" "plan.pdf" "pdf_uploads/Acme/plan.pdf"
              (Some "vector_stores/Acme") None Examples.start eq_refl eq_refl)
    as (s1 & Hrun & _ & (s2 & Hget) & _).
  exists s1. split; [exact Hrun|].
  exact (f_equal fst Hget).
Defined.

Lemma knowledge_base_life_cycle_witness :
  match KnowledgeBaseService.upload_and_process_pdf Examples.kb
          "pdf_uploads/Acme/report.pdf" "Acme" None Examples.start with
  | (Return _, s1) =>
      exists s2,
        KnowledgeBaseService.check_company_knowledge_base_exists Examples.kb "Acme" s1
        = (Return true, s2)
  | (Raise _, _) => False
  end.
Proof.
  destruct (KnowledgeBaseService.upload_and_process_pdf Examples.kb
              "pdf_uploads/Acme/report.pdf" "Acme" None Examples.start)
    as [[r|e] s1] eqn:Hrun.
  - destruct (knowledge_base_life_cycle _ _ _ _ _ _ _ Hrun) as (s2 & _ & _ & Hthere & _).
    by exists s2.
  - vm_compute in Hrun. discriminate.
Defined.


Lemma upload_route_has_no_cleanup_witness :
  exists s2,
    Routes.upload_pdf Examples.app "Acme" Examples.empty_pdf_upload None Examples.start
    = (Raise (HTTPException 500
                "Error processing PDF: PDF file is empty or could not be read"), s2)
    /\ Ref.fs (world s2) !! "pdf_uploads/Acme/Empty.PDF" = Some (Ref.File Routes.pdf_magic)
    /\ Ref.table (world s2) = Ref.table Examples.world0.
Proof.
  destruct (CompanyDocumentService.save_uploaded_file Examples.uploads Routes.pdf_magic
              "Acme" "Empty.PDF" Examples.start) as [[p|e] s1] eqn:Hsave.
  2:{ vm_compute in Hsave. discriminate. }
  destruct (KnowledgeBaseService.upload_and_process_pdf Examples.kb p "Acme" None s1)
    as [[info|e] s2] eqn:Hprocess.
  { assert (Hvalue := Hsave). vm_compute in Hvalue. injection Hvalue as <- <-.
    vm_compute in Hprocess. discriminate. }
  exists s2.
  rewrite (proj1 (upload_route_has_no_cleanup Examples.app "Acme" Examples.empty_pdf_upload
                    None Examples.start s1 p eq_refl eq_refl Hsave) e s2 Hprocess).
  assert (Hvalue := Hsave). vm_compute in Hvalue. injection Hvalue as <- <-.
  vm_compute in Hprocess. injection Hprocess as <- <-.
  vm_compute. repeat split; reflexivity.
Defined.

Lemma cascade_stops_at_first_failure_witness :
  exists s3,
    Routes.delete_company_knowledge_base Examples.app "Acme" Cases.two_rows
    = (Raise (HTTPException 500
                ("Error deleting document: "
                 +:+ exc_str (Ref.IsADirectoryError "pdf_uploads/Acme"))), s3)
    /\ Ref.table (world s3) !! 2%Z = None
    /\ Ref.table (world s3) !! 1%Z = Some Cases.dir_row
    /\ Ref.fs (world s3) !! "vector_stores/Acme" = None
    /\ Ref.fs (world s3) !! "pdf_uploads/Acme" = Some (Ref.Dir []).
Proof.
  destruct (CompanyDocumentService.get_documents_by_company "Acme" Cases.two_rows)
    as [[rows|e] s1] eqn:Hquery.
  2:{ vm_compute in Hquery. discriminate. }
  assert (Hrows : rows = ([Cases.plan_row] ++ Cases.dir_row :: [])%list
                  /\ s1 = mkState (world Cases.two_rows) [CallDbQueryByCompany "Acme"]).
  { vm_compute in Hquery. by injection Hquery as <- <-. }
  destruct Hrows as [-> ->].
  destruct (for_each [Cases.plan_row] Routes.delete_row
              (mkState (world Cases.two_rows) [CallDbQueryByCompany "Acme"]))
    as [[[]|e] s2] eqn:Hbefore.
  2:{ vm_compute in Hbefore. discriminate. }
  destruct (CompanyDocumentService.delete_document 1 s2) as [[deleted|e] s3] eqn:Hdelete.
  { assert (Hvalue := Hbefore). vm_compute in Hvalue. injection Hvalue as <-.
    vm_compute in Hdelete. discriminate. }
  exists s3.
  rewrite (cascade_stops_at_first_failure Examples.app "Acme" [Cases.plan_row] []
             Cases.dir_row 1 Cases.two_rows _ s2 s3 e Hquery Hbefore eq_refl Hdelete).
  assert (Hvalue := Hbefore). vm_compute in Hvalue. injection Hvalue as <-.
  vm_compute in Hdelete. injection Hdelete as <- <-.
  vm_compute. repeat split; reflexivity.
Defined.

End MoreExamples.
